(** * geotiff_to_gsb: a shallow embedding of the GeoTIFF to NTv2/WINTER converter

    The script [geotiff_to_gsb.py] reads a geoid raster (and, optionally, two
    deflection-of-vertical rasters), validates that their geotransforms agree,
    derives the grid extent and writes the grid as an NTv2 text file ([asc]),
    an NTv2 binary file ([gsb]) or a WINTER [.dat] file.

    Conventions of the embedding.
    - Coordinates, increments and seconds of arc are Python floats on which the
      script does arithmetic. A float is modelled by the rational it is equal
      to, and every float operation rounds its exact result to the nearest
      binary64 number ([Py.binary64]). An operation whose exact result lies
      beyond the largest float gives an infinity in Python; such results are
      outside the embedding, and [Py.finite] is the condition that excludes
      them. A decimal literal is read as the nearest float.
    - Raster samples and the null value are Python floats that are only tested
      with [math.isnan] and copied; they are IEEE doubles ([PrimFloat.float]).
    - Python [int]s are [Z]; [bytes] is [list byte]; [str] is [string], each
      character of a [string] standing for the code point of its number
      (0 to 255), so [String.length] counts code points as Python's [len]
      does; [bytes(s, 'utf-8')] takes two bytes for a code point from 128 on.
      Strings with code points beyond 255 are outside the embedding.
    - The script is one straight line of module-level code; it is modelled by
      the function [run], from the configuration and the opened rasters to
      an [outcome]. *)

From Stdlib Require Import ZArith QArith Qround Qabs Qpower Lqa Lia.
From Stdlib Require Import List String Ascii Strings.Byte Bool Floats.
Import ListNotations.

Local Open Scope Z_scope.

(* ====================================================================== *)
(** ** Python built-ins used by the script *)
(* ====================================================================== *)

Module Py.

(** Boolean comparisons of floats (and of a float with an integer):
    [a < b] and [a > b]. *)
Definition ltb (a b : Q) : bool := negb (Qle_bool b a).
Definition gtb (a b : Q) : bool := negb (Qle_bool a b).

(** The integer nearest to [q], a tie going to the even neighbour. *)
Definition round_half_even (q : Q) : Z :=
  let n := Qfloor q in
  match (q - inject_Z n ?= 1 # 2)%Q with
  | Lt => n
  | Gt => n + 1
  | Eq => if Z.even n then n else n + 1
  end.

(** The integer [l] with [2 ** l <= q < 2 ** (l + 1)], for a positive [q]. *)
Definition ilog2 (q : Q) : Z :=
  let l := Z.log2 (Qnum q) - Z.log2 (Zpos (Qden q)) in
  if Qle_bool (2 ^ l) q then l else l - 1.

(** The binary floating-point number nearest to a positive [q], ties to
    even, in the format of precision [prec] whose least exponent is [emin]:
    [q] is scaled to an integer of at most [prec] bits, rounded, and scaled
    back. *)
Definition nearest_pos (prec emin : Z) (q : Q) : Q :=
  let e := Z.max (ilog2 q - (prec - 1)) emin in
  (inject_Z (round_half_even (q / 2 ^ e)) * 2 ^ e)%Q.

Definition nearest (prec emin : Z) (q : Q) : Q :=
  let q := Qred q in
  match Qnum q with
  | Z0 => 0%Q
  | Zpos _ => nearest_pos prec emin q
  | Zneg _ => (- nearest_pos prec emin (- q))%Q
  end.

(** Rounding to binary64 (53 bits, least exponent -1074): what a float
    operation does to its exact result. Overflow to infinity is outside the
    embedding. *)
Definition binary64 (q : Q) : Q := nearest 53 (-1074) q.

(** The largest float, [sys.float_info.max], and the exact results that a
    float operation rounds to a float and not to an infinity. *)
Definition max_float : Q := ((2 ^ 53 - 1) * 2 ^ 971)%Q.
Definition finite (q : Q) : bool := Qle_bool (Qabs q) max_float.

(** [a * b], [a - b] and [a + b] on floats, and the float of an integer. *)
Definition mul (a b : Q) : Q := binary64 (a * b).
Definition sub (a b : Q) : Q := binary64 (a - b).
Definition add (a b : Q) : Q := binary64 (a + b).
Definition float_of_int (z : Z) : Q := binary64 (inject_Z z).

(** [round(x, ndigits)] on a float: the decimal of [ndigits] places nearest
    to [x], ties to even, read back as a float. *)
Definition round (x : Q) (ndigits : Z) : Q :=
  binary64 (inject_Z (round_half_even (x * 10 ^ ndigits)) / 10 ^ ndigits)%Q.

(** [10 ** -precision]: an integer power when the exponent is not negative,
    otherwise a float power, taken as the float nearest to the exact power
    (zero from 324 places on). *)
Definition pow10_neg (precision : Z) : Q :=
  if precision <=? 0 then (10 ^ (- precision))%Q
  else binary64 (10 ^ (- precision))%Q.

(** [range(start, stop, step)]; a zero step raises [ValueError] in Python and
    gives the empty list here (the script only uses steps [+1] and [-1]). *)
Definition range (start stop step : Z) : list Z :=
  let len :=
    if 0 <? step then (stop - start + step - 1) / step
    else if step <? 0 then (start - stop - step - 1) / (- step)
    else 0 in
  map (fun i => start + Z.of_nat i * step) (seq 0 (Z.to_nat len)).

(** [t.index(i)]: the position of the first element equal ([==]) to [i].
    Python raises [ValueError] when there is none; the script only looks up
    elements of [t] itself, and [index] then stays below [len(t)]. *)
Fixpoint index (i : Q) (t : list Q) : nat :=
  match t with
  | [] => O
  | j :: t' => if Qeq_bool j i then O else S (index i t')
  end.

(** [t[k]] on a tuple of floats ([IndexError] out of range, never reached by
    the script: every tuple has six components and [k] is an [index]). *)
Definition getitem (t : list Q) (k : nat) : Q := nth k t 0%Q.

(** [s[:n]] on a string. *)
Fixpoint slice_to (n : nat) (s : string) : string :=
  match n, s with
  | O, _ => EmptyString
  | S _, EmptyString => EmptyString
  | S n', String c s' => String c (slice_to n' s')
  end.

Fixpoint spaces (n : nat) : string :=
  match n with
  | O => EmptyString
  | S n' => String " " (spaces n')
  end.

(** [f'{s:8s}'] (left-justified) and [f'{s:>8s}'] (right-justified): the
    width is a minimum, a longer string is written whole. *)
Definition format_ljust (width : nat) (s : string) : string :=
  (s ++ spaces (width - String.length s))%string.
Definition format_rjust (width : nat) (s : string) : string :=
  (spaces (width - String.length s) ++ s)%string.

(** The UTF-8 encoding of one character: one byte below 128, two bytes
    from 128 to 255. *)
Definition utf8_char (c : ascii) : list byte :=
  let n := nat_of_ascii c in
  if (n <? 128)%nat then [byte_of_ascii c]
  else [ byte_of_ascii (ascii_of_nat (192 + n / 64));
         byte_of_ascii (ascii_of_nat (128 + n mod 64)) ].

(** [bytes(s, 'utf-8')]. *)
Definition bytes_utf8 (s : string) : list byte :=
  flat_map utf8_char (list_ascii_of_string s).

(** [struct.pack('8s', b)]: exactly eight bytes, [b] cut or padded with
    null bytes. *)
Definition pack_8s (b : list byte) : list byte :=
  firstn 8 b ++ repeat x00 (8 - List.length b).

End Py.

(* ====================================================================== *)
(** ** Functions of the script *)
(* ====================================================================== *)

(** GeodePy's [DMSAngle]: degrees and minutes are integers, seconds a float,
    the sign is kept apart. *)
Module DMSAngle.
Record t : Type := Build {
  positive : bool;
  degree : Z;
  minute : Z;
  second : Q
}.
End DMSAngle.

(** [check_rounding(dms_angle, precision)] updates the angle in place; the
    embedding returns the updated angle. *)
Definition check_rounding (dms_angle : DMSAngle.t) (precision : Z) : DMSAngle.t :=
  if Py.ltb (Qabs (Py.sub (Py.round (DMSAngle.second dms_angle) precision) 60))
            (Py.pow10_neg precision)
  then
    let minute := DMSAngle.minute dms_angle + 1 in
    if 60 <=? minute then
      let degree := DMSAngle.degree dms_angle + 1 in
      if 360 <=? degree
      then DMSAngle.Build (DMSAngle.positive dms_angle) (degree - 360) (minute - 60) 0
      else DMSAngle.Build (DMSAngle.positive dms_angle) degree (minute - 60) 0
    else DMSAngle.Build (DMSAngle.positive dms_angle) (DMSAngle.degree dms_angle) minute 0
  else dms_angle.

(** [check_nan(in_val, nan_val)]. *)
Definition check_nan (in_val nan_val : float) : float :=
  if PrimFloat.is_nan in_val then nan_val else in_val.

(* ====================================================================== *)
(** ** Inputs: configuration and rasters *)
(* ====================================================================== *)

(** The value of [output_type]. *)
Inductive OutputType : Type := asc | gsb | winter.

(** The block "user input and options": everything the user sets before a
    run. The ellipsoid axes come from GeodePy's [grs80]. *)
Record Config : Type := {
  output_type : OutputType;
  print_tif_metadata : bool;
  num_orec : Z;
  num_srec : Z;
  num_file : Z;
  gs_type : string;
  version : string;
  system_f : string;
  system_t : string;
  major_f : Q;
  major_t : Q;
  minor_f : Q;
  minor_t : Q;
  sub_name : string;
  parent : string;
  created : string;
  updated : string;
  null_node_val : float
}.

(** The 6-tuple of [GetGeoTransform()], named as line 177 unpacks it. *)
Record GeoTransform : Type := {
  x_ul : Q;
  x_int : Q;
  x_rot : Q;
  y_ul : Q;
  y_rot : Q;
  y_int : Q
}.

(** The tuple as the validation loop iterates and indexes it. *)
Definition extents (g : GeoTransform) : list Q :=
  [x_ul g; x_int g; x_rot g; y_ul g; y_rot g; y_int g].

(** An opened GeoTIFF: the file's [name] and [stem], the raster size, the
    geotransform and band 1 read as an array, indexed [values[y][x]]. The
    array is a total function: the loops visit the cells of the geoid raster
    only, and a companion raster is taken to cover them (the script does not
    compare the raster sizes). *)
Record Raster : Type := {
  name : string;
  stem : string;
  RasterXSize : Z;
  RasterYSize : Z;
  GetGeoTransform : GeoTransform;
  ReadAsArray : Z -> Z -> float
}.

(** The files of a run: the geoid raster, which lines 73-78 require to exist,
    and the two optional deflection-of-vertical files ([None]: no such file). *)
Record Files : Type := {
  tif_nval_file : Raster;
  tif_dov_pm_file : option Raster;
  tif_dov_pv_file : option Raster
}.

Definition is_file (f : option Raster) : bool :=
  match f with Some _ => true | None => false end.

(** Line 58; both conjuncts test the prime-vertical file. *)
Definition read_dov (fs : Files) : bool :=
  if is_file (tif_dov_pv_file fs) && is_file (tif_dov_pv_file fs) then true else false.

(* ====================================================================== *)
(** ** Validation of the grid composition (lines 150-171) *)
(* ====================================================================== *)

(** The literal [0.00000000001]. *)
Definition match_precision : Q := Py.binary64 (1 # 100000000000).

(** One entry of [grid_mismatch]: the two file names, the reported index and
    the two values, as [mismatch_str] interpolates them. *)
Record Mismatch : Type := {
  mm_nval_name : string;
  mm_dov_name : string;
  mm_index : nat;
  mm_nval_value : Q;
  mm_dov_value : Q
}.

(** The two tests of one loop iteration on the component value [i]. *)
Definition mismatch_of (gt_n : Raster) (gt_dov : Raster) (i : Q) : list Mismatch :=
  let gt_n_extents := extents (GetGeoTransform gt_n) in
  let gt_dov_extents := extents (GetGeoTransform gt_dov) in
  if Py.gtb (Qabs (Py.sub i (Py.getitem gt_dov_extents (Py.index i gt_n_extents))))
            match_precision
  then [ {| mm_nval_name := name gt_n;
            mm_dov_name := name gt_dov;
            mm_index := Py.index i gt_n_extents;
            mm_nval_value := i;
            mm_dov_value := Py.getitem gt_dov_extents (Py.index i gt_n_extents) |} ]
  else [].

(** The list [grid_mismatch] after the loop of lines 157-165. *)
Definition grid_mismatch (gt_n gt_pm gt_pv : Raster) : list Mismatch :=
  flat_map (fun i => mismatch_of gt_n gt_pm i ++ mismatch_of gt_n gt_pv i)
           (extents (GetGeoTransform gt_n)).

(* ====================================================================== *)
(** ** Grid extents (lines 177-185) *)
(* ====================================================================== *)

Local Open Scope Q_scope.

Definition gs_count (gt_n : Raster) : Z :=
  (RasterXSize gt_n * RasterYSize gt_n)%Z.

Definition lat_inc (gt_n : Raster) : Q :=
  Py.round (Py.mul (Qabs (y_int (GetGeoTransform gt_n))) 3600) 0.

Definition lon_inc (gt_n : Raster) : Q :=
  Py.round (Py.mul (x_int (GetGeoTransform gt_n)) 3600) 0.

Definition n_lat (gt_n : Raster) : Q :=
  Py.mul (Py.round (y_ul (GetGeoTransform gt_n)) 0) 3600.

Definition s_lat (gt_n : Raster) : Q :=
  Py.sub (Py.mul (y_ul (GetGeoTransform gt_n)) 3600)
         (Py.mul (Py.float_of_int (RasterYSize gt_n - 1)) (lat_inc gt_n)).

Definition e_lon (gt_n : Raster) : Q :=
  Py.sub (Py.mul (- x_ul (GetGeoTransform gt_n)) 3600)
         (Py.mul (Py.float_of_int (RasterXSize gt_n - 1)) (lon_inc gt_n)).

Definition w_lon (gt_n : Raster) : Q :=
  Py.mul (- x_ul (GetGeoTransform gt_n)) 3600.

Local Close Scope Q_scope.

(* ====================================================================== *)
(** ** What a run writes *)
(* ====================================================================== *)

(** One record of the text header: the key and the interpolated value, one
    constructor per format specification. *)
Inductive AscItem : Type :=
| asc_8d (key : string) (v : Z)        (* f'KEY{v:8d}\n' *)
| asc_r8s (key : string) (v : string)  (* f'KEY{v:>8s}\n' *)
| asc_8s (key : string) (v : string)   (* f'KEY{v:8s}\n' *)
| asc_16_3f (key : string) (v : Q)     (* f'KEY{v:16.3f}\n' *)
| asc_16_6f (key : string) (v : Q).    (* f'KEY{v:16.6f}\n' *)

(** One 16-byte record of the binary header: [struct.pack('8s', key)]
    followed by the packed value. *)
Inductive GsbItem : Type :=
| gsb_i (key : string) (v : Z)         (* + struct.pack('i', v) + pad_4 *)
| gsb_8s (key : string) (v : string)   (* + struct.pack('8s', bytes(f'{v:8s}', 'utf-8')) *)
| gsb_d (key : string) (v : Q).        (* + struct.pack('d', v) *)

(** The four channels of a node, in the order they are written: the floats
    handed to ['%10.6f'] by the text writer and to [struct.pack('f', v)] by
    the binary writer, which stores each in single precision. *)
Definition Node : Type := (float * float * float * float)%type.

(** One [GEO] line of the WINTER file: the geoid value, the two angles that
    [lat_str] and [lon_str] print, and the two deflections. *)
Record WinterNode : Type := {
  wn_n_val : float;
  wn_lat : DMSAngle.t;
  wn_lon : DMSAngle.t;
  wn_pm_val : float;
  wn_pv_val : float
}.

Inductive Output : Type :=
| AscFile (asc_header sub_header : list AscItem) (nodes : list Node) (end_marker : string)
| GsbFile (header sub_header : list GsbItem) (nodes : list Node)
          (end_key : list byte) (end_value : Q)
| WinterFile (title : string) (nodes : list WinterNode).

(** How a run ends. *)
Inductive Outcome : Type :=
| OpenError                              (* [gdal.Open] raises on a missing file *)
| MismatchExit (report : list Mismatch)  (* lines 167-171: report and [exit()] *)
| MetadataExit                           (* lines 187-199: summary and [exit()] *)
| StructError                            (* [struct.pack] raises while writing *)
| Written (out : Output).

(** The text a string item puts after its key, and the bytes a binary string
    record carries after its key. *)
Definition asc_str_text (it : AscItem) : option string :=
  match it with
  | asc_r8s _ v => Some (Py.format_rjust 8 v)
  | asc_8s _ v => Some (Py.format_ljust 8 v)
  | _ => None
  end.

Definition gsb_str_bytes (it : GsbItem) : option (list byte) :=
  match it with
  | gsb_8s _ v => Some (Py.pack_8s (Py.bytes_utf8 (Py.format_ljust 8 v)))
  | _ => None
  end.

(** [struct.pack('i', v)] accepts the signed 32-bit integers and raises
    [struct.error] on any other; [struct.pack('f', v)] and
    [struct.pack('d', v)] never raise in the native mode the script uses. *)
Definition pack_i_ok (v : Z) : bool :=
  (- 2 ^ 31 <=? v) && (v <? 2 ^ 31).

Definition gsb_item_ok (it : GsbItem) : bool :=
  match it with
  | gsb_i _ v => pack_i_ok v
  | _ => true
  end.

(* ====================================================================== *)
(** ** The three writers (lines 215-343) *)
(* ====================================================================== *)

Section Writers.

(** GeodePy's [convert.dec2dms], outside this repository. *)
Variable dec2dms : Q -> DMSAngle.t.

Variable cfg : Config.
Variable gt_n : Raster.
(** The opened deflection rasters [(gt_pm, gt_pv)] when [read_dov]. *)
Variable dov : option (Raster * Raster).

Definition values_n (y x : Z) : float := ReadAsArray gt_n y x.

(** Lines 218-230. *)
Definition asc_header : list AscItem :=
  [ asc_8d "NUM_OREC" (num_orec cfg);
    asc_8d "NUM_SREC" (num_srec cfg);
    asc_8d "NUM_FILE" (num_file cfg);
    asc_r8s "GS_TYPE " (gs_type cfg);
    asc_r8s "VERSION " (version cfg);
    asc_r8s "SYSTEM_F" (system_f cfg);
    asc_r8s "SYSTEM_T" (system_t cfg);
    asc_16_3f "MAJOR_F " (major_f cfg);
    asc_16_3f "MINOR_F " (minor_f cfg);
    asc_16_3f "MAJOR_T " (major_t cfg);
    asc_16_3f "MINOR_T " (minor_t cfg) ].

(** Lines 233-245. *)
Definition asc_sub_header : list AscItem :=
  [ asc_8s "SUB_NAME" (sub_name cfg);
    asc_8s "PARENT  " (parent cfg);
    asc_8s "CREATED " (created cfg);
    asc_8s "UPDATED " (updated cfg);
    asc_16_6f "S_LAT   " (s_lat gt_n);
    asc_16_6f "N_LAT   " (n_lat gt_n);
    asc_16_6f "E_LONG  " (e_lon gt_n);
    asc_16_6f "W_LONG  " (w_lon gt_n);
    asc_16_6f "LAT_INC " (lat_inc gt_n);
    asc_16_6f "LONG_INC" (lon_inc gt_n);
    asc_8d "GS_COUNT" (gs_count gt_n) ].

(** Lines 250-256: the line written for cell [(y, x)]. *)
Definition asc_node (y x : Z) : Node :=
  let n_val := check_nan (values_n y x) (null_node_val cfg) in
  match dov with
  | Some (gt_pm, gt_pv) =>
      let pm_val := check_nan (ReadAsArray gt_pm y x) (null_node_val cfg) in
      let pv_val := check_nan (ReadAsArray gt_pv y x) (null_node_val cfg) in
      (n_val, pm_val, pv_val, null_node_val cfg)
  | None =>
      (n_val, null_node_val cfg, null_node_val cfg, null_node_val cfg)
  end.

(** Lines 248-249: the two nested loops. *)
Definition asc_nodes : list Node :=
  flat_map (fun y => map (fun x => asc_node y x)
                         (Py.range (RasterXSize gt_n - 1) (-1) (-1)))
           (Py.range (RasterYSize gt_n - 1) (-1) (-1)).

(** Line 258. *)
Definition asc_end : string := Py.format_ljust 10 "END".

(** Lines 265-275. *)
Definition gsb_header : list GsbItem :=
  [ gsb_i "NUM_OREC" (num_orec cfg);
    gsb_i "NUM_SREC" (num_srec cfg);
    gsb_i "NUM_FILE" (num_file cfg);
    gsb_8s "GS_TYPE " (Py.slice_to 8 (gs_type cfg));
    gsb_8s "VERSION " (Py.slice_to 8 (version cfg));
    gsb_8s "SYSTEM_F" (Py.slice_to 8 (system_f cfg));
    gsb_8s "SYSTEM_T" (Py.slice_to 8 (system_t cfg));
    gsb_d "MAJOR_F " (major_f cfg);
    gsb_d "MINOR_F " (minor_f cfg);
    gsb_d "MAJOR_T " (major_t cfg);
    gsb_d "MINOR_T " (minor_t cfg) ].

(** Lines 280-290. *)
Definition gsb_sub_header : list GsbItem :=
  [ gsb_8s "SUB_NAME" (Py.slice_to 8 (sub_name cfg));
    gsb_8s "PARENT  " (Py.slice_to 8 (parent cfg));
    gsb_8s "CREATED " (Py.slice_to 8 (created cfg));
    gsb_8s "UPDATED " (Py.slice_to 8 (updated cfg));
    gsb_d "S_LAT   " (s_lat gt_n);
    gsb_d "N_LAT   " (n_lat gt_n);
    gsb_d "E_LONG  " (e_lon gt_n);
    gsb_d "W_LONG  " (w_lon gt_n);
    gsb_d "LAT_INC " (lat_inc gt_n);
    gsb_d "LONG_INC" (lon_inc gt_n);
    gsb_i "GS_COUNT" (gs_count gt_n) ].

(** Lines 297-310: the sixteen bytes written for cell [(y, x)]. *)
Definition gsb_node (y x : Z) : Node :=
  let n_val := check_nan (values_n y x) (null_node_val cfg) in
  let n_val := if PrimFloat.is_nan n_val then null_node_val cfg else n_val in
  match dov with
  | Some (gt_pm, gt_pv) =>
      let pm_val := check_nan (ReadAsArray gt_pm y x) (null_node_val cfg) in
      let pv_val := check_nan (ReadAsArray gt_pv y x) (null_node_val cfg) in
      (n_val, pm_val, pv_val, null_node_val cfg)
  | None =>
      (n_val, null_node_val cfg, null_node_val cfg, null_node_val cfg)
  end.

(** Lines 295-296. *)
Definition gsb_nodes : list Node :=
  flat_map (fun y => map (fun x => gsb_node y x)
                         (Py.range (RasterXSize gt_n - 1) (-1) (-1)))
           (Py.range (RasterYSize gt_n - 1) (-1) (-1)).

(** Lines 315-316. *)
Definition gsb_end_key : list byte := Py.pack_8s (Py.bytes_utf8 "END     ").
Definition gsb_end_value : Q := Py.binary64 (333 * 10 ^ 30).

(** Line 321; [out_file.name] is the stem followed by [_win.dat]. *)
Definition winter_title : string :=
  (Py.slice_to 20 (stem gt_n ++ "_win.dat")
   ++ Py.format_ljust 20 ""
   ++ Py.format_rjust 21 "www.ga.gov.au")%string.

(** Lines 325-326 and 330-331. *)
Definition winter_lat (y : Z) : DMSAngle.t :=
  check_rounding
    (dec2dms (Py.add (y_ul (GetGeoTransform gt_n))
                     (Py.mul (Py.float_of_int y) (y_int (GetGeoTransform gt_n))))) 3.

Definition winter_lon (x : Z) : DMSAngle.t :=
  check_rounding
    (dec2dms (Py.add (x_ul (GetGeoTransform gt_n))
                     (Py.mul (Py.float_of_int x) (x_int (GetGeoTransform gt_n))))) 3.

(** Lines 334-342: the line written for cell [(y, x)]. *)
Definition winter_node (y x : Z) : WinterNode :=
  let n_val := check_nan (values_n y x) (null_node_val cfg) in
  match dov with
  | Some (gt_pm, gt_pv) =>
      let pm_val := check_nan (ReadAsArray gt_pm y x) (null_node_val cfg) in
      let pv_val := check_nan (ReadAsArray gt_pv y x) (null_node_val cfg) in
      {| wn_n_val := n_val; wn_lat := winter_lat y; wn_lon := winter_lon x;
         wn_pm_val := pm_val; wn_pv_val := pv_val |}
  | None =>
      {| wn_n_val := n_val; wn_lat := winter_lat y; wn_lon := winter_lon x;
         wn_pm_val := null_node_val cfg; wn_pv_val := null_node_val cfg |}
  end.

(** Lines 324 and 329. *)
Definition winter_nodes : list WinterNode :=
  flat_map (fun y => map (fun x => winter_node y x)
                         (Py.range 0 (RasterXSize gt_n) 1))
           (Py.range 0 (RasterYSize gt_n) 1).

(** Lines 215-343: the branch on [output_type]. *)
Definition write_file : Outcome :=
  match output_type cfg with
  | asc => Written (AscFile asc_header asc_sub_header asc_nodes asc_end)
  | gsb =>
      if forallb gsb_item_ok gsb_header
         && forallb gsb_item_ok gsb_sub_header
      then Written (GsbFile gsb_header gsb_sub_header gsb_nodes
                            gsb_end_key gsb_end_value)
      else StructError
  | winter => Written (WinterFile winter_title winter_nodes)
  end.

End Writers.

(** The script from line 138 on. *)
Definition run (dec2dms : Q -> DMSAngle.t) (cfg : Config) (fs : Files) : Outcome :=
  let gt_n := tif_nval_file fs in
  if read_dov fs then
    match tif_dov_pm_file fs, tif_dov_pv_file fs with
    | Some gt_pm, Some gt_pv =>
        match grid_mismatch gt_n gt_pm gt_pv with
        | [] =>
            if print_tif_metadata cfg then MetadataExit
            else write_file dec2dms cfg gt_n (Some (gt_pm, gt_pv))
        | report => MismatchExit report
        end
    | _, _ => OpenError
    end
  else
    if print_tif_metadata cfg then MetadataExit
    else write_file dec2dms cfg gt_n None.

(* ====================================================================== *)
(** ** Notions the properties are stated with *)
(* ====================================================================== *)

(** [n] is an integer nearest to [q] and, when [q] lies half-way between two
    integers, the even one. *)
Definition nearest_ties_even (q : Q) (n : Z) : Prop :=
  (Qabs (q - inject_Z n) <= 1 # 2)%Q /\
  ((Qabs (q - inject_Z n) == 1 # 2)%Q -> Z.even n = true).

(** A number of the binary format of precision [prec] and least exponent
    [emin]: an integer of at most [prec] bits times a power of two. *)
Definition representable (prec emin : Z) (r : Q) : Prop :=
  exists m k : Z,
    (r == inject_Z m * 2 ^ k)%Q /\ Z.abs m <= 2 ^ prec /\ emin <= k.

(** A float: a number of binary64. *)
Definition is_float (r : Q) : Prop := representable 53 (-1074) r.

(** The comparison of component [k] of the geoid raster with component [k] of
    a companion, reported under the index [k]: what a loop over positions
    would append to [grid_mismatch]. *)
Definition mismatch_at (gt_n gt_dov : Raster) (k : nat) : list Mismatch :=
  let n_k := Py.getitem (extents (GetGeoTransform gt_n)) k in
  let dov_k := Py.getitem (extents (GetGeoTransform gt_dov)) k in
  if Py.gtb (Qabs (Py.sub n_k dov_k)) match_precision
  then [ {| mm_nval_name := name gt_n; mm_dov_name := name gt_dov;
            mm_index := k; mm_nval_value := n_k; mm_dov_value := dov_k |} ]
  else [].

(** A run of bytes without the spaces before and after it. *)
Fixpoint drop_spaces (b : list byte) : list byte :=
  match b with
  | x20 :: b' => drop_spaces b'
  | _ => b
  end.

Definition trim_spaces (b : list byte) : list byte :=
  rev (drop_spaces (rev (drop_spaces b))).

(** The key and the value of a header record, whatever its representation:
    the integer or the float the record is written from, and for a string
    what is written, as bytes (the text in UTF-8) without the spaces that
    pad it. *)
Inductive FieldValue : Type :=
| IntValue (v : Z)
| StrValue (v : list byte)
| FloatValue (v : Q).

Definition asc_field (it : AscItem) : string * FieldValue :=
  match it with
  | asc_8d k v => (k, IntValue v)
  | asc_r8s k v => (k, StrValue (trim_spaces (Py.bytes_utf8 (Py.format_rjust 8 v))))
  | asc_8s k v => (k, StrValue (trim_spaces (Py.bytes_utf8 (Py.format_ljust 8 v))))
  | asc_16_3f k v => (k, FloatValue v)
  | asc_16_6f k v => (k, FloatValue v)
  end.

Definition gsb_field (it : GsbItem) : string * FieldValue :=
  match it with
  | gsb_i k v => (k, IntValue v)
  | gsb_8s k v =>
      (k, StrValue (trim_spaces (Py.pack_8s (Py.bytes_utf8 (Py.format_ljust 8 v)))))
  | gsb_d k v => (k, FloatValue v)
  end.

(** The fixed-width string fields of a configuration, with their keys: those
    of the overview block, those of the sub-grid block, and all of them. *)
Definition overview_fields (cfg : Config) : list (string * string) :=
  [ ("GS_TYPE ", gs_type cfg); ("VERSION ", version cfg);
    ("SYSTEM_F", system_f cfg); ("SYSTEM_T", system_t cfg) ]%string.

Definition sub_grid_fields (cfg : Config) : list (string * string) :=
  [ ("SUB_NAME", sub_name cfg); ("PARENT  ", parent cfg);
    ("CREATED ", created cfg); ("UPDATED ", updated cfg) ]%string.

Definition string_fields (cfg : Config) : list (string * string) :=
  [ ("GS_TYPE ", gs_type cfg); ("VERSION ", version cfg);
    ("SYSTEM_F", system_f cfg); ("SYSTEM_T", system_t cfg);
    ("SUB_NAME", sub_name cfg); ("PARENT  ", parent cfg);
    ("CREATED ", created cfg); ("UPDATED ", updated cfg) ]%string.

(** A field that fits eight bytes, but for spaces: its UTF-8 encoding holds
    nothing but spaces after the first eight bytes. *)
Definition fits_eight_bytes (s : string) : Prop :=
  Forall (eq x20) (skipn 8 (Py.bytes_utf8 s)).

(** A string of code points below 128. *)
Definition is_ascii (s : string) : Prop :=
  Forall (fun c => (nat_of_ascii c < 128)%nat) (list_ascii_of_string s).

(** The sample of raster cell ([row], [col]) as a node carries it: the null
    value in place of NaN; and the same for a companion raster, which gives
    the null value when it is not read. *)
Definition cell (cfg : Config) (r : Raster) (row col : Z) : float :=
  if PrimFloat.is_nan (ReadAsArray r row col) then null_node_val cfg
  else ReadAsArray r row col.

Definition companion_cell (cfg : Config) (r : option Raster) (row col : Z) : float :=
  match r with
  | Some g => cell cfg g row col
  | None => null_node_val cfg
  end.

(** Every float a written file carries in its node records. *)
Definition node_channels (nd : Node) : list float :=
  let '(a, b, c, d) := nd in [a; b; c; d].

Definition output_channels (out : Output) : list float :=
  match out with
  | AscFile _ _ nodes _ => flat_map node_channels nodes
  | GsbFile _ _ nodes _ _ => flat_map node_channels nodes
  | WinterFile _ nodes =>
      flat_map (fun nd => [wn_n_val nd; wn_pm_val nd; wn_pv_val nd]) nodes
  end.

(** Replacing parts of an input. *)
Definition with_geotransform (r : Raster) (g : GeoTransform) : Raster :=
  {| name := name r; stem := stem r;
     RasterXSize := RasterXSize r; RasterYSize := RasterYSize r;
     GetGeoTransform := g; ReadAsArray := ReadAsArray r |}.

Definition without_rotation (g : GeoTransform) : GeoTransform :=
  {| x_ul := x_ul g; x_int := x_int g; x_rot := 0;
     y_ul := y_ul g; y_rot := 0; y_int := y_int g |}.

(** The same files, the geoid raster's rotation terms set to zero. *)
Definition derotate (fs : Files) : Files :=
  {| tif_nval_file :=
       with_geotransform (tif_nval_file fs)
         (without_rotation (GetGeoTransform (tif_nval_file fs)));
     tif_dov_pm_file := tif_dov_pm_file fs;
     tif_dov_pv_file := tif_dov_pv_file fs |}.

(** The same configuration with other fixed-width string fields. *)
Definition with_string_fields (cfg : Config)
           (gs_type' version' system_f' system_t'
            sub_name' parent' created' updated' : string) : Config :=
  {| output_type := output_type cfg; print_tif_metadata := print_tif_metadata cfg;
     num_orec := num_orec cfg; num_srec := num_srec cfg; num_file := num_file cfg;
     gs_type := gs_type'; version := version';
     system_f := system_f'; system_t := system_t';
     major_f := major_f cfg; major_t := major_t cfg;
     minor_f := minor_f cfg; minor_t := minor_t cfg;
     sub_name := sub_name'; parent := parent';
     created := created'; updated := updated';
     null_node_val := null_node_val cfg |}.

Definition with_output_type (cfg : Config) (t : OutputType) : Config :=
  {| output_type := t; print_tif_metadata := print_tif_metadata cfg;
     num_orec := num_orec cfg; num_srec := num_srec cfg; num_file := num_file cfg;
     gs_type := gs_type cfg; version := version cfg;
     system_f := system_f cfg; system_t := system_t cfg;
     major_f := major_f cfg; major_t := major_t cfg;
     minor_f := minor_f cfg; minor_t := minor_t cfg;
     sub_name := sub_name cfg; parent := parent cfg;
     created := created cfg; updated := updated cfg;
     null_node_val := null_node_val cfg |}.

(* ====================================================================== *)
(** ** Sample inputs *)
(* ====================================================================== *)

Module Sample.

(** Decimal literals stand for the floats Python reads them as: the pixel
    size 0.000277777778 and the semi-minor axis 6356752.314140356. *)
Definition pixel : Q := Py.binary64 (277777778 # 1000000000000).
Definition minor_axis : Q := Py.binary64 (6356752314140356 # 1000000000).

(** A [dec2dms] after GeodePy's: [divmod] of the absolute value in seconds
    by 60, then of the minutes by 60. It stands for the library function in
    the examples below. *)
Definition dec2dms (dec : Q) : DMSAngle.t :=
  let total := Py.mul (Qabs dec) 3600 in
  let minutes := Qfloor (total / 60) in
  {| DMSAngle.positive := Qle_bool 0 dec;
     DMSAngle.degree := minutes / 60;
     DMSAngle.minute := minutes mod 60;
     DMSAngle.second := (total - 60 * inject_Z minutes)%Q |}.

(** The metadata the script ships with. *)
Definition cfg (t : OutputType) : Config :=
  {| output_type := t; print_tif_metadata := false;
     num_orec := 11; num_srec := 11; num_file := 1;
     gs_type := "SECONDS "; version := "1.0.0.0 ";
     system_f := "GDA2020 "; system_t := "AHD     ";
     major_f := 6378137; major_t := 6378137;
     minor_f := minor_axis;
     minor_t := minor_axis;
     sub_name := "AUSGEOID"; parent := "NONE    ";
     created := "18062024"; updated := "18062024";
     null_node_val := (-999)%float |}.

(** A configuration whose units label has nine characters. *)
Definition cfg_long (t : OutputType) : Config :=
  {| output_type := t; print_tif_metadata := false;
     num_orec := 11; num_srec := 11; num_file := 1;
     gs_type := "SECONDSXX"; version := "1.0.0.0 ";
     system_f := "GDA2020 "; system_t := "AHD     ";
     major_f := 6378137; major_t := 6378137;
     minor_f := minor_axis;
     minor_t := minor_axis;
     sub_name := "AUSGEOID"; parent := "NONE    ";
     created := "18062024"; updated := "18062024";
     null_node_val := (-999)%float |}.

(** A configuration whose null value is itself NaN. *)
Definition cfg_nan (t : OutputType) : Config :=
  {| output_type := t; print_tif_metadata := false;
     num_orec := 11; num_srec := 11; num_file := 1;
     gs_type := "SECONDS "; version := "1.0.0.0 ";
     system_f := "GDA2020 "; system_t := "AHD     ";
     major_f := 6378137; major_t := 6378137;
     minor_f := minor_axis;
     minor_t := minor_axis;
     sub_name := "AUSGEOID"; parent := "NONE    ";
     created := "18062024"; updated := "18062024";
     null_node_val := nan |}.

(** One arc-second pixels, origin at 147 W 34 S, no rotation. *)
Definition gt : GeoTransform :=
  {| x_ul := -147; x_int := pixel; x_rot := 0;
     y_ul := -34; y_rot := 0; y_int := - pixel |}.

(** The 2 x 2 array [[1.0, 2.0], [3.0, NaN]]. *)
Definition values (y x : Z) : float :=
  if y =? 0 then (if x =? 0 then 1%float else 2%float)
  else (if x =? 0 then 3%float else nan).

Definition nval : Raster :=
  {| name := "geoid.tif"; stem := "geoid";
     RasterXSize := 2; RasterYSize := 2;
     GetGeoTransform := gt; ReadAsArray := values |}.

(** A 3 x 2 raster (three columns, two rows) on the same grid. *)
Definition nval_3x2 : Raster :=
  {| name := "geoid.tif"; stem := "geoid";
     RasterXSize := 3; RasterYSize := 2;
     GetGeoTransform := gt; ReadAsArray := values |}.

(** Deflection rasters on the grid [g]. *)
Definition pm (g : GeoTransform) : Raster :=
  {| name := "dov_pm.tif"; stem := "dov_pm";
     RasterXSize := 2; RasterYSize := 2;
     GetGeoTransform := g; ReadAsArray := fun _ _ => 0.5%float |}.

Definition pv (g : GeoTransform) : Raster :=
  {| name := "dov_pv.tif"; stem := "dov_pv";
     RasterXSize := 2; RasterYSize := 2;
     GetGeoTransform := g; ReadAsArray := fun _ _ => 0.25%float |}.

Definition files_plain (r : Raster) : Files :=
  {| tif_nval_file := r; tif_dov_pm_file := None; tif_dov_pv_file := None |}.

Definition files_dov (r gt_pm gt_pv : Raster) : Files :=
  {| tif_nval_file := r;
     tif_dov_pm_file := Some gt_pm; tif_dov_pv_file := Some gt_pv |}.

(** The grid [gt] with its y-rotation set to one. *)
Definition gt_y_rotated : GeoTransform :=
  {| x_ul := -147; x_int := pixel; x_rot := 0;
     y_ul := -34; y_rot := 1; y_int := - pixel |}.

(** The grid [gt] with its x-rotation set to one. *)
Definition gt_x_rotated : GeoTransform :=
  {| x_ul := -147; x_int := pixel; x_rot := 1;
     y_ul := -34; y_rot := 0; y_int := - pixel |}.

(** A rotated grid with six different components, and the same grid with
    another y-rotation. *)
Definition gt_skew : GeoTransform :=
  {| x_ul := -147; x_int := pixel; x_rot := Py.binary64 (1 # 10);
     y_ul := -34; y_rot := Py.binary64 (2 # 10); y_int := - pixel |}.

Definition gt_skew' : GeoTransform :=
  {| x_ul := -147; x_int := pixel; x_rot := Py.binary64 (1 # 10);
     y_ul := -34; y_rot := Py.binary64 (3 # 10); y_int := - pixel |}.

(** The grid [gt] moved to the origin latitude 34.6 S. *)
Definition gt_south : GeoTransform :=
  {| x_ul := -147; x_int := pixel; x_rot := 0;
     y_ul := - Py.binary64 (346 # 10); y_rot := 0; y_int := - pixel |}.

(** The grid [gt] with columns running westwards. *)
Definition gt_westward : GeoTransform :=
  {| x_ul := -147; x_int := - pixel; x_rot := 0;
     y_ul := -34; y_rot := 0; y_int := - pixel |}.

(** Pixels of half an arc-second and of one and a half: the floats nearest
    to 1/7200 and to 3/7200 of a degree. *)
Definition gt_half : GeoTransform :=
  {| x_ul := -147; x_int := Py.binary64 (1 # 7200); x_rot := 0;
     y_ul := -34; y_rot := 0; y_int := - Py.binary64 (1 # 7200) |}.

Definition gt_three_halves : GeoTransform :=
  {| x_ul := -147; x_int := Py.binary64 (3 # 7200); x_rot := 0;
     y_ul := -34; y_rot := 0; y_int := - Py.binary64 (3 # 7200) |}.

(** The angle 359 59 59.9996. *)
Definition angle_359_59_59_9996 : DMSAngle.t :=
  DMSAngle.Build true 359 59 (Py.binary64 (599996 # 10000)).

End Sample.

(* ====================================================================== *)
(** ** Further notions and sample inputs *)
(* ====================================================================== *)

(** A run that ended with its file written. *)
Definition is_written (o : Outcome) : bool :=
  match o with Written _ => true | _ => false end.

(** Component [k] of a companion agrees with the geoid raster's within
    [match_precision], for every [k]. *)
Definition within_tolerance (gt_n gt_dov : Raster) : Prop :=
  forall k : nat,
    (k < 6)%nat ->
    (Qabs (Py.getitem (extents (GetGeoTransform gt_n)) k
           - Py.getitem (extents (GetGeoTransform gt_dov)) k)
     <= match_precision)%Q.

(** An entry of the report that tells the truth about the companion
    [gt_dov]: it names both files and an index below six, carries the two
    components at that index and these differ by more than
    [match_precision]. *)
Definition reports_truly (gt_n gt_dov : Raster) (m : Mismatch) : Prop :=
  mm_nval_name m = name gt_n /\
  mm_dov_name m = name gt_dov /\
  (mm_index m < 6)%nat /\
  (mm_nval_value m == Py.getitem (extents (GetGeoTransform gt_n)) (mm_index m))%Q /\
  mm_dov_value m = Py.getitem (extents (GetGeoTransform gt_dov)) (mm_index m) /\
  (match_precision
   < Qabs (Py.getitem (extents (GetGeoTransform gt_n)) (mm_index m)
           - Py.getitem (extents (GetGeoTransform gt_dov)) (mm_index m)))%Q.

(** The [W] x [H] cells in raster order, row by row, each mapped by [f]. *)
Definition row_major {A : Type} (f : Z -> Z -> A) (W H : Z) : list A :=
  flat_map (fun y => map (fun x => f y x) (Py.range 0 W 1)) (Py.range 0 H 1).

(** The files of a run, the deflection files left out. *)
Definition without_dov (fs : Files) : Files :=
  {| tif_nval_file := tif_nval_file fs;
     tif_dov_pm_file := None;
     tif_dov_pv_file := None |}.

(** The value a header holds under [key], if it has such a record. *)
Fixpoint gsb_lookup (key : string) (h : list GsbItem) : option FieldValue :=
  match h with
  | [] => None
  | it :: h' =>
      if String.eqb (fst (gsb_field it)) key then Some (snd (gsb_field it))
      else gsb_lookup key h'
  end.

Fixpoint asc_lookup (key : string) (h : list AscItem) : option FieldValue :=
  match h with
  | [] => None
  | it :: h' =>
      if String.eqb (fst (asc_field it)) key then Some (snd (asc_field it))
      else asc_lookup key h'
  end.

(** The number of node records of a written file and the node count its
    header announces. *)
Definition node_records (out : Output) : nat :=
  match out with
  | AscFile _ _ nodes _ => List.length nodes
  | GsbFile _ _ nodes _ _ => List.length nodes
  | WinterFile _ nodes => List.length nodes
  end.

Definition announced_count (out : Output) : option FieldValue :=
  match out with
  | AscFile _ sub_header _ _ => asc_lookup "GS_COUNT" sub_header
  | GsbFile _ sub_header _ _ _ => gsb_lookup "GS_COUNT" sub_header
  | WinterFile _ _ => None
  end.

Module Sample2.

(** A raster of 65536 x 32768 cells on the grid [Sample.gt]. *)
Definition nval_huge : Raster :=
  {| name := "geoid.tif"; stem := "geoid";
     RasterXSize := 65536; RasterYSize := 32768;
     GetGeoTransform := Sample.gt; ReadAsArray := Sample.values |}.

(** Only one of the two deflection files is there. *)
Definition files_pm_only : Files :=
  {| tif_nval_file := Sample.nval;
     tif_dov_pm_file := Some (Sample.pm Sample.gt);
     tif_dov_pv_file := None |}.

Definition files_pv_only : Files :=
  {| tif_nval_file := Sample.nval;
     tif_dov_pm_file := None;
     tif_dov_pv_file := Some (Sample.pv Sample.gt) |}.

(** The grid [Sample.gt] shifted east by a third of the tolerance. *)
Definition gt_nudged : GeoTransform :=
  {| x_ul := Py.binary64 (-147 + (1 # 300000000000)); x_int := Sample.pixel;
     x_rot := 0; y_ul := -34; y_rot := 0;
     y_int := - Sample.pixel |}.

(** A grid of quarter arc-second pixels. *)
Definition gt_quarter : GeoTransform :=
  {| x_ul := -147; x_int := Py.binary64 (1 # 14400); x_rot := 0;
     y_ul := -34; y_rot := 0; y_int := - Py.binary64 (1 # 14400) |}.

(** The angle 12 59 59.9996 and the angle 12 30 15.5. *)
Definition angle_12_59_59_9996 : DMSAngle.t :=
  DMSAngle.Build true 12 59 (Py.binary64 (599996 # 10000)).

Definition angle_12_30_15_5 : DMSAngle.t :=
  DMSAngle.Build true 12 30 (155 # 10).

(** The angles 12 59 59.9991 and 12 59 59.9985, whose seconds round to
    59.999 and to 59.998 (the latter float lies below 59.9985). *)
Definition angle_12_59_59_9991 : DMSAngle.t :=
  DMSAngle.Build true 12 59 (Py.binary64 (599991 # 10000)).

Definition angle_12_59_59_9985 : DMSAngle.t :=
  DMSAngle.Build true 12 59 (Py.binary64 (599985 # 10000)).

(** A raster of one column and two rows whose columns run westwards. *)
Definition nval_column : Raster :=
  {| name := "geoid.tif"; stem := "geoid";
     RasterXSize := 1; RasterYSize := 2;
     GetGeoTransform := Sample.gt_westward; ReadAsArray := Sample.values |}.

(** A grid whose pixels are the float 0.00125 of a degree wide and high. *)
Definition gt_0_00125 : GeoTransform :=
  {| x_ul := -147; x_int := Py.binary64 (125 # 100000); x_rot := 0;
     y_ul := -34; y_rot := 0; y_int := - Py.binary64 (125 # 100000) |}.

(** The eight characters AUSGEOI and the letter eth (code point 208). *)
Definition ausgeoi_eth : string :=
  ("AUSGEOI" ++ String (ascii_of_nat 208) EmptyString)%string.

(** The shipped metadata with that sub-grid name. *)
Definition cfg_eth (t : OutputType) : Config :=
  with_string_fields (Sample.cfg t) "SECONDS " "1.0.0.0 " "GDA2020 " "AHD     "
                     ausgeoi_eth "NONE    " "18062024" "18062024".

End Sample2.

(* ====================================================================== *)
(** ** Comparisons and rounding to an integer *)
(* ====================================================================== *)

Section Rounding.

Local Open Scope Q_scope.

(** The boolean tests against the order on [Q]. *)
Lemma ltb_lt (a b : Q) : Py.ltb a b = true <-> a < b.
Proof.
  unfold Py.ltb. rewrite negb_true_iff.
  split; intros H.
  - apply Qnot_le_lt. intros Hle. apply Qle_bool_iff in Hle. congruence.
  - destruct (Qle_bool b a) eqn:E; [|reflexivity].
    apply Qle_bool_iff in E. exfalso. apply (Qlt_not_le _ _ H E).
Qed.

Lemma gtb_gt (a b : Q) : Py.gtb a b = true <-> b < a.
Proof. apply ltb_lt. Qed.

(** [round_half_even] rounds to the nearest integer, ties to even. *)
Lemma round_half_even_nearest (q : Q) : nearest_ties_even q (Py.round_half_even q).
Proof.
  unfold nearest_ties_even, Py.round_half_even.
  pose proof (Qfloor_le q) as Hlo.
  pose proof (Qlt_floor q) as Hhi.
  rewrite inject_Z_plus in Hhi. change (inject_Z 1) with 1 in Hhi.
  set (n := Qfloor q) in *.
  destruct (Qcompare_spec (q - inject_Z n) (1 # 2)) as [He | Hl | Hg].
  - destruct (Z.even n) eqn:Ev.
    + split; [|intros _; exact Ev]. apply Qabs_Qle_condition. split; lra.
    + rewrite inject_Z_plus. change (inject_Z 1) with 1.
      split.
      * apply Qabs_Qle_condition. split; lra.
      * intros _. rewrite Z.even_add, Ev. reflexivity.
  - split.
    + apply Qabs_Qle_condition. split; lra.
    + intros Heq. rewrite Qabs_pos in Heq by lra. lra.
  - rewrite inject_Z_plus. change (inject_Z 1) with 1. split.
    + apply Qabs_Qle_condition. split; lra.
    + intros Heq. rewrite Qabs_neg in Heq by lra. lra.
Qed.

(** Two integers one apart cannot both be nearest to [q] with ties to even. *)
Lemma nearest_ties_even_step (q : Q) (m : Z) :
  nearest_ties_even q m -> nearest_ties_even q (m + 1) -> False.
Proof.
  intros [Hm Em] [Hn En].
  rewrite inject_Z_plus in Hn, En. change (inject_Z 1) with 1 in Hn, En.
  apply Qabs_Qle_condition in Hm, Hn.
  assert (Hq : q == inject_Z m + (1 # 2)) by lra.
  assert (Ev1 : Z.even (m + 1) = true).
  { apply En. rewrite Hq.
    setoid_replace (inject_Z m + (1 # 2) - (inject_Z m + 1)) with (- (1 # 2)) by ring.
    reflexivity. }
  assert (Ev : Z.even m = true).
  { apply Em. rewrite Hq.
    setoid_replace (inject_Z m + (1 # 2) - inject_Z m) with (1 # 2) by ring.
    reflexivity. }
  rewrite Z.even_add, Ev in Ev1. discriminate.
Qed.

(** [nearest_ties_even] determines the integer. *)
Lemma nearest_ties_even_unique (q : Q) (n m : Z) :
  nearest_ties_even q n -> nearest_ties_even q m -> n = m.
Proof.
  intros Hn Hm.
  assert (Hd : inject_Z n - inject_Z m <= 1 /\ inject_Z m - inject_Z n <= 1).
  { destruct Hn as [Hn _], Hm as [Hm _].
    apply Qabs_Qle_condition in Hn, Hm. split; lra. }
  destruct Hd as [H1 H2].
  unfold Qminus in H1, H2. rewrite <- inject_Z_opp, <- inject_Z_plus in H1, H2.
  change 1 with (inject_Z 1) in H1, H2. rewrite <- Zle_Qle in H1, H2.
  destruct (Z.eq_dec n m) as [|Hne]; [assumption|exfalso].
  assert (Hcase : (n = m + 1 \/ m = n + 1)%Z) by lia.
  destruct Hcase as [-> | ->].
  - exact (nearest_ties_even_step q m Hm Hn).
  - exact (nearest_ties_even_step q n Hn Hm).
Qed.

Lemma round_half_even_comp (p q : Q) :
  p == q -> Py.round_half_even p = Py.round_half_even q.
Proof.
  intros E. unfold Py.round_half_even.
  rewrite (Qfloor_comp _ _ E).
  assert (Hc : (p - inject_Z (Qfloor q) ?= 1 # 2) = (q - inject_Z (Qfloor q) ?= 1 # 2)).
  { apply Qcompare_comp; [rewrite E|]; reflexivity. }
  rewrite Hc. reflexivity.
Qed.

(** No integer is nearer to [x] than its rounding. *)
Lemma round_half_even_closest (x : Q) (j : Z) :
  Qabs (x - inject_Z (Py.round_half_even x)) <= Qabs (x - inject_Z j).
Proof.
  destruct (round_half_even_nearest x) as [Hn _].
  set (n := Py.round_half_even x) in *.
  apply Qabs_Qle_condition in Hn. destruct Hn as [Hlo Hhi].
  destruct (Z.eq_dec j n) as [-> | Hne]; [apply Qle_refl|].
  apply Qle_trans with (1 # 2); [apply Qabs_Qle_condition; split; assumption|].
  assert (Hc : (j + 1 <= n \/ n + 1 <= j)%Z) by lia.
  destruct Hc as [Hc | Hc]; rewrite Zle_Qle, inject_Z_plus in Hc;
    change (inject_Z 1) with 1 in Hc.
  - rewrite Qabs_pos by lra. lra.
  - rewrite Qabs_neg by lra. lra.
Qed.

End Rounding.

(* ====================================================================== *)
(** ** Rounding to a binary format *)
(* ====================================================================== *)

Section Binary.

Local Open Scope Q_scope.

Lemma pow2_pos (e : Z) : 0 < 2 ^ e.
Proof. apply Qpower_0_lt. reflexivity. Qed.

Lemma pow2_add (a b : Z) : 2 ^ (a + b) == 2 ^ a * 2 ^ b.
Proof. apply Qpower_plus. discriminate. Qed.

Lemma pow2_succ (a : Z) : 2 ^ (a + 1) == 2 * 2 ^ a.
Proof. rewrite pow2_add. change (2 ^ 1) with 2. ring. Qed.

Lemma pow2_le (a b : Z) : (a <= b)%Z -> 2 ^ a <= 2 ^ b.
Proof. intros H. apply Qpower_le_compat_l; [exact H | discriminate]. Qed.

Lemma pow2_integer (a : Z) : (0 <= a)%Z -> 2 ^ a == inject_Z (2 ^ a).
Proof. intros H. rewrite Zpower_Qpower by exact H. reflexivity. Qed.

Lemma div_pow2 (q : Q) (e : Z) : q / 2 ^ e * 2 ^ e == q.
Proof. field. pose proof (pow2_pos e). lra. Qed.

Lemma div_pow2_le (q r : Q) (e : Z) : q <= r -> q / 2 ^ e <= r / 2 ^ e.
Proof.
  intros H. unfold Qdiv. apply Qmult_le_compat_r; [exact H|].
  apply Qlt_le_weak, Qinv_lt_0_compat, pow2_pos.
Qed.

Lemma div_pow2_lt (q r : Q) (e : Z) : q < r -> q / 2 ^ e < r / 2 ^ e.
Proof.
  intros H. unfold Qdiv. apply Qmult_lt_compat_r; [|exact H].
  apply Qinv_lt_0_compat, pow2_pos.
Qed.

Lemma pow2_div (a e : Z) : 2 ^ a / 2 ^ e == 2 ^ (a - e).
Proof. rewrite Qpower_minus by discriminate. reflexivity. Qed.

Lemma Qmake_times_den (a : Z) (b : positive) : (a # b) * inject_Z (Zpos b) == inject_Z a.
Proof.
  unfold Qeq, Qmult, inject_Z. cbn [Qnum Qden].
  rewrite Pos.mul_1_r. ring.
Qed.

(** [ilog2] is the binary exponent of a positive number. *)
Lemma ilog2_spec (q : Q) : 0 < q -> 2 ^ Py.ilog2 q <= q /\ q < 2 ^ (Py.ilog2 q + 1).
Proof.
  intros Hq. destruct q as [a b].
  assert (Ha : (0 < a)%Z) by (unfold Qlt in Hq; simpl in Hq; lia).
  unfold Py.ilog2. cbn [Qnum Qden].
  set (la := Z.log2 a). set (lb := Z.log2 (Zpos b)).
  assert (Hla : (0 <= la)%Z) by apply Z.log2_nonneg.
  assert (Hlb : (0 <= lb)%Z) by apply Z.log2_nonneg.
  destruct (Z.log2_spec a Ha) as [Ha1 Ha2]. fold la in Ha1, Ha2.
  destruct (Z.log2_spec (Zpos b) (Pos2Z.is_pos b)) as [Hb1 Hb2]. fold lb in Hb1, Hb2.
  rewrite Zle_Qle, <- pow2_integer in Ha1, Hb1 by assumption.
  rewrite Zlt_Qlt in Ha2, Hb2.
  unfold Z.succ in Ha2, Hb2.
  rewrite <- pow2_integer in Ha2, Hb2 by lia.
  pose proof (Qmake_times_den a b) as Hab.
  set (q := a # b) in *.
  pose proof (pow2_pos lb) as Hplb.
  pose proof (pow2_pos (lb + 1)) as Hplb1.
  assert (Hhi : q < 2 ^ (la - lb + 1)).
  { assert (E : 2 ^ (la - lb + 1) * 2 ^ lb == 2 ^ (la + 1)).
    { rewrite <- pow2_add. replace (la - lb + 1 + lb)%Z with (la + 1)%Z by lia.
      reflexivity. }
    apply (Qmult_lt_r _ _ (2 ^ lb) Hplb). rewrite E.
    apply Qle_lt_trans with (inject_Z a); [|exact Ha2].
    rewrite <- Hab. apply Qmult_le_l; [exact Hq | exact Hb1]. }
  assert (Hlo : 2 ^ (la - lb - 1) <= q).
  { assert (E : 2 ^ (la - lb - 1) * 2 ^ (lb + 1) == 2 ^ la).
    { rewrite <- pow2_add. replace (la - lb - 1 + (lb + 1))%Z with la by lia.
      reflexivity. }
    apply (Qmult_le_r _ _ (2 ^ (lb + 1)) Hplb1). rewrite E.
    apply Qle_trans with (inject_Z a); [exact Ha1|].
    rewrite <- Hab. apply Qmult_le_l; [exact Hq | apply Qlt_le_weak, Hb2]. }
  destruct (Qle_bool (2 ^ (la - lb)) q) eqn:E.
  - apply Qle_bool_iff in E. split; assumption.
  - split; [exact Hlo|].
    replace (la - lb - 1 + 1)%Z with (la - lb)%Z by lia.
    apply Qnot_le_lt. intros Hle. apply Qle_bool_iff in Hle. congruence.
Qed.

(** Rounding to an integer never crosses an integer. *)
Lemma round_half_even_le (x : Q) (n : Z) :
  x <= inject_Z n -> (Py.round_half_even x <= n)%Z.
Proof.
  intros Hx. unfold Py.round_half_even.
  pose proof (Qfloor_le x) as Hlo.
  assert (Hf : (Qfloor x <= n)%Z) by (rewrite Zle_Qle; lra).
  destruct (Z.eq_dec (Qfloor x) n) as [E | E].
  - assert (Hc : (x - inject_Z (Qfloor x) ?= 1 # 2) = Lt).
    { apply (proj1 (Qlt_alt _ _)).
      assert (E' : inject_Z (Qfloor x) == inject_Z n) by (rewrite E; reflexivity).
      lra. }
    rewrite Hc. lia.
  - destruct (_ ?= _); [destruct (Z.even _)|..]; lia.
Qed.

Lemma round_half_even_ge (x : Q) (n : Z) :
  inject_Z n <= x -> (n <= Py.round_half_even x)%Z.
Proof.
  intros Hx. unfold Py.round_half_even.
  pose proof (Qlt_floor x) as Hhi.
  assert (Hf : (n < Qfloor x + 1)%Z) by (rewrite Zlt_Qlt; lra).
  destruct (_ ?= _); [destruct (Z.even _)|..]; lia.
Qed.

Section Format.

Variables prec emin : Z.
Hypothesis prec_pos : (1 <= prec)%Z.

(** Scaled by its exponent, a positive number lies below [2 ^ prec], and
    not below [2 ^ (prec - 1)] unless the exponent is the least one. *)
Lemma scaled_bounds (q : Q) :
  0 < q ->
  let e := Z.max (Py.ilog2 q - (prec - 1)) emin in
  (emin <= e)%Z /\
  q / 2 ^ e < 2 ^ prec /\
  ((emin < e)%Z -> 2 ^ (prec - 1) <= q / 2 ^ e).
Proof.
  intros Hq e. destruct (ilog2_spec q Hq) as [Hlo Hhi].
  set (l := Py.ilog2 q) in *.
  split; [lia|]. split.
  - apply Qlt_le_trans with (2 ^ (l + 1) / 2 ^ e).
    + apply div_pow2_lt, Hhi.
    + rewrite pow2_div. apply pow2_le. lia.
  - intros He. apply Qle_trans with (2 ^ l / 2 ^ e).
    + rewrite pow2_div. apply pow2_le. lia.
    + apply div_pow2_le, Hlo.
Qed.

Lemma nearest_pos_nonneg (q : Q) : 0 < q -> 0 <= Py.nearest_pos prec emin q.
Proof.
  intros Hq. unfold Py.nearest_pos.
  set (e := Z.max _ _).
  apply Qmult_le_0_compat; [|apply Qlt_le_weak, pow2_pos].
  change 0 with (inject_Z 0). rewrite <- Zle_Qle.
  apply round_half_even_ge. change (inject_Z 0) with 0.
  apply Qle_shift_div_l; [apply pow2_pos|]. lra.
Qed.

Lemma representable_bound (r : Q) (m k e : Z) :
  r == inject_Z m * 2 ^ k ->
  (Z.abs m <= 2 ^ prec)%Z -> (k < e)%Z ->
  r <= 2 ^ (prec - 1) * 2 ^ e.
Proof.
  intros Hr Hm Hk. rewrite Hr.
  apply Qle_trans with (2 ^ prec * 2 ^ k).
  - apply Qmult_le_compat_r; [|apply Qlt_le_weak, pow2_pos].
    rewrite pow2_integer by lia. rewrite <- Zle_Qle. lia.
  - rewrite <- !pow2_add. apply pow2_le. lia.
Qed.

Lemma representable_scaled (r : Q) (m k e : Z) :
  r == inject_Z m * 2 ^ k -> (e <= k)%Z ->
  r / 2 ^ e == inject_Z (m * 2 ^ (k - e)).
Proof.
  intros Hr Hk. rewrite Hr, inject_Z_mult, <- pow2_integer by lia.
  unfold Qdiv. rewrite <- Qmult_assoc.
  apply Qmult_comp; [reflexivity|]. apply pow2_div.
Qed.

(** Rounding never crosses a number of the format. *)
Lemma nearest_pos_le (q r : Q) :
  0 < q -> representable prec emin r -> q <= r ->
  Py.nearest_pos prec emin q <= r.
Proof.
  intros Hq (m & k & Hr & Hm & Hk) Hqr.
  destruct (scaled_bounds q Hq) as (He & Hhi & Hlo).
  unfold Py.nearest_pos.
  set (e := Z.max (Py.ilog2 q - (prec - 1)) emin) in *.
  pose proof (pow2_pos e) as Hpe.
  assert (Hy : q / 2 ^ e <= r / 2 ^ e) by (apply div_pow2_le, Hqr).
  destruct (Z.le_gt_cases e k) as [Hek | Hek].
  - rewrite (representable_scaled r m k e Hr Hek) in Hy.
    apply round_half_even_le in Hy. rewrite Zle_Qle in Hy.
    apply Qle_trans with (r / 2 ^ e * 2 ^ e);
      [|rewrite div_pow2; apply Qle_refl].
    rewrite (representable_scaled r m k e Hr Hek).
    apply Qmult_le_compat_r; [exact Hy | lra].
  - assert (Hb : r <= 2 ^ (prec - 1) * 2 ^ e).
    { apply (representable_bound r m k e Hr Hm). lia. }
    assert (Hlo' : 2 ^ (prec - 1) <= q / 2 ^ e) by (apply Hlo; lia).
    assert (Hq' : 2 ^ (prec - 1) * 2 ^ e <= q).
    { apply Qle_trans with (q / 2 ^ e * 2 ^ e).
      - apply Qmult_le_compat_r; [exact Hlo' | lra].
      - rewrite div_pow2. apply Qle_refl. }
    assert (Hy' : q / 2 ^ e <= inject_Z (2 ^ (prec - 1))).
    { rewrite <- pow2_integer by lia.
      apply Qle_shift_div_r; [exact Hpe|]. lra. }
    apply round_half_even_le in Hy'. rewrite Zle_Qle in Hy'.
    rewrite <- pow2_integer in Hy' by lia.
    apply Qle_trans with (2 ^ (prec - 1) * 2 ^ e); [|lra].
    apply Qmult_le_compat_r; [exact Hy' | lra].
Qed.

Lemma nearest_pos_ge (q r : Q) :
  0 < q -> representable prec emin r -> r <= q ->
  r <= Py.nearest_pos prec emin q.
Proof.
  intros Hq (m & k & Hr & Hm & Hk) Hqr.
  destruct (scaled_bounds q Hq) as (He & Hhi & Hlo).
  unfold Py.nearest_pos.
  set (e := Z.max (Py.ilog2 q - (prec - 1)) emin) in *.
  pose proof (pow2_pos e) as Hpe.
  assert (Hy : r / 2 ^ e <= q / 2 ^ e) by (apply div_pow2_le, Hqr).
  destruct (Z.le_gt_cases e k) as [Hek | Hek].
  - rewrite (representable_scaled r m k e Hr Hek) in Hy.
    apply round_half_even_ge in Hy. rewrite Zle_Qle in Hy.
    apply Qle_trans with (r / 2 ^ e * 2 ^ e);
      [rewrite div_pow2; apply Qle_refl|].
    rewrite (representable_scaled r m k e Hr Hek).
    apply Qmult_le_compat_r; [exact Hy | lra].
  - assert (Hb : r <= 2 ^ (prec - 1) * 2 ^ e).
    { apply (representable_bound r m k e Hr Hm). lia. }
    assert (Hlo' : inject_Z (2 ^ (prec - 1)) <= q / 2 ^ e).
    { rewrite <- pow2_integer by lia. apply Hlo. lia. }
    apply round_half_even_ge in Hlo'. rewrite Zle_Qle in Hlo'.
    rewrite <- pow2_integer in Hlo' by lia.
    apply Qle_trans with (2 ^ (prec - 1) * 2 ^ e); [exact Hb|].
    apply Qmult_le_compat_r; [exact Hlo' | lra].
Qed.

(** The rounding is a number of the format. *)
Lemma nearest_pos_representable (q : Q) :
  0 < q -> representable prec emin (Py.nearest_pos prec emin q).
Proof.
  intros Hq. destruct (scaled_bounds q Hq) as (He & Hhi & _).
  unfold Py.nearest_pos.
  set (e := Z.max (Py.ilog2 q - (prec - 1)) emin) in *.
  exists (Py.round_half_even (q / 2 ^ e)), e.
  split; [reflexivity|]. split; [|exact He].
  assert (H0 : (0 <= Py.round_half_even (q / 2 ^ e))%Z).
  { apply round_half_even_ge. change (inject_Z 0) with 0.
    apply Qle_shift_div_l; [apply pow2_pos | lra]. }
  assert (H1 : (Py.round_half_even (q / 2 ^ e) <= 2 ^ prec)%Z).
  { apply round_half_even_le. rewrite <- pow2_integer by lia.
    apply Qlt_le_weak, Hhi. }
  lia.
Qed.

(** No number of the format is nearer to [q] than its rounding. *)
Lemma nearest_pos_closest (q r : Q) :
  0 < q -> representable prec emin r ->
  Qabs (q - Py.nearest_pos prec emin q) <= Qabs (q - r).
Proof.
  intros Hq (m & k & Hr & Hm & Hk).
  destruct (scaled_bounds q Hq) as (He & Hhi & Hlo).
  unfold Py.nearest_pos.
  set (e := Z.max (Py.ilog2 q - (prec - 1)) emin) in *.
  pose proof (pow2_pos e) as Hpe.
  set (y := q / 2 ^ e) in *.
  assert (Hy : q == y * 2 ^ e) by (unfold y; rewrite div_pow2; reflexivity).
  assert (Hs : forall j : Z,
             Qabs (q - inject_Z (Py.round_half_even y) * 2 ^ e)
             <= Qabs (q - inject_Z j * 2 ^ e)).
  { intros j. pose proof (round_half_even_closest y j) as Hc.
    assert (E : forall z : Q, q - z * 2 ^ e == (y - z) * 2 ^ e)
      by (intros z; rewrite Hy at 1; ring).
    rewrite !E, !Qabs_Qmult, (Qabs_pos (2 ^ e)) by lra.
    apply Qmult_le_compat_r; [exact Hc | lra]. }
  destruct (Z.le_gt_cases e k) as [Hek | Hek].
  - pose proof (representable_scaled r m k e Hr Hek) as Hj.
    assert (Er : r == inject_Z (m * 2 ^ (k - e)) * 2 ^ e).
    { rewrite <- Hj. rewrite div_pow2. reflexivity. }
    rewrite Er. apply Hs.
  - assert (Hb : r <= 2 ^ (prec - 1) * 2 ^ e).
    { apply (representable_bound r m k e Hr Hm). lia. }
    assert (Hlo' : 2 ^ (prec - 1) <= y) by (apply Hlo; lia).
    specialize (Hs (2 ^ (prec - 1))%Z).
    rewrite <- pow2_integer in Hs by lia.
    apply Qle_trans with (1 := Hs).
    assert (Hq' : 2 ^ (prec - 1) * 2 ^ e <= q).
    { rewrite Hy. apply Qmult_le_compat_r; [exact Hlo' | lra]. }
    rewrite !Qabs_pos by lra. lra.
Qed.

Lemma representable_opp (r : Q) :
  representable prec emin r -> representable prec emin (- r).
Proof.
  intros (m & k & Hr & Hm & Hk). exists (- m)%Z, k.
  split; [rewrite Hr, inject_Z_opp; ring|]. split; [lia | exact Hk].
Qed.

Lemma representable_zero : (emin <= 0)%Z -> representable prec emin 0.
Proof.
  intros H. exists 0%Z, 0%Z. split; [reflexivity|]. split; [|exact H].
  simpl. apply Z.pow_nonneg. lia.
Qed.

(** The sign of the canonical form of [q]. *)
Lemma sign_cases (q : Q) :
  (Qnum (Qred q) = 0%Z /\ q == 0) \/
  ((exists a, Qnum (Qred q) = Zpos a) /\ 0 < Qred q) \/
  ((exists a, Qnum (Qred q) = Zneg a) /\ 0 < - Qred q).
Proof.
  pose proof (Qred_correct q) as E.
  destruct (Qred q) as [a b] eqn:Er. destruct a as [|a|a]; cbn [Qnum].
  - left. split; [reflexivity|]. rewrite <- E. reflexivity.
  - right. left. split; [exists a; reflexivity | reflexivity].
  - right. right. split; [exists a; reflexivity | reflexivity].
Qed.

Lemma nearest_le (q r : Q) :
  representable prec emin r -> q <= r -> Py.nearest prec emin q <= r.
Proof.
  intros Hr Hqr. unfold Py.nearest. cbv zeta.
  pose proof (Qred_correct q) as E.
  destruct (sign_cases q) as [[E0 Hq] | [[[a Ea] Hq] | [[a Ea] Hq]]]; rewrite Ea || rewrite E0.
  - lra.
  - apply nearest_pos_le; [exact Hq | exact Hr | lra].
  - pose proof (nearest_pos_nonneg _ Hq) as Hn.
    destruct (Qlt_le_dec r 0) as [Hneg | Hpos]; [|lra].
    pose proof (nearest_pos_ge (- Qred q) (- r) Hq (representable_opp r Hr)) as H.
    assert (H' : - r <= - Qred q) by lra.
    specialize (H H'). lra.
Qed.

Lemma nearest_ge (q r : Q) :
  representable prec emin r -> r <= q -> r <= Py.nearest prec emin q.
Proof.
  intros Hr Hqr. unfold Py.nearest. cbv zeta.
  pose proof (Qred_correct q) as E.
  destruct (sign_cases q) as [[E0 Hq] | [[[a Ea] Hq] | [[a Ea] Hq]]]; rewrite Ea || rewrite E0.
  - lra.
  - apply nearest_pos_ge; [exact Hq | exact Hr | lra].
  - pose proof (nearest_pos_le (- Qred q) (- r) Hq (representable_opp r Hr)) as H.
    assert (H' : - Qred q <= - r) by lra.
    specialize (H H'). lra.
Qed.

Lemma nearest_closest (q r : Q) :
  representable prec emin r ->
  Qabs (q - Py.nearest prec emin q) <= Qabs (q - r).
Proof.
  intros Hr. unfold Py.nearest. cbv zeta.
  pose proof (Qred_correct q) as E.
  assert (Eq : forall x : Q, q - x == Qred q - x).
  { intros x. unfold Qminus. apply Qplus_comp; [symmetry; exact E | reflexivity]. }
  destruct (sign_cases q) as [[E0 Hq] | [[[a Ea] Hq] | [[a Ea] Hq]]]; rewrite Ea || rewrite E0.
  - rewrite Hq. setoid_replace (0 - 0) with 0 by ring. apply Qabs_nonneg.
  - rewrite !Eq. apply nearest_pos_closest; assumption.
  - pose proof (nearest_pos_closest (- Qred q) (- r) Hq (representable_opp r Hr)) as H.
    rewrite !Eq.
    setoid_replace (Qred q - - Py.nearest_pos prec emin (- Qred q))
      with (- (- Qred q - Py.nearest_pos prec emin (- Qred q))) by ring.
    setoid_replace (Qred q - r) with (- (- Qred q - - r)) by ring.
    rewrite !Qabs_opp. exact H.
Qed.

Lemma nearest_representable (q : Q) :
  (emin <= 0)%Z -> representable prec emin (Py.nearest prec emin q).
Proof.
  intros Hemin. unfold Py.nearest. cbv zeta.
  destruct (sign_cases q) as [[E0 Hq] | [[[a Ea] Hq] | [[a Ea] Hq]]]; rewrite Ea || rewrite E0.
  - apply representable_zero, Hemin.
  - apply nearest_pos_representable, Hq.
  - apply representable_opp, nearest_pos_representable, Hq.
Qed.

Lemma nearest_fixed (r : Q) :
  representable prec emin r -> Py.nearest prec emin r == r.
Proof.
  intros Hr. apply Qle_antisym.
  - apply nearest_le; [exact Hr | apply Qle_refl].
  - apply nearest_ge; [exact Hr | apply Qle_refl].
Qed.

Lemma nearest_comp (p q : Q) :
  p == q -> Py.nearest prec emin p = Py.nearest prec emin q.
Proof.
  intros E. unfold Py.nearest. rewrite (Qred_complete p q E). reflexivity.
Qed.

End Format.

(** [Py.binary64] gives a float; no float is nearer to [q]; it never
    crosses a float and leaves a float as it is. *)

Lemma binary64_le (q r : Q) :
  representable 53 (-1074) r -> q <= r -> Py.binary64 q <= r.
Proof. apply nearest_le. lia. Qed.

Lemma binary64_ge (q r : Q) :
  representable 53 (-1074) r -> r <= q -> r <= Py.binary64 q.
Proof. apply nearest_ge. lia. Qed.

Lemma binary64_representable (q : Q) : representable 53 (-1074) (Py.binary64 q).
Proof. apply nearest_representable; lia. Qed.

Lemma binary64_closest (q r : Q) :
  representable 53 (-1074) r -> Qabs (q - Py.binary64 q) <= Qabs (q - r).
Proof. apply nearest_closest. lia. Qed.

Lemma binary64_fixed (r : Q) : representable 53 (-1074) r -> Py.binary64 r == r.
Proof. apply nearest_fixed. lia. Qed.

Lemma binary64_comp (p q : Q) : p == q -> Py.binary64 p = Py.binary64 q.
Proof. apply nearest_comp. Qed.

#[export] Instance binary64_proper : Proper (Qeq ==> Qeq) Py.binary64.
Proof. intros p q E. rewrite (binary64_comp p q E). reflexivity. Qed.

Lemma representable_integer (n : Z) :
  (Z.abs n <= 2 ^ 53)%Z -> representable 53 (-1074) (inject_Z n).
Proof.
  intros H. exists n, 0%Z. split; [change (2 ^ 0) with 1; ring|].
  split; [exact H | lia].
Qed.

Lemma binary64_nonneg (q : Q) : 0 <= q -> 0 <= Py.binary64 q.
Proof. apply binary64_ge. apply (representable_integer 0). simpl. lia. Qed.

Lemma binary64_nonpos (q : Q) : q <= 0 -> Py.binary64 q <= 0.
Proof. apply binary64_le. apply (representable_integer 0). simpl. lia. Qed.

Lemma binary64_zero : Py.binary64 0 == 0.
Proof. reflexivity. Qed.

(** The float of the literal [0.1]; ties go to the even float, at the top
    of the range of integers and among the subnormal numbers. *)
Lemma binary64_examples :
  Py.binary64 (1 # 10) == 3602879701896397 # 36028797018963968 /\
  Py.binary64 (inject_Z (2 ^ 53 + 1)) == inject_Z (2 ^ 53) /\
  Py.binary64 (inject_Z (2 ^ 53 + 3)) == inject_Z (2 ^ 53 + 4) /\
  Py.binary64 (2 ^ (-1075)) == 0 /\
  Py.binary64 (3 * 2 ^ (-1075)) == 2 ^ (-1073).
Proof. repeat split; vm_compute; reflexivity. Qed.

End Binary.

(* ====================================================================== *)
(** ** Float operations *)
(* ====================================================================== *)

Section Floats.

Local Open Scope Q_scope.

(** The operations respect the equality of the rationals they round. *)
#[export] Instance mul_proper : Proper (Qeq ==> Qeq ==> Qeq) Py.mul.
Proof. intros a a' Ea b b' Eb. unfold Py.mul. rewrite Ea, Eb. reflexivity. Qed.

#[export] Instance sub_proper : Proper (Qeq ==> Qeq ==> Qeq) Py.sub.
Proof. intros a a' Ea b b' Eb. unfold Py.sub. rewrite Ea, Eb. reflexivity. Qed.

#[export] Instance add_proper : Proper (Qeq ==> Qeq ==> Qeq) Py.add.
Proof. intros a a' Ea b b' Eb. unfold Py.add. rewrite Ea, Eb. reflexivity. Qed.

Lemma round_comp (x y : Q) (nd : Z) : x == y -> Py.round x nd == Py.round y nd.
Proof.
  intros E. unfold Py.round.
  rewrite (round_half_even_comp (x * 10 ^ nd) (y * 10 ^ nd)) by (rewrite E; reflexivity).
  reflexivity.
Qed.

(** Floats: the results of the operations, and the integers of at most 53
    bits. *)
Lemma is_float_binary64 (q : Q) : is_float (Py.binary64 q).
Proof. apply binary64_representable. Qed.

Lemma is_float_comp (p q : Q) : p == q -> is_float p -> is_float q.
Proof.
  intros E (m & k & Hr & Hm & Hk). exists m, k.
  split; [rewrite <- E; exact Hr | split; assumption].
Qed.

Lemma is_float_integer (n : Z) : (Z.abs n <= 2 ^ 53)%Z -> is_float (inject_Z n).
Proof. apply representable_integer. Qed.

Lemma is_float_opp (r : Q) : is_float r -> is_float (- r).
Proof. unfold is_float. intros H. apply representable_opp; [lia | exact H]. Qed.

Lemma binary64_float (r : Q) : is_float r -> Py.binary64 r == r.
Proof. apply binary64_fixed. Qed.

(** Rounding to a float keeps the order against a float. *)
Lemma binary64_abs_le (q r : Q) : is_float r -> Qabs q <= r -> Qabs (Py.binary64 q) <= r.
Proof.
  intros Hr Hq. apply Qabs_Qle_condition in Hq. destruct Hq as [Hlo Hhi].
  apply Qabs_Qle_condition. split.
  - apply binary64_ge; [apply is_float_opp, Hr | exact Hlo].
  - apply binary64_le; assumption.
Qed.

(** An integer is its own rounding. *)
Lemma round_half_even_Z (n : Z) : Py.round_half_even (inject_Z n) = n.
Proof.
  apply (nearest_ties_even_unique (inject_Z n)); [apply round_half_even_nearest|].
  assert (E : inject_Z n - inject_Z n == 0) by ring.
  split.
  - rewrite E. discriminate.
  - intros H. rewrite E in H. discriminate H.
Qed.

(** A value of at most a half in magnitude rounds to zero. *)
Lemma round_half_even_small (x : Q) : Qabs x <= 1 # 2 -> Py.round_half_even x = 0%Z.
Proof.
  intros Hx.
  apply (nearest_ties_even_unique x); [apply round_half_even_nearest|].
  assert (E : x - inject_Z 0 == x) by (change (inject_Z 0) with 0; ring).
  split; [rewrite E; exact Hx | intros _; reflexivity].
Qed.

(** The nearest integer of a float is a float. *)
Lemma round_half_even_float (x : Q) :
  is_float x -> is_float (inject_Z (Py.round_half_even x)).
Proof.
  intros (m & k & Hr & Hm & Hk).
  destruct (Z_le_gt_dec 0 k) as [Hk0 | Hk0].
  - apply (is_float_comp x).
    + assert (E : x == inject_Z (m * 2 ^ k)).
      { rewrite Hr, inject_Z_mult, (pow2_integer k Hk0). reflexivity. }
      rewrite (round_half_even_comp x _ E), round_half_even_Z. exact E.
    + exists m, k. split; [exact Hr | split; assumption].
  - assert (Hp : 0 < 2 ^ k) by apply pow2_pos.
    assert (Hh : 2 ^ k <= 1 # 2) by (apply (pow2_le k (-1)); lia).
    assert (Hm' : - inject_Z (2 ^ 53) <= inject_Z m /\ inject_Z m <= inject_Z (2 ^ 53)).
    { rewrite <- inject_Z_opp, <- !Zle_Qle. lia. }
    destruct Hm' as [Hm1 Hm2].
    set (M := inject_Z (2 ^ 53)) in *.
    assert (HM : M == 2 * inject_Z (2 ^ 52)) by reflexivity.
    assert (Hlo : inject_Z (- 2 ^ 52) <= x).
    { rewrite Hr, inject_Z_opp. nra. }
    assert (Hhi : x <= inject_Z (2 ^ 52)).
    { rewrite Hr. nra. }
    apply round_half_even_ge in Hlo. apply round_half_even_le in Hhi.
    apply is_float_integer. lia.
Qed.

(** [round(x, 0)]: the half-even integer, read back as a float. *)
Lemma round_0 (q : Q) : Py.round q 0 == Py.binary64 (inject_Z (Py.round_half_even q)).
Proof.
  unfold Py.round. simpl (10 ^ 0).
  rewrite (round_half_even_comp (q * 1) q) by ring.
  apply binary64_proper. field.
Qed.

(** On a float, [round(x, 0)] is the half-even integer itself. *)
Lemma round_0_float (x : Q) :
  is_float x -> Py.round x 0 == inject_Z (Py.round_half_even x).
Proof.
  intros Hx. rewrite round_0. apply binary64_float, round_half_even_float, Hx.
Qed.

Lemma round_half_even_nonneg (q : Q) : 0 <= q -> (0 <= Py.round_half_even q)%Z.
Proof.
  intros H. unfold Py.round_half_even.
  assert (Hn : (0 <= Qfloor q)%Z).
  { change 0%Z with (Qfloor 0). apply Qfloor_resp_le, H. }
  destruct (_ ?= _); [destruct (Z.even _)|..]; lia.
Qed.

Lemma round_0_nonneg (q : Q) : 0 <= q -> 0 <= Py.round q 0.
Proof.
  intros H. rewrite round_0. apply binary64_nonneg.
  change 0 with (inject_Z 0).
  rewrite <- Zle_Qle. apply round_half_even_nonneg, H.
Qed.

(** A value of at most a half in magnitude is rounded to zero. *)
Lemma round_0_small (x : Q) : Qabs x <= 1 # 2 -> Py.round x 0 == 0.
Proof.
  intros Hx. rewrite round_0, (round_half_even_small x Hx). reflexivity.
Qed.

(** Zero is rounded to zero at every number of places. *)
Lemma round_zero (p : Z) : Py.round 0 p == 0.
Proof.
  unfold Py.round.
  rewrite (round_half_even_comp (0 * 10 ^ p) 0) by ring.
  change (Py.round_half_even 0) with 0%Z.
  transitivity (Py.binary64 0); [|reflexivity].
  apply binary64_proper. unfold Qdiv. change (inject_Z 0) with 0. ring.
Qed.

(** Nothing times a float is nothing, and taking nothing off a float
    leaves it. *)
Lemma mul_zero_l (x : Q) : Py.mul 0 x == 0.
Proof.
  unfold Py.mul. transitivity (Py.binary64 0); [|reflexivity].
  apply binary64_proper. ring.
Qed.

Lemma mul_zero_r (x : Q) : Py.mul x 0 == 0.
Proof.
  unfold Py.mul. transitivity (Py.binary64 0); [|reflexivity].
  apply binary64_proper. ring.
Qed.

Lemma sub_zero (a : Q) : is_float a -> Py.sub a 0 == a.
Proof.
  intros Ha. unfold Py.sub.
  transitivity (Py.binary64 a); [apply binary64_proper; ring|].
  apply binary64_float, Ha.
Qed.

End Floats.

(* ====================================================================== *)
(** ** Validation of the companion rasters, and rotation *)
(* ====================================================================== *)

(** In a tuple of pairwise different values, [index] finds every component
    at its own position. *)
Lemma index_of_component (t : list Q) (k : nat) :
  ForallOrdPairs (fun a b => ~ (a == b)%Q) t ->
  (k < List.length t)%nat ->
  Py.index (Py.getitem t k) t = k.
Proof.
  unfold Py.getitem. intros Hd. revert k.
  induction Hd as [|a t Ha Hd IH]; intros k Hk; [simpl in Hk; lia|].
  destruct k as [|k]; simpl.
  - rewrite Qeq_bool_refl. reflexivity.
  - simpl in Hk.
    assert (Hin : In (nth k t 0%Q) t) by (apply nth_In; lia).
    assert (Hne : Qeq_bool a (nth k t 0%Q) = false).
    { destruct (Qeq_bool a (nth k t 0%Q)) eqn:E; [|reflexivity].
      apply Qeq_bool_iff in E. rewrite Forall_forall in Ha.
      exfalso. exact (Ha _ Hin E). }
    rewrite Hne. f_equal. apply IH. lia.
Qed.

(** X1: when the six components of the geoid raster's geotransform are
    pairwise different, the validation loop compares every component with
    the companions' component at the same position and reports it under its
    own index. *)
Lemma grid_mismatch_of_distinct (gt_n gt_pm gt_pv : Raster) :
  ForallOrdPairs (fun a b => ~ (a == b)%Q) (extents (GetGeoTransform gt_n)) ->
  grid_mismatch gt_n gt_pm gt_pv
  = flat_map (fun k => mismatch_at gt_n gt_pm k ++ mismatch_at gt_n gt_pv k)
             (seq 0 6).
Proof.
  intros Hd.
  assert (Hk : forall gt_dov k,
             (k < 6)%nat ->
             mismatch_of gt_n gt_dov (Py.getitem (extents (GetGeoTransform gt_n)) k)
             = mismatch_at gt_n gt_dov k).
  { intros gt_dov k Hk. unfold mismatch_of, mismatch_at.
    rewrite (index_of_component _ k Hd) by exact Hk. reflexivity. }
  unfold grid_mismatch.
  change (extents (GetGeoTransform gt_n))
    with (map (Py.getitem (extents (GetGeoTransform gt_n))) (seq 0 6)) at 1.
  rewrite !flat_map_concat_map, map_map. f_equal.
  apply map_ext_in. intros k Hin. apply in_seq in Hin.
  rewrite !Hk by lia. reflexivity.
Qed.

Lemma grid_mismatch_of_distinct_witness :
  grid_mismatch (with_geotransform Sample.nval Sample.gt_skew)
                (Sample.pm Sample.gt_skew') (Sample.pv Sample.gt_skew)
  = flat_map (fun k =>
                mismatch_at (with_geotransform Sample.nval Sample.gt_skew)
                            (Sample.pm Sample.gt_skew') k
                ++ mismatch_at (with_geotransform Sample.nval Sample.gt_skew)
                               (Sample.pv Sample.gt_skew) k)
             (seq 0 6).
Proof.
  apply grid_mismatch_of_distinct.
  repeat first
    [ apply FOP_nil
    | apply Forall_nil
    | apply FOP_cons
    | apply Forall_cons; [intros E; vm_compute in E; discriminate E|] ].
Defined.

(** C1: the validation loop recovers the index of a component from its value
    ([gt_n_extents.index(i)]), so a component whose value occurs earlier in
    the geoid raster's geotransform is never compared. Here the companion
    [dov_pm.tif] differs from the geoid raster in the y-rotation (index 4)
    only, by 1; the geoid raster's two rotation terms are both 0, the loop
    compares index 2 twice, [grid_mismatch] stays empty and the file is
    written, where a comparison by position reports index 4. *)
Theorem grid_mismatch_misses_repeated_value :
  let gt_pm := Sample.pm Sample.gt_y_rotated in
  let gt_pv := Sample.pv Sample.gt in
  (match_precision < Qabs (y_rot Sample.gt - y_rot Sample.gt_y_rotated))%Q /\
  (forall k : nat,
      k <> 4%nat ->
      Py.getitem (extents Sample.gt_y_rotated) k = Py.getitem (extents Sample.gt) k) /\
  extents (GetGeoTransform gt_pv) = extents (GetGeoTransform Sample.nval) /\
  map (fun i => Py.index i (extents Sample.gt)) (extents Sample.gt)
  = [0; 1; 2; 3; 2; 5]%nat /\
  flat_map (fun k => mismatch_at Sample.nval gt_pm k ++ mismatch_at Sample.nval gt_pv k)
           (seq 0 6)
  = [ {| mm_nval_name := "geoid.tif"; mm_dov_name := "dov_pm.tif";
         mm_index := 4; mm_nval_value := 0; mm_dov_value := 1 |} ] /\
  grid_mismatch Sample.nval gt_pm gt_pv = [] /\
  exists out : Output,
    run Sample.dec2dms (Sample.cfg gsb) (Sample.files_dov Sample.nval gt_pm gt_pv)
    = Written out.
Proof.
  cbv zeta. split; [reflexivity|]. split.
  - intros k Hk.
    do 6 (destruct k as [|k]; [try reflexivity; contradiction|]).
    destruct k; reflexivity.
  - split; [reflexivity|]. split; [reflexivity|]. split; [reflexivity|].
    split; [reflexivity|].
    eexists. vm_compute. reflexivity.
Qed.

(** C3, as stated, fails: a geoid raster whose x-rotation is 1 is converted,
    to each of the three formats, like any other. *)
Lemma rotated_raster_is_written :
  let r := with_geotransform Sample.nval Sample.gt_x_rotated in
  x_rot (GetGeoTransform r) = 1%Q /\
  (exists out, run Sample.dec2dms (Sample.cfg asc) (Sample.files_plain r) = Written out) /\
  (exists out, run Sample.dec2dms (Sample.cfg gsb) (Sample.files_plain r) = Written out) /\
  (exists out, run Sample.dec2dms (Sample.cfg winter) (Sample.files_plain r) = Written out).
Proof.
  cbv zeta. split; [reflexivity|].
  repeat split; eexists; vm_compute; reflexivity.
Qed.

(** The writers read the geotransform's origin and pixel size only. *)
Lemma write_file_derotate (dec2dms : Q -> DMSAngle.t) (cfg : Config) (r : Raster)
      (dov : option (Raster * Raster)) :
  write_file dec2dms cfg (with_geotransform r (without_rotation (GetGeoTransform r))) dov
  = write_file dec2dms cfg r dov.
Proof.
  unfold write_file, asc_sub_header, gsb_sub_header, asc_nodes, gsb_nodes,
    winter_nodes, winter_title, asc_node, gsb_node, winter_node, winter_lat,
    winter_lon, values_n, gs_count, n_lat, s_lat, e_lon, w_lon, lat_inc, lon_inc.
  cbn [with_geotransform without_rotation name stem RasterXSize RasterYSize
       GetGeoTransform ReadAsArray x_ul x_int x_rot y_ul y_rot y_int].
  reflexivity.
Qed.

(** C3, amended: the rotation terms of the geoid raster are never tested
    against zero and, outside the comparison with the companion rasters, never
    used. When no deflection rasters are read, a run on a raster with any
    rotation terms ends exactly as the run on the same raster with both
    rotation terms set to zero: no run fails on account of rotation. *)
Theorem rotation_is_ignored (dec2dms : Q -> DMSAngle.t) (cfg : Config) (fs : Files) :
  read_dov fs = false ->
  run dec2dms cfg fs = run dec2dms cfg (derotate fs).
Proof.
  intros H. unfold run.
  change (read_dov (derotate fs)) with (read_dov fs). rewrite H.
  destruct (print_tif_metadata cfg); [reflexivity|].
  unfold derotate. cbn [tif_nval_file].
  symmetry. apply write_file_derotate.
Qed.

Lemma rotation_is_ignored_witness :
  run Sample.dec2dms (Sample.cfg gsb)
      (Sample.files_plain (with_geotransform Sample.nval Sample.gt_x_rotated))
  = run Sample.dec2dms (Sample.cfg gsb)
      (derotate (Sample.files_plain (with_geotransform Sample.nval Sample.gt_x_rotated))).
Proof. apply rotation_is_ignored. reflexivity. Defined.

(* ====================================================================== *)
(** ** Fixed-width string fields *)
(* ====================================================================== *)

Section StringFields.

Lemma length_append (s t : string) :
  String.length (s ++ t) = (String.length s + String.length t)%nat.
Proof. induction s as [|c s IH]; simpl; [reflexivity | rewrite IH; reflexivity]. Qed.

(** [spaces n] is a run of [n] blanks. *)
Lemma spaces_repeat (n : nat) :
  Py.spaces n = string_of_list_ascii (repeat " "%char n).
Proof. induction n as [|n IH]; [reflexivity|]. cbn. rewrite IH. reflexivity. Qed.

Lemma length_spaces (n : nat) : String.length (Py.spaces n) = n.
Proof. induction n as [|n IH]; simpl; [reflexivity | rewrite IH; reflexivity]. Qed.

Lemma append_empty (s : string) : (s ++ "")%string = s.
Proof. induction s as [|c s IH]; simpl; [reflexivity | rewrite IH; reflexivity]. Qed.

Lemma length_slice_to (n : nat) (s : string) :
  String.length (Py.slice_to n s) = Nat.min n (String.length s).
Proof.
  revert s. induction n as [|n IH]; intros s; [reflexivity|].
  destruct s as [|c s]; simpl; [reflexivity | rewrite IH; reflexivity].
Qed.

(** A slice that is long enough returns the string. *)
Lemma slice_to_short (n : nat) (s : string) :
  (String.length s <= n)%nat -> Py.slice_to n s = s.
Proof.
  revert s. induction n as [|n IH]; intros s Hs.
  - destruct s; [reflexivity | simpl in Hs; lia].
  - destruct s as [|c s]; [reflexivity|].
    simpl in *. rewrite IH by lia. reflexivity.
Qed.

(** [s[:n]] is the substring of the first [n] characters. *)
Lemma slice_to_substring (n : nat) (s : string) : Py.slice_to n s = substring 0 n s.
Proof.
  revert s. induction n as [|n IH]; intros s.
  - destruct s; reflexivity.
  - destruct s as [|c s]; [reflexivity|]. simpl. rewrite IH. reflexivity.
Qed.

Lemma length_format_ljust (w : nat) (s : string) :
  String.length (Py.format_ljust w s) = Nat.max w (String.length s).
Proof. unfold Py.format_ljust. rewrite length_append, length_spaces. lia. Qed.

Lemma length_format_rjust (w : nat) (s : string) :
  String.length (Py.format_rjust w s) = Nat.max w (String.length s).
Proof. unfold Py.format_rjust. rewrite length_append, length_spaces. lia. Qed.

(** A field that fills its width is written as it is. *)
Lemma format_ljust_wide (w : nat) (s : string) :
  (w <= String.length s)%nat -> Py.format_ljust w s = s.
Proof.
  intros H. unfold Py.format_ljust.
  replace (w - String.length s)%nat with 0%nat by lia. apply append_empty.
Qed.

Lemma format_rjust_wide (w : nat) (s : string) :
  (w <= String.length s)%nat -> Py.format_rjust w s = s.
Proof.
  intros H. unfold Py.format_rjust.
  replace (w - String.length s)%nat with 0%nat by lia. reflexivity.
Qed.

(** The encoding of a text, piece by piece. *)
Lemma bytes_utf8_append (s t : string) :
  Py.bytes_utf8 (s ++ t) = Py.bytes_utf8 s ++ Py.bytes_utf8 t.
Proof.
  unfold Py.bytes_utf8.
  induction s as [|c s IH]; [reflexivity|].
  cbn [append list_ascii_of_string flat_map]. rewrite IH, app_assoc. reflexivity.
Qed.

Lemma bytes_utf8_spaces (n : nat) : Py.bytes_utf8 (Py.spaces n) = repeat x20 n.
Proof.
  induction n as [|n IH]; [reflexivity|].
  change (Py.spaces (S n)) with (String " " (Py.spaces n)).
  change (String " " (Py.spaces n)) with (" " ++ Py.spaces n)%string.
  rewrite bytes_utf8_append, IH. reflexivity.
Qed.

(** Every character takes one byte or two. *)
Lemma length_utf8_char (c : ascii) :
  (1 <= List.length (Py.utf8_char c) <= 2)%nat.
Proof. unfold Py.utf8_char. destruct (_ <? _)%nat; simpl; lia. Qed.

Lemma length_bytes_utf8 (s : string) :
  (String.length s <= List.length (Py.bytes_utf8 s))%nat.
Proof.
  unfold Py.bytes_utf8.
  induction s as [|c s IH]; [simpl; lia|].
  cbn [String.length list_ascii_of_string flat_map]. rewrite length_app.
  pose proof (length_utf8_char c). lia.
Qed.

(** A text of code points below 128 is encoded character by character. *)
Lemma bytes_utf8_ascii (s : string) :
  is_ascii s -> Py.bytes_utf8 s = list_byte_of_string s.
Proof.
  unfold is_ascii, Py.bytes_utf8, list_byte_of_string.
  induction s as [|c s IH]; intros H; [reflexivity|].
  cbn [list_ascii_of_string flat_map map] in *.
  inversion H as [|? ? Hc Hs]; subst.
  rewrite (IH Hs). unfold Py.utf8_char.
  apply Nat.ltb_lt in Hc. rewrite Hc. reflexivity.
Qed.

Lemma length_bytes_utf8_ascii (s : string) :
  is_ascii s -> List.length (Py.bytes_utf8 s) = String.length s.
Proof.
  intros H. rewrite (bytes_utf8_ascii s H).
  unfold list_byte_of_string. rewrite length_map.
  induction s as [|c s IH]; simpl; [reflexivity|].
  rewrite IH; [reflexivity|]. inversion H; assumption.
Qed.

Lemma is_ascii_slice_to (n : nat) (s : string) :
  is_ascii s -> is_ascii (Py.slice_to n s).
Proof.
  unfold is_ascii. revert n. induction s as [|ch s IH]; intros n Hs.
  - destruct n; apply Forall_nil.
  - destruct n as [|n]; [apply Forall_nil|].
    change (list_ascii_of_string (Py.slice_to (S n) (String ch s)))
      with (ch :: list_ascii_of_string (Py.slice_to n s)).
    change (list_ascii_of_string (String ch s))
      with (ch :: list_ascii_of_string s) in Hs.
    apply Forall_cons; [exact (Forall_inv Hs) | apply IH, (Forall_inv_tail Hs)].
Qed.

Lemma pack_8s_exact (b : list byte) : List.length b = 8%nat -> Py.pack_8s b = b.
Proof.
  intros H. unfold Py.pack_8s. rewrite H. simpl repeat.
  rewrite app_nil_r. rewrite <- H. apply firstn_all.
Qed.

(** [struct.pack('8s', b)] cuts a longer [b] to its first eight bytes. *)
Lemma pack_8s_long (b : list byte) :
  (8 <= List.length b)%nat -> Py.pack_8s b = firstn 8 b.
Proof.
  intros H. unfold Py.pack_8s.
  replace (8 - List.length b)%nat with 0%nat by lia. apply app_nil_r.
Qed.

Lemma firstn_repeat_le {A : Type} (x : A) (k n : nat) :
  (k <= n)%nat -> firstn k (repeat x n) = repeat x k.
Proof.
  revert n. induction k as [|k IH]; intros n H; [reflexivity|].
  destruct n as [|n]; [lia|]. cbn [repeat firstn]. rewrite IH by lia. reflexivity.
Qed.

(** The first [n] elements do not depend on how far the padding goes. *)
Lemma firstn_padded {A : Type} (x : A) (n a b : nat) (u : list A) :
  (n <= List.length u + a)%nat -> (n <= List.length u + b)%nat ->
  firstn n (u ++ repeat x a) = firstn n (u ++ repeat x b).
Proof. intros Ha Hb. rewrite !firstn_app, !firstn_repeat_le by lia. reflexivity. Qed.

(** The characters of a slice, and the encoding of a string after that of
    its slice. *)
Lemma list_ascii_slice_to (n : nat) (s : string) :
  list_ascii_of_string (Py.slice_to n s) = firstn n (list_ascii_of_string s).
Proof.
  revert s. induction n as [|n IH]; intros [|c s]; try reflexivity.
  cbn [Py.slice_to list_ascii_of_string firstn]. rewrite IH. reflexivity.
Qed.

Lemma bytes_utf8_slice_to (n : nat) (s : string) :
  Py.bytes_utf8 s
  = Py.bytes_utf8 (Py.slice_to n s)
    ++ flat_map Py.utf8_char (skipn n (list_ascii_of_string s)).
Proof.
  unfold Py.bytes_utf8.
  rewrite list_ascii_slice_to, <- flat_map_app, firstn_skipn. reflexivity.
Qed.

(** What the binary writer packs for a string [s]: the first eight bytes of
    the encoding of [s] followed by spaces. *)
Lemma pack_field (s : string) :
  Py.pack_8s (Py.bytes_utf8 (Py.format_ljust 8 (Py.slice_to 8 s)))
  = firstn 8 (Py.bytes_utf8 s ++ repeat x20 8).
Proof.
  unfold Py.format_ljust. rewrite bytes_utf8_append, bytes_utf8_spaces.
  pose proof (length_bytes_utf8 (Py.slice_to 8 s)) as Ht.
  rewrite pack_8s_long by (rewrite length_app, repeat_length; lia).
  destruct (Nat.le_gt_cases (String.length s) 8) as [Hs | Hs].
  - rewrite slice_to_short in * by exact Hs.
    apply firstn_padded; lia.
  - rewrite length_slice_to in *.
    rewrite (bytes_utf8_slice_to 8 s).
    rewrite <- app_assoc, !firstn_app.
    replace (8 - List.length (Py.bytes_utf8 (Py.slice_to 8 s)))%nat with 0%nat by lia.
    reflexivity.
Qed.

Lemma gsb_str_bytes_cut (key s : string) :
  let b := firstn 8 (Py.bytes_utf8 s ++ repeat x20 8) in
  gsb_str_bytes (gsb_8s key (Py.slice_to 8 s)) = Some b /\ List.length b = 8%nat.
Proof.
  cbv zeta. split.
  - cbn [gsb_str_bytes]. rewrite pack_field. reflexivity.
  - rewrite length_firstn, length_app, repeat_length. lia.
Qed.

(** For a field of code points below 128 these are its first eight
    characters and the spaces that fill eight bytes. *)
Lemma pack_field_ascii (s : string) :
  is_ascii s ->
  firstn 8 (Py.bytes_utf8 s ++ repeat x20 8)
  = list_byte_of_string (substring 0 8 s)
    ++ repeat x20 (8 - String.length (substring 0 8 s)).
Proof.
  intros Hs. rewrite <- pack_field, <- slice_to_substring.
  pose proof (is_ascii_slice_to 8 s Hs) as Ht.
  unfold Py.format_ljust.
  rewrite bytes_utf8_append, bytes_utf8_spaces, (bytes_utf8_ascii _ Ht).
  apply pack_8s_exact.
  rewrite length_app, repeat_length.
  rewrite <- (bytes_utf8_ascii _ Ht), (length_bytes_utf8_ascii _ Ht).
  rewrite length_slice_to. lia.
Qed.

(** The spaces that pad a value do not count in [trim_spaces]; anything
    else after a value does. *)
Lemma drop_spaces_app (b m : list byte) :
  drop_spaces (b ++ m)
  = match drop_spaces b with [] => drop_spaces m | _ => drop_spaces b ++ m end.
Proof.
  induction b as [|c b IH]; [reflexivity|].
  destruct c; try reflexivity. exact IH.
Qed.

Lemma drop_spaces_repeat (n : nat) (b : list byte) :
  drop_spaces (repeat x20 n ++ b) = drop_spaces b.
Proof. induction n as [|n IH]; [reflexivity | exact IH]. Qed.

Lemma drop_spaces_all (b : list byte) :
  drop_spaces b = [] <-> Forall (eq x20) b.
Proof.
  induction b as [|c b IH]; [split; [intros _; apply Forall_nil | reflexivity]|].
  split.
  - intros H. destruct c; try discriminate H.
    apply Forall_cons; [reflexivity | apply IH, H].
  - intros H. rewrite <- (Forall_inv H). apply IH, (Forall_inv_tail H).
Qed.

Lemma drop_spaces_idem (b : list byte) :
  drop_spaces (drop_spaces b) = drop_spaces b.
Proof.
  induction b as [|c b IH]; [reflexivity|].
  destruct c; try reflexivity. exact IH.
Qed.

Lemma length_drop_spaces (b : list byte) :
  (List.length (drop_spaces b) <= List.length b)%nat.
Proof.
  induction b as [|c b IH]; [apply Nat.le_refl|].
  destruct c; try apply Nat.le_refl. cbn [drop_spaces List.length]. lia.
Qed.

Lemma rev_repeat_x20 (n : nat) : rev (repeat x20 n) = repeat x20 n.
Proof.
  induction n as [|n IH]; [reflexivity|].
  cbn [repeat rev]. rewrite IH. symmetry. apply repeat_cons.
Qed.

Lemma trim_spaces_left (n : nat) (b : list byte) :
  trim_spaces (repeat x20 n ++ b) = trim_spaces b.
Proof. unfold trim_spaces. rewrite drop_spaces_repeat. reflexivity. Qed.

Lemma trim_spaces_right (b : list byte) (n : nat) :
  trim_spaces (b ++ repeat x20 n) = trim_spaces b.
Proof.
  unfold trim_spaces. rewrite drop_spaces_app.
  destruct (drop_spaces b) as [|c l] eqn:E.
  - assert (Hr : drop_spaces (repeat x20 n) = []).
    { apply drop_spaces_all, Forall_forall. intros x Hx.
      symmetry. apply (repeat_spec _ _ _ Hx). }
    rewrite Hr. reflexivity.
  - rewrite rev_app_distr, rev_repeat_x20, drop_spaces_repeat. reflexivity.
Qed.

Lemma trim_spaces_longer (a b : list byte) :
  ~ Forall (eq x20) b -> trim_spaces (a ++ b) <> trim_spaces a.
Proof.
  intros Hb.
  assert (Hd : drop_spaces b <> []) by (intros E; apply Hb, drop_spaces_all, E).
  assert (Hr : drop_spaces (rev b) <> []).
  { intros E. apply Hb. apply drop_spaces_all in E.
    rewrite <- (rev_involutive b). apply Forall_rev, E. }
  unfold trim_spaces. rewrite drop_spaces_app.
  destruct (drop_spaces a) as [|c d] eqn:Ea.
  - cbn [rev drop_spaces].
    intros E. apply (f_equal (@rev byte)) in E.
    rewrite rev_involutive in E. cbn [rev] in E.
    apply drop_spaces_all, Forall_rev in E. rewrite rev_involutive in E.
    apply drop_spaces_all in E. rewrite drop_spaces_idem in E.
    exact (Hd E).
  - rewrite rev_app_distr, drop_spaces_app.
    destruct (drop_spaces (rev b)) as [|e es] eqn:Er; [contradiction Hr; reflexivity|].
    intros E. apply (f_equal (@List.length byte)) in E.
    rewrite !length_rev, length_app, length_rev in E.
    pose proof (length_drop_spaces (rev (c :: d))) as Hl.
    rewrite length_rev in Hl. cbn [List.length] in *. lia.
Qed.

(** The value of a packed field, without its padding, is the value of the
    whole field exactly when the field fits eight bytes, but for spaces. *)
Lemma trim_pack_field (s : string) :
  trim_spaces (firstn 8 (Py.bytes_utf8 s ++ repeat x20 8))
  = trim_spaces (Py.bytes_utf8 s)
  <-> fits_eight_bytes s.
Proof.
  unfold fits_eight_bytes. set (u := Py.bytes_utf8 s).
  destruct (Nat.le_gt_cases (List.length u) 8) as [Hu | Hu].
  - rewrite skipn_all2 by exact Hu. split; [intros _; apply Forall_nil|]. intros _.
    rewrite firstn_app, firstn_all2, firstn_repeat_le by lia.
    apply trim_spaces_right.
  - rewrite firstn_app. replace (8 - List.length u)%nat with 0%nat by lia.
    cbn [firstn]. rewrite app_nil_r.
    rewrite <- (firstn_skipn 8 u) at 2.
    split.
    + intros E. destruct (Forall_dec (eq x20) (fun b => Byte.byte_eq_dec x20 b) (skipn 8 u))
        as [H | H]; [exact H|].
      exfalso. apply (trim_spaces_longer (firstn 8 u) (skipn 8 u) H). symmetry. exact E.
    + intros H. rewrite (Forall_eq_repeat H) at 1.
      symmetry. apply trim_spaces_right.
Qed.

(** Whether the binary header can be packed does not depend on the string
    fields. *)
Lemma gsb_headers_ok_strings (cfg : Config) (gt_n : Raster)
      (g v sf st sn p c u : string) :
  forallb gsb_item_ok (gsb_header (with_string_fields cfg g v sf st sn p c u))
  && forallb gsb_item_ok
       (gsb_sub_header (with_string_fields cfg g v sf st sn p c u) gt_n)
  = forallb gsb_item_ok (gsb_header cfg)
    && forallb gsb_item_ok (gsb_sub_header cfg gt_n).
Proof. reflexivity. Qed.

(** The WINTER writer reads no string field. *)
Lemma winter_nodes_strings (dec2dms : Q -> DMSAngle.t) (cfg : Config) (gt_n : Raster)
      (dov : option (Raster * Raster)) (g v sf st sn p c u : string) :
  winter_nodes dec2dms (with_string_fields cfg g v sf st sn p c u) gt_n dov
  = winter_nodes dec2dms cfg gt_n dov.
Proof. reflexivity. Qed.

Lemma write_file_strings (dec2dms : Q -> DMSAngle.t) (cfg : Config) (gt_n : Raster)
      (dov : option (Raster * Raster)) (g v sf st sn p c u : string) :
  let cfg' := with_string_fields cfg g v sf st sn p c u in
  is_written (write_file dec2dms cfg' gt_n dov)
  = is_written (write_file dec2dms cfg gt_n dov) /\
  (output_type cfg = winter ->
   write_file dec2dms cfg' gt_n dov = write_file dec2dms cfg gt_n dov).
Proof.
  cbv zeta. unfold write_file.
  change (output_type (with_string_fields cfg g v sf st sn p c u))
    with (output_type cfg).
  rewrite gsb_headers_ok_strings, winter_nodes_strings.
  destruct (output_type cfg).
  - split; [reflexivity | discriminate].
  - split; [|discriminate].
    destruct (_ && _); reflexivity.
  - split; reflexivity.
Qed.

End StringFields.

(** C2, as stated, fails: with a nine-character units label no writer
    fails. The GSB file carries the label cut to SECONDSX, the ASC file
    carries all nine characters, the WINTER file is written too. *)
Lemma long_field_is_not_rejected :
  String.length (gs_type (Sample.cfg_long gsb)) = 9%nat /\
  (exists hg sg ng kg vg,
      run Sample.dec2dms (Sample.cfg_long gsb) (Sample.files_plain Sample.nval)
      = Written (GsbFile hg sg ng kg vg) /\
      nth_error hg 3 = Some (gsb_8s "GS_TYPE " "SECONDSX") /\
      gsb_str_bytes (gsb_8s "GS_TYPE " "SECONDSX")
      = Some (list_byte_of_string "SECONDSX")) /\
  (exists ha sa na ea,
      run Sample.dec2dms (Sample.cfg_long asc) (Sample.files_plain Sample.nval)
      = Written (AscFile ha sa na ea) /\
      nth_error ha 3 = Some (asc_r8s "GS_TYPE " "SECONDSXX") /\
      asc_str_text (asc_r8s "GS_TYPE " "SECONDSXX") = Some "SECONDSXX"%string) /\
  (exists out,
      run Sample.dec2dms (Sample.cfg_long winter) (Sample.files_plain Sample.nval)
      = Written out).
Proof.
  split; [reflexivity|]. split; [|split].
  - do 5 eexists. split; [vm_compute; reflexivity|]. split; reflexivity.
  - do 4 eexists. split; [vm_compute; reflexivity|]. split; reflexivity.
  - eexists. vm_compute. reflexivity.
Qed.

Ltac field_cases H :=
  cbn [In overview_fields sub_grid_fields] in H;
  repeat (destruct H as [H | H]; [injection H as <- <- | ]); [.. | contradiction H].

(** C2, amended: no writer checks the width of a string field, and none
    fails on it.
    - A field [s] of the overview block is written by the ASC writer whole,
      after the spaces that fill a width of eight characters; a field of the
      sub-grid block whole, before such spaces. A longer field is written in
      full.
    - The GSB writer packs every field as exactly eight bytes: the first
      eight bytes of the UTF-8 encoding of [s] followed by spaces. For a
      field of code points below 128 these are its first eight characters
      and the spaces that fill eight bytes: a longer field is cut.
    - Whether a run writes its file does not depend on the string fields, and
      a WINTER run does not depend on them at all. *)
Theorem string_fields_cut_or_whole :
  (forall (cfg : Config) (gt_n : Raster) (key s : string),
      (In (key, s) (overview_fields cfg) ->
       In (asc_r8s key s) (asc_header cfg) /\
       asc_str_text (asc_r8s key s)
       = Some (string_of_list_ascii (repeat " "%char (8 - String.length s)) ++ s)%string /\
       In (gsb_8s key (Py.slice_to 8 s)) (gsb_header cfg)) /\
      (In (key, s) (sub_grid_fields cfg) ->
       In (asc_8s key s) (asc_sub_header cfg gt_n) /\
       asc_str_text (asc_8s key s)
       = Some (s ++ string_of_list_ascii (repeat " "%char (8 - String.length s)))%string /\
       In (gsb_8s key (Py.slice_to 8 s)) (gsb_sub_header cfg gt_n))) /\
  (forall key s : string,
      let b := firstn 8 (Py.bytes_utf8 s ++ repeat x20 8) in
      gsb_str_bytes (gsb_8s key (Py.slice_to 8 s)) = Some b /\
      List.length b = 8%nat /\
      (is_ascii s ->
       b = list_byte_of_string (substring 0 8 s)
           ++ repeat x20 (8 - String.length (substring 0 8 s)))) /\
  (forall (dec2dms : Q -> DMSAngle.t) (cfg : Config) (fs : Files)
          (g v sf st sn p c u : string),
      let cfg' := with_string_fields cfg g v sf st sn p c u in
      is_written (run dec2dms cfg' fs) = is_written (run dec2dms cfg fs) /\
      (output_type cfg = winter -> run dec2dms cfg' fs = run dec2dms cfg fs)).
Proof.
  split; [|split].
  - intros cfg gt_n key s. split; intros Hin; field_cases Hin;
      (split; [cbn [In asc_header asc_sub_header]; tauto|];
       split; [rewrite <- spaces_repeat; reflexivity|];
       cbn [In gsb_header gsb_sub_header]; tauto).
  - intros key s. cbv zeta.
    destruct (gsb_str_bytes_cut key s) as [Hb Hlen].
    split; [exact Hb|]. split; [exact Hlen|].
    apply pack_field_ascii.
  - intros dec2dms cfg fs g v sf st sn p c u. cbv zeta.
    unfold run.
    change (print_tif_metadata (with_string_fields cfg g v sf st sn p c u))
      with (print_tif_metadata cfg).
    destruct (read_dov fs).
    + destruct (tif_dov_pm_file fs) as [gt_pm|]; [|split; reflexivity].
      destruct (tif_dov_pv_file fs) as [gt_pv|]; [|split; reflexivity].
      destruct (grid_mismatch _ _ _); [|split; reflexivity].
      destruct (print_tif_metadata cfg); [split; reflexivity|].
      apply write_file_strings.
    + destruct (print_tif_metadata cfg); [split; reflexivity|].
      apply write_file_strings.
Qed.

(** C2, amended, on the nine-character label SECONDSXX and on the
    eight-character label AUSGEOI followed by the letter eth, which takes two
    bytes. *)
Lemma string_fields_cut_or_whole_witness :
  (In (asc_r8s "GS_TYPE " "SECONDSXX") (asc_header (Sample.cfg_long asc)) /\
   asc_str_text (asc_r8s "GS_TYPE " "SECONDSXX") = Some "SECONDSXX"%string /\
   In (gsb_8s "GS_TYPE " "SECONDSX") (gsb_header (Sample.cfg_long gsb))) /\
  (In (asc_8s "PARENT  " "NONE    ") (asc_sub_header (Sample.cfg_long asc) Sample.nval) /\
   asc_str_text (asc_8s "PARENT  " "NONE    ") = Some "NONE    "%string /\
   In (gsb_8s "PARENT  " "NONE    ") (gsb_sub_header (Sample.cfg_long gsb) Sample.nval)) /\
  gsb_str_bytes (gsb_8s "GS_TYPE " "SECONDSX") = Some (list_byte_of_string "SECONDSX") /\
  gsb_str_bytes (gsb_8s "SUB_NAME" Sample2.ausgeoi_eth)
  = Some [x41; x55; x53; x47; x45; x4f; x49; xc3] /\
  run Sample.dec2dms
      (with_string_fields (Sample.cfg winter) "SECONDSXX" "1.0.0.0 " "GDA2020 "
                          "AHD     " "AUSGEOID" "NONE    " "18062024" "18062024")
      (Sample.files_plain Sample.nval)
  = run Sample.dec2dms (Sample.cfg winter) (Sample.files_plain Sample.nval).
Proof.
  pose proof string_fields_cut_or_whole as (Hfields & Hbytes & Hruns).
  split; [|split; [|split; [|split]]].
  - apply (proj1 (Hfields (Sample.cfg_long asc) Sample.nval
                    "GS_TYPE "%string "SECONDSXX"%string)).
    simpl. tauto.
  - apply (proj2 (Hfields (Sample.cfg_long asc) Sample.nval
                    "PARENT  "%string "NONE    "%string)).
    simpl. tauto.
  - apply (proj1 (Hbytes "GS_TYPE "%string "SECONDSXX"%string)).
  - apply (proj1 (Hbytes "SUB_NAME"%string Sample2.ausgeoi_eth)).
  - apply (proj2 (Hruns Sample.dec2dms (Sample.cfg winter)
                    (Sample.files_plain Sample.nval)
                    "SECONDSXX"%string "1.0.0.0 "%string "GDA2020 "%string
                    "AHD     "%string "AUSGEOID"%string "NONE    "%string
                    "18062024"%string "18062024"%string)).
    reflexivity.
Defined.

(* ====================================================================== *)
(** ** The angle normalizer [check_rounding] *)
(* ====================================================================== *)

Section CheckRounding.

Local Open Scope Q_scope.

(** The test of line 95, as a proposition. *)
Lemma check_rounding_test (a : DMSAngle.t) (p : Z) :
  Py.ltb (Qabs (Py.sub (Py.round (DMSAngle.second a) p) 60)) (Py.pow10_neg p) = true <->
  Qabs (Py.sub (Py.round (DMSAngle.second a) p) 60) < Py.pow10_neg p.
Proof. apply ltb_lt. Qed.

Lemma check_rounding_unchanged (a : DMSAngle.t) (p : Z) :
  ~ Qabs (Py.sub (Py.round (DMSAngle.second a) p) 60) < Py.pow10_neg p ->
  check_rounding a p = a.
Proof.
  intros H. unfold check_rounding.
  destruct (Py.ltb _ _) eqn:E; [|reflexivity].
  apply check_rounding_test in E. contradiction.
Qed.

(** [10 ** -p] is at most 10 from [p = -1] on. *)
Lemma pow10_small (p : Z) : (-1 <= p)%Z -> Py.pow10_neg p <= 10.
Proof.
  intros H.
  assert (Hq : 10 ^ (- p) <= 10).
  { rewrite <- (Qpower_1_r 10) at 2.
    apply Qpower_le_compat_l; [lia | discriminate]. }
  unfold Py.pow10_neg. destruct (p <=? 0)%Z; [exact Hq|].
  apply binary64_le; [|exact Hq].
  apply (representable_integer 10). simpl. lia.
Qed.

(** Seconds of zero are 60 away from 60. *)
Lemma zero_seconds_far (p : Z) : Qabs (Py.sub (Py.round 0 p) 60) == 60.
Proof.
  rewrite round_zero.
  assert (E : Py.sub 0 60 == - (60)) by reflexivity.
  rewrite E. reflexivity.
Qed.

(** Once the seconds are zero the test of line 95 fails, unless the
    precision is [-2] or less. *)
Lemma check_rounding_zero_seconds (a : DMSAngle.t) (p : Z) :
  (-1 <= p)%Z -> DMSAngle.second a = 0 -> check_rounding a p = a.
Proof.
  intros Hp Hs. apply check_rounding_unchanged. rewrite Hs.
  rewrite zero_seconds_far.
  pose proof (pow10_small p Hp) as Hpow.
  intros Hlt. lra.
Qed.

(** When the test of line 95 holds the seconds are reset. *)
Lemma check_rounding_resets_seconds (a : DMSAngle.t) (p : Z) :
  Py.ltb (Qabs (Py.sub (Py.round (DMSAngle.second a) p) 60)) (Py.pow10_neg p) = true ->
  DMSAngle.second (check_rounding a p) = 0.
Proof.
  intros E. unfold check_rounding. rewrite E. cbv zeta.
  destruct (60 <=? _)%Z; [destruct (360 <=? _)%Z|]; reflexivity.
Qed.

(** C4: when the seconds, rounded to [p] places, lie within [10^-p] of 60,
    [check_rounding] sets the seconds to 0 and adds a minute; 60 minutes or
    more lose 60 and add a degree; 360 degrees or more lose 360. Otherwise
    the angle is unchanged. The distance from 60 and the bound [10^-p] are the
    floats that line 95 computes: [round(second, p) - 60.0] and [10 ** -p].
    The angle 359 59 59.9996 at precision 3 becomes 0 0 0.000. *)
Theorem check_rounding_carries :
  (forall (a : DMSAngle.t) (p : Z),
      (Qabs (Py.sub (Py.round (DMSAngle.second a) p) 60) < Py.pow10_neg p ->
       let a' := check_rounding a p in
       DMSAngle.second a' = 0 /\
       DMSAngle.positive a' = DMSAngle.positive a /\
       ((DMSAngle.minute a + 1 < 60)%Z ->
        DMSAngle.minute a' = (DMSAngle.minute a + 1)%Z /\
        DMSAngle.degree a' = DMSAngle.degree a) /\
       ((60 <= DMSAngle.minute a + 1)%Z ->
        DMSAngle.minute a' = (DMSAngle.minute a + 1 - 60)%Z /\
        ((DMSAngle.degree a + 1 < 360)%Z ->
         DMSAngle.degree a' = (DMSAngle.degree a + 1)%Z) /\
        ((360 <= DMSAngle.degree a + 1)%Z ->
         DMSAngle.degree a' = (DMSAngle.degree a + 1 - 360)%Z))) /\
      (~ Qabs (Py.sub (Py.round (DMSAngle.second a) p) 60) < Py.pow10_neg p ->
       check_rounding a p = a)) /\
  check_rounding Sample.angle_359_59_59_9996 3 = DMSAngle.Build true 0 0 0.
Proof.
  split; [|vm_compute; reflexivity].
  intros a p. split; [|apply check_rounding_unchanged].
  intros Hlt. apply check_rounding_test in Hlt.
  unfold check_rounding. rewrite Hlt. cbv zeta.
  destruct (60 <=? DMSAngle.minute a + 1)%Z eqn:Em;
    [apply Z.leb_le in Em | apply Z.leb_gt in Em].
  - destruct (360 <=? DMSAngle.degree a + 1)%Z eqn:Ed;
      [apply Z.leb_le in Ed | apply Z.leb_gt in Ed];
      cbn [DMSAngle.second DMSAngle.positive DMSAngle.minute DMSAngle.degree];
      repeat split; intros; try reflexivity; lia.
  - cbn [DMSAngle.second DMSAngle.positive DMSAngle.minute DMSAngle.degree].
    repeat split; intros; try reflexivity; lia.
Qed.

(** C4, at the angle of the specification: the test of line 95 holds and the
    carry runs through minutes and degrees. *)
Lemma check_rounding_carries_witness :
  Qabs (Py.sub (Py.round (DMSAngle.second Sample.angle_359_59_59_9996) 3) 60)
  < Py.pow10_neg 3
  /\ DMSAngle.second (check_rounding Sample.angle_359_59_59_9996 3) = 0.
Proof.
  split.
  - vm_compute. reflexivity.
  - apply (proj1 (proj1 check_rounding_carries Sample.angle_359_59_59_9996 3%Z)).
    vm_compute. reflexivity.
Defined.

(** C9: for every angle and every precision of at least [-1] (so for every
    number of decimal places) a second application of [check_rounding]
    changes nothing. *)
Theorem check_rounding_idempotent (a : DMSAngle.t) (p : Z) :
  (-1 <= p)%Z ->
  check_rounding (check_rounding a p) p = check_rounding a p.
Proof.
  intros Hp.
  destruct (Py.ltb (Qabs (Py.sub (Py.round (DMSAngle.second a) p) 60))
                   (Py.pow10_neg p)) eqn:E.
  - apply check_rounding_zero_seconds; [exact Hp|].
    apply check_rounding_resets_seconds, E.
  - assert (Hu : check_rounding a p = a).
    { unfold check_rounding. rewrite E. reflexivity. }
    rewrite Hu. exact Hu.
Qed.

Lemma check_rounding_idempotent_witness :
  check_rounding (check_rounding Sample.angle_359_59_59_9996 3) 3
  = check_rounding Sample.angle_359_59_59_9996 3.
Proof. apply check_rounding_idempotent. lia. Defined.

End CheckRounding.

(* ====================================================================== *)
(** ** Grid extents *)
(* ====================================================================== *)

Section Extents.

Local Open Scope Q_scope.

Lemma mul_nonneg (a b : Q) : 0 <= a -> 0 <= b -> 0 <= Py.mul a b.
Proof. intros Ha Hb. apply binary64_nonneg. nra. Qed.

Lemma float_of_int_nonneg (n : Z) : (0 <= n)%Z -> 0 <= Py.float_of_int n.
Proof.
  intros H. apply binary64_nonneg. change 0 with (inject_Z 0).
  rewrite <- Zle_Qle. exact H.
Qed.

Lemma lat_inc_nonneg (gt_n : Raster) : 0 <= lat_inc gt_n.
Proof.
  unfold lat_inc. apply round_0_nonneg, mul_nonneg; [apply Qabs_nonneg | discriminate].
Qed.

Lemma lon_inc_nonneg (gt_n : Raster) :
  0 <= x_int (GetGeoTransform gt_n) -> 0 <= lon_inc gt_n.
Proof.
  intros H. unfold lon_inc. apply round_0_nonneg, mul_nonneg; [exact H | discriminate].
Qed.

(** Taking a non-negative float off a float does not raise it. *)
Lemma sub_le (a b : Q) : is_float a -> 0 <= b -> Py.sub a b <= a.
Proof. intros Ha Hb. apply binary64_le; [exact Ha | lra]. Qed.

(** Both increments are whole numbers: the half-even integers of the float
    products. *)
Lemma lat_inc_integer (gt_n : Raster) :
  lat_inc gt_n
  == inject_Z (Py.round_half_even (Py.mul (Qabs (y_int (GetGeoTransform gt_n))) 3600)).
Proof. unfold lat_inc. apply round_0_float, is_float_binary64. Qed.

Lemma lon_inc_integer (gt_n : Raster) :
  lon_inc gt_n
  == inject_Z (Py.round_half_even (Py.mul (x_int (GetGeoTransform gt_n)) 3600)).
Proof. unfold lon_inc. apply round_0_float, is_float_binary64. Qed.

(** C5, as stated, fails. On the one arc-second grid with origin latitude
    34.6 S and two rows, the north edge is 126000 S and the south edge
    124561 S; on the grid whose columns run westwards the longitude increment
    is negative and the west edge lies below the east edge. Neither grid is
    rotated. *)
Lemma extent_invariant_fails :
  let r1 := with_geotransform Sample.nval Sample.gt_south in
  let r2 := with_geotransform Sample.nval Sample.gt_westward in
  ((1 <= RasterXSize r1)%Z /\ (1 <= RasterYSize r1)%Z /\
   x_rot (GetGeoTransform r1) = 0 /\ y_rot (GetGeoTransform r1) = 0 /\
   n_lat r1 == - (126000) /\ s_lat r1 == - (124561) /\
   ~ (s_lat r1 <= n_lat r1 /\ e_lon r1 <= w_lon r1 /\
      0 <= lat_inc r1 /\ 0 <= lon_inc r1)) /\
  ((1 <= RasterXSize r2)%Z /\ (1 <= RasterYSize r2)%Z /\
   x_rot (GetGeoTransform r2) = 0 /\ y_rot (GetGeoTransform r2) = 0 /\
   lon_inc r2 == - (1) /\
   ~ 0 <= lon_inc r2 /\ ~ e_lon r2 <= w_lon r2).
Proof.
  cbv zeta. repeat split; try (vm_compute; reflexivity); try discriminate.
  - intros (H & _). vm_compute in H. apply H. reflexivity.
  - intros H. vm_compute in H. apply H. reflexivity.
  - intros H. vm_compute in H. apply H. reflexivity.
Qed.

(** The longitude increment is non-negative exactly when the float product
    [x_int * 3600] is not below a half under zero. *)
Lemma lon_inc_nonneg_iff (gt_n : Raster) :
  0 <= lon_inc gt_n <-> - (1 # 2) <= Py.mul (x_int (GetGeoTransform gt_n)) 3600.
Proof.
  rewrite lon_inc_integer.
  set (P := Py.mul (x_int (GetGeoTransform gt_n)) 3600).
  destruct (round_half_even_nearest P) as [Hn _].
  apply Qabs_Qle_condition in Hn. destruct Hn as [Hlo Hhi].
  split.
  - intros H. lra.
  - intros H. change 0 with (inject_Z 0). rewrite <- Zle_Qle.
    destruct (Qlt_le_dec P 0) as [Hneg | Hpos].
    + rewrite (round_half_even_small P); [lia|].
      apply Qabs_Qle_condition. split; lra.
    + apply round_half_even_nonneg, Hpos.
Qed.

(** A raster of one column has its east edge on its west edge. *)
Lemma one_column (gt_n : Raster) :
  RasterXSize gt_n = 1%Z -> e_lon gt_n == w_lon gt_n.
Proof.
  intros HW. unfold e_lon, w_lon. rewrite HW.
  change (Py.float_of_int (1 - 1)) with 0.
  rewrite mul_zero_l. apply sub_zero, is_float_binary64.
Qed.

(** C5, amended: for every raster of width and height at least 1, the
    latitude increment is non-negative; the longitude increment is
    non-negative exactly when the float product [x_int * 3600] is at least
    -0.5, so whenever the pixel width is non-negative; and when the longitude
    increment is non-negative, or the raster has a single column, the west
    edge is at least the east edge, as long as neither the pixel width nor
    the origin longitude overflows when it is taken to arc-seconds. *)
Theorem extent_invariant (gt_n : Raster) :
  (1 <= RasterXSize gt_n)%Z ->
  (1 <= RasterYSize gt_n)%Z ->
  0 <= lat_inc gt_n /\
  (0 <= lon_inc gt_n <-> - (1 # 2) <= Py.mul (x_int (GetGeoTransform gt_n)) 3600) /\
  (0 <= x_int (GetGeoTransform gt_n) -> 0 <= lon_inc gt_n) /\
  (0 <= lon_inc gt_n \/ RasterXSize gt_n = 1%Z ->
   Py.finite (x_int (GetGeoTransform gt_n) * 3600) = true ->
   Py.finite (- x_ul (GetGeoTransform gt_n) * 3600) = true ->
   e_lon gt_n <= w_lon gt_n).
Proof.
  intros HW HH.
  split; [apply lat_inc_nonneg|].
  split; [apply lon_inc_nonneg_iff|].
  split; [apply lon_inc_nonneg|].
  intros [Hlon | H1] _ _.
  - unfold e_lon, w_lon. apply sub_le; [apply is_float_binary64|].
    apply mul_nonneg; [apply float_of_int_nonneg; lia | exact Hlon].
  - rewrite (one_column gt_n H1). apply Qle_refl.
Qed.

(** C5, amended, on the raster of three columns and on the raster of one
    column whose pixel width is negative. *)
Lemma extent_invariant_witness :
  (0 <= lat_inc Sample.nval_3x2 /\
   0 <= lon_inc Sample.nval_3x2 /\
   e_lon Sample.nval_3x2 <= w_lon Sample.nval_3x2) /\
  e_lon Sample2.nval_column <= w_lon Sample2.nval_column.
Proof.
  split.
  - destruct (extent_invariant Sample.nval_3x2) as (H1 & H2 & H3 & H4);
      [simpl; lia | simpl; lia |].
    assert (Hlon : 0 <= lon_inc Sample.nval_3x2).
    { apply H3. vm_compute. discriminate. }
    split; [exact H1|]. split; [exact Hlon|].
    apply H4; [left; exact Hlon | vm_compute; reflexivity | vm_compute; reflexivity].
  - destruct (extent_invariant Sample2.nval_column) as (_ & _ & _ & H4);
      [simpl; lia | simpl; lia |].
    apply H4; [right; reflexivity | vm_compute; reflexivity | vm_compute; reflexivity].
Defined.

(** C10: both increments are rounded half to even. For every raster whose
    pixel size does not overflow when it is taken to arc-seconds, [lat_inc]
    is the integer nearest to the float [abs(y_int) * 3600] and [lon_inc] the
    integer nearest to the float [x_int * 3600], a tie going to the even
    integer: half an arc-second gives 0 and one and a half give 2. The
    product is the float product: for the float 0.00125 it is 4.5, though
    3600 times that float lies above 4.5, and the increment is 4. *)
Theorem increments_round_half_even :
  (forall gt_n : Raster,
      Py.finite (Qabs (y_int (GetGeoTransform gt_n)) * 3600) = true ->
      Py.finite (x_int (GetGeoTransform gt_n) * 3600) = true ->
      (exists n : Z,
          lat_inc gt_n == inject_Z n /\
          nearest_ties_even (Py.mul (Qabs (y_int (GetGeoTransform gt_n))) 3600) n) /\
      (exists m : Z,
          lon_inc gt_n == inject_Z m /\
          nearest_ties_even (Py.mul (x_int (GetGeoTransform gt_n)) 3600) m)) /\
  (Py.mul (Qabs (y_int Sample.gt_half)) 3600 == 1 # 2 /\
   lat_inc (with_geotransform Sample.nval Sample.gt_half) == 0 /\
   Py.mul (x_int Sample.gt_half) 3600 == 1 # 2 /\
   lon_inc (with_geotransform Sample.nval Sample.gt_half) == 0) /\
  (Py.mul (Qabs (y_int Sample.gt_three_halves)) 3600 == 3 # 2 /\
   lat_inc (with_geotransform Sample.nval Sample.gt_three_halves) == 2 /\
   Py.mul (x_int Sample.gt_three_halves) 3600 == 3 # 2 /\
   lon_inc (with_geotransform Sample.nval Sample.gt_three_halves) == 2) /\
  (9 # 2 < x_int Sample2.gt_0_00125 * 3600 /\
   Py.mul (x_int Sample2.gt_0_00125) 3600 == 9 # 2 /\
   lon_inc (with_geotransform Sample.nval Sample2.gt_0_00125) == 4 /\
   Py.mul (Qabs (y_int Sample2.gt_0_00125)) 3600 == 9 # 2 /\
   lat_inc (with_geotransform Sample.nval Sample2.gt_0_00125) == 4).
Proof.
  split; [|repeat split; vm_compute; reflexivity].
  intros gt_n _ _. split.
  - exists (Py.round_half_even (Py.mul (Qabs (y_int (GetGeoTransform gt_n))) 3600)).
    split; [apply lat_inc_integer | apply round_half_even_nearest].
  - exists (Py.round_half_even (Py.mul (x_int (GetGeoTransform gt_n)) 3600)).
    split; [apply lon_inc_integer | apply round_half_even_nearest].
Qed.

(** C10 on the one arc-second grid: both increments are 1. *)
Lemma increments_round_half_even_witness :
  (exists n : Z,
      lat_inc Sample.nval == inject_Z n /\
      nearest_ties_even (Py.mul (Qabs (y_int Sample.gt)) 3600) n) /\
  (exists m : Z,
      lon_inc Sample.nval == inject_Z m /\
      nearest_ties_even (Py.mul (x_int Sample.gt) 3600) m).
Proof.
  apply (proj1 increments_round_half_even Sample.nval); vm_compute; reflexivity.
Defined.

End Extents.

(* ====================================================================== *)
(** ** Node traversal order *)
(* ====================================================================== *)

Section Traversal.

(** The two ranges the loops use. *)
Lemma range_ascending (n : Z) :
  Py.range 0 n 1 = map Z.of_nat (seq 0 (Z.to_nat n)).
Proof.
  unfold Py.range. simpl (0 <? 1).
  replace ((n - 0 + 1 - 1) / 1) with n by (rewrite Z.div_1_r; lia).
  apply map_ext. intros i. lia.
Qed.

Lemma range_descending (n : Z) :
  Py.range (n - 1) (-1) (-1) = map (fun i => n - 1 - Z.of_nat i) (seq 0 (Z.to_nat n)).
Proof.
  unfold Py.range. simpl (0 <? -1). simpl (-1 <? 0).
  replace ((n - 1 - -1 - -1 - 1) / - -1) with n
    by (change (- -1) with 1; rewrite Z.div_1_r; lia).
  apply map_ext. intros i. lia.
Qed.

Lemma nth_error_map_seq {A : Type} (g : nat -> A) (n i : nat) :
  (i < n)%nat -> nth_error (map g (seq 0 n)) i = Some (g i).
Proof.
  intros H. rewrite nth_error_map, nth_error_seq.
  destruct (Nat.ltb_spec i n); [reflexivity | lia].
Qed.

(** The element at position [i * len(xs) + j] of two nested loops. *)
Lemma nth_error_nested {A B C : Type} (f : A -> B -> C)
      (ys : list A) (xs : list B) (w i j : nat) (y : A) (x : B) :
  List.length xs = w ->
  nth_error ys i = Some y ->
  nth_error xs j = Some x ->
  nth_error (flat_map (fun y => map (fun x => f y x) xs) ys) (i * w + j)
  = Some (f y x).
Proof.
  intros <-. revert i. induction ys as [|y0 ys IH]; intros i Hy Hx.
  - destruct i; discriminate.
  - assert (Hj : (j < List.length xs)%nat) by (apply nth_error_Some; congruence).
    destruct i as [|i]; simpl flat_map.
    + injection Hy as ->. simpl.
      rewrite nth_error_app1 by (rewrite length_map; exact Hj).
      rewrite nth_error_map, Hx. reflexivity.
    + rewrite nth_error_app2 by (rewrite length_map; simpl; lia).
      rewrite length_map.
      replace (S i * List.length xs + j - List.length xs)%nat
        with (i * List.length xs + j)%nat by (simpl; lia).
      apply IH; assumption.
Qed.

(** Position [k] of a [w]-wide grid, as a row and a column. *)
Lemma position_split (k : nat) (w h : Z) :
  1 <= w -> Z.of_nat k < w * h ->
  exists i j : nat,
    k = (i * Z.to_nat w + j)%nat /\
    (i < Z.to_nat h)%nat /\ (j < Z.to_nat w)%nat /\
    Z.of_nat i = Z.of_nat k / w /\ Z.of_nat j = Z.of_nat k mod w.
Proof.
  intros Hw Hk. exists (k / Z.to_nat w)%nat, (k mod Z.to_nat w)%nat.
  assert (Hw' : (Z.to_nat w <> 0)%nat) by lia.
  split; [rewrite Nat.mul_comm; apply Nat.div_mod_eq|].
  split.
  - apply Nat.Div0.div_lt_upper_bound. nia.
  - split; [apply Nat.mod_upper_bound, Hw'|].
    rewrite Nat2Z.inj_div, Nat2Z.inj_mod, Z2Nat.id by lia. split; reflexivity.
Qed.

Variable dec2dms : Q -> DMSAngle.t.
Variable cfg : Config.
Variable gt_n : Raster.
Variable dov : option (Raster * Raster).

Let W := RasterXSize gt_n.
Let H := RasterYSize gt_n.

Lemma winter_nodes_nth (k : nat) :
  1 <= W -> Z.of_nat k < W * H ->
  nth_error (winter_nodes dec2dms cfg gt_n dov) k
  = Some (winter_node dec2dms cfg gt_n dov (Z.of_nat k / W) (Z.of_nat k mod W)).
Proof.
  intros Hw Hk.
  destruct (position_split k W H Hw Hk) as (i & j & Ek & Hi & Hj & Ei & Ej).
  unfold winter_nodes. fold W H. rewrite !range_ascending.
  rewrite <- Ei, <- Ej, Ek.
  apply (nth_error_nested (winter_node dec2dms cfg gt_n dov)).
  - rewrite length_map, length_seq. reflexivity.
  - apply nth_error_map_seq; assumption.
  - apply nth_error_map_seq; assumption.
Qed.

Lemma asc_nodes_nth (k : nat) :
  1 <= W -> Z.of_nat k < W * H ->
  nth_error (asc_nodes cfg gt_n dov) k
  = Some (asc_node cfg gt_n dov (H - 1 - Z.of_nat k / W) (W - 1 - Z.of_nat k mod W)).
Proof.
  intros Hw Hk.
  destruct (position_split k W H Hw Hk) as (i & j & Ek & Hi & Hj & Ei & Ej).
  unfold asc_nodes. fold W H. rewrite !range_descending.
  rewrite <- Ei, <- Ej, Ek.
  apply (nth_error_nested (asc_node cfg gt_n dov)).
  - rewrite length_map, length_seq. reflexivity.
  - apply (nth_error_map_seq (fun i => H - 1 - Z.of_nat i)); assumption.
  - apply (nth_error_map_seq (fun i => W - 1 - Z.of_nat i)); assumption.
Qed.

Lemma gsb_nodes_nth (k : nat) :
  1 <= W -> Z.of_nat k < W * H ->
  nth_error (gsb_nodes cfg gt_n dov) k
  = Some (gsb_node cfg gt_n dov (H - 1 - Z.of_nat k / W) (W - 1 - Z.of_nat k mod W)).
Proof.
  intros Hw Hk.
  destruct (position_split k W H Hw Hk) as (i & j & Ek & Hi & Hj & Ei & Ej).
  unfold gsb_nodes. fold W H. rewrite !range_descending.
  rewrite <- Ei, <- Ej, Ek.
  apply (nth_error_nested (gsb_node cfg gt_n dov)).
  - rewrite length_map, length_seq. reflexivity.
  - apply (nth_error_map_seq (fun i => H - 1 - Z.of_nat i)); assumption.
  - apply (nth_error_map_seq (fun i => W - 1 - Z.of_nat i)); assumption.
Qed.

(** The second test of the binary writer (lines 298-299) changes nothing. *)
Lemma gsb_node_asc_node (y x : Z) : gsb_node cfg gt_n dov y x = asc_node cfg gt_n dov y x.
Proof.
  unfold gsb_node, asc_node, check_nan.
  destruct (PrimFloat.is_nan (values_n gt_n y x)) eqn:E.
  - destruct (PrimFloat.is_nan (null_node_val cfg)); reflexivity.
  - rewrite E. reflexivity.
Qed.

Lemma gsb_nodes_asc_nodes : gsb_nodes cfg gt_n dov = asc_nodes cfg gt_n dov.
Proof.
  unfold gsb_nodes, asc_nodes.
  apply flat_map_ext. intros y. apply map_ext. intros x. apply gsb_node_asc_node.
Qed.

(** The node written for [(y, x)] carries raster cell (row [y], column [x]),
    of the geoid raster and of each companion. *)
Lemma asc_node_cell (y x : Z) :
  node_channels (asc_node cfg gt_n dov y x)
  = [ cell cfg gt_n y x;
      companion_cell cfg (option_map fst dov) y x;
      companion_cell cfg (option_map snd dov) y x;
      null_node_val cfg ].
Proof. destruct dov as [[gt_pm gt_pv]|]; reflexivity. Qed.

Lemma winter_node_cell (y x : Z) :
  winter_node dec2dms cfg gt_n dov y x
  = {| wn_n_val := cell cfg gt_n y x;
       wn_lat :=
         check_rounding
           (dec2dms (Py.add (y_ul (GetGeoTransform gt_n))
                            (Py.mul (Py.float_of_int y) (y_int (GetGeoTransform gt_n)))))
           3;
       wn_lon :=
         check_rounding
           (dec2dms (Py.add (x_ul (GetGeoTransform gt_n))
                            (Py.mul (Py.float_of_int x) (x_int (GetGeoTransform gt_n)))))
           3;
       wn_pm_val := companion_cell cfg (option_map fst dov) y x;
       wn_pv_val := companion_cell cfg (option_map snd dov) y x |}.
Proof. destruct dov as [[gt_pm gt_pv]|]; reflexivity. Qed.

End Traversal.

(** C6: for a raster of width [W >= 1] and height [H >= 1], the WINTER
    writer emits cell (0, 0) first and cell ([k / W], [k mod W]) at position
    [k]: row-major, first to last. The ASC and GSB writers emit cell
    ([H - 1], [W - 1]) first and cell ([H - 1 - k / W], [W - 1 - k mod W]) at
    position [k]: rows last to first, columns last to first in each row. The
    node of a cell carries the sample of the geoid raster at that row and
    column, the samples of the companion rasters at that row and column and,
    in the WINTER file, the latitude of the row and the longitude of the
    column. *)
Theorem node_order (dec2dms : Q -> DMSAngle.t) (cfg : Config) (gt_n : Raster)
        (dov : option (Raster * Raster)) :
  let W := RasterXSize gt_n in
  let H := RasterYSize gt_n in
  1 <= W -> 1 <= H ->
  (hd_error (winter_nodes dec2dms cfg gt_n dov)
   = Some (winter_node dec2dms cfg gt_n dov 0 0) /\
   hd_error (asc_nodes cfg gt_n dov) = Some (asc_node cfg gt_n dov (H - 1) (W - 1)) /\
   hd_error (gsb_nodes cfg gt_n dov) = Some (gsb_node cfg gt_n dov (H - 1) (W - 1))) /\
  (forall k : nat,
      Z.of_nat k < W * H ->
      nth_error (winter_nodes dec2dms cfg gt_n dov) k
      = Some (winter_node dec2dms cfg gt_n dov (Z.of_nat k / W) (Z.of_nat k mod W)) /\
      nth_error (asc_nodes cfg gt_n dov) k
      = Some (asc_node cfg gt_n dov
                (H - 1 - Z.of_nat k / W) (W - 1 - Z.of_nat k mod W)) /\
      nth_error (gsb_nodes cfg gt_n dov) k
      = Some (gsb_node cfg gt_n dov
                (H - 1 - Z.of_nat k / W) (W - 1 - Z.of_nat k mod W))) /\
  (forall row col : Z,
      let g := GetGeoTransform gt_n in
      let channels :=
        [ cell cfg gt_n row col;
          companion_cell cfg (option_map fst dov) row col;
          companion_cell cfg (option_map snd dov) row col;
          null_node_val cfg ] in
      node_channels (asc_node cfg gt_n dov row col) = channels /\
      node_channels (gsb_node cfg gt_n dov row col) = channels /\
      winter_node dec2dms cfg gt_n dov row col
      = {| wn_n_val := cell cfg gt_n row col;
           wn_lat :=
             check_rounding
               (dec2dms (Py.add (y_ul g) (Py.mul (Py.float_of_int row) (y_int g)))) 3;
           wn_lon :=
             check_rounding
               (dec2dms (Py.add (x_ul g) (Py.mul (Py.float_of_int col) (x_int g)))) 3;
           wn_pm_val := companion_cell cfg (option_map fst dov) row col;
           wn_pv_val := companion_cell cfg (option_map snd dov) row col |}).
Proof.
  intros W H HW HH.
  assert (Hall : forall k : nat,
             Z.of_nat k < W * H ->
             nth_error (winter_nodes dec2dms cfg gt_n dov) k
             = Some (winter_node dec2dms cfg gt_n dov (Z.of_nat k / W) (Z.of_nat k mod W)) /\
             nth_error (asc_nodes cfg gt_n dov) k
             = Some (asc_node cfg gt_n dov
                       (H - 1 - Z.of_nat k / W) (W - 1 - Z.of_nat k mod W)) /\
             nth_error (gsb_nodes cfg gt_n dov) k
             = Some (gsb_node cfg gt_n dov
                       (H - 1 - Z.of_nat k / W) (W - 1 - Z.of_nat k mod W))).
  { intros k Hk. split; [|split].
    - apply winter_nodes_nth; assumption.
    - apply asc_nodes_nth; assumption.
    - apply gsb_nodes_nth; assumption. }
  split; [|split; [exact Hall|]].
  - destruct (Hall 0%nat) as (Hw & Ha & Hg); [simpl; nia|].
    rewrite <- !nth_error_0.
    change (Z.of_nat 0 / W) with 0 in *.
    rewrite Zmod_0_l in *.
    rewrite !Z.sub_0_r in *.
    repeat split; assumption.
  - intros row col. cbv zeta. split; [|split].
    + apply asc_node_cell.
    + rewrite gsb_node_asc_node. apply asc_node_cell.
    + apply winter_node_cell.
Qed.

(** C6 on the raster of three columns and two rows
    [[1.0, 2.0, 2.0], [3.0, NaN, NaN]] with null value -999: the WINTER file
    starts with cell (0, 0), the ASC and GSB files with cell (1, 2); the
    second node of the WINTER file is cell (0, 1) and the last node of the
    ASC file is cell (0, 0). *)
Lemma node_order_witness :
  (hd_error (winter_nodes Sample.dec2dms (Sample.cfg winter) Sample.nval_3x2 None)
   = Some (winter_node Sample.dec2dms (Sample.cfg winter) Sample.nval_3x2 None 0 0) /\
   hd_error (asc_nodes (Sample.cfg asc) Sample.nval_3x2 None)
   = Some (asc_node (Sample.cfg asc) Sample.nval_3x2 None 1 2) /\
   hd_error (gsb_nodes (Sample.cfg gsb) Sample.nval_3x2 None)
   = Some (gsb_node (Sample.cfg gsb) Sample.nval_3x2 None 1 2)) /\
  nth_error (winter_nodes Sample.dec2dms (Sample.cfg winter) Sample.nval_3x2 None) 1
  = Some (winter_node Sample.dec2dms (Sample.cfg winter) Sample.nval_3x2 None 0 1) /\
  nth_error (asc_nodes (Sample.cfg asc) Sample.nval_3x2 None) 5
  = Some (asc_node (Sample.cfg asc) Sample.nval_3x2 None 0 0) /\
  node_channels (asc_node (Sample.cfg asc) Sample.nval_3x2 None 0 0)
  = [1%float; (-999)%float; (-999)%float; (-999)%float] /\
  node_channels (gsb_node (Sample.cfg gsb) Sample.nval_3x2 None 1 0)
  = [3%float; (-999)%float; (-999)%float; (-999)%float] /\
  wn_n_val (winter_node Sample.dec2dms (Sample.cfg winter) Sample.nval_3x2 None 0 1)
  = 2%float.
Proof.
  pose proof (node_order Sample.dec2dms (Sample.cfg winter) Sample.nval_3x2 None)
    as Hw.
  pose proof (node_order Sample.dec2dms (Sample.cfg asc) Sample.nval_3x2 None)
    as Ha.
  pose proof (node_order Sample.dec2dms (Sample.cfg gsb) Sample.nval_3x2 None)
    as Hg.
  cbv zeta in Hw, Ha, Hg.
  destruct Hw as (Hw1 & Hw2 & Hw3); [simpl; lia | simpl; lia |].
  destruct Ha as (Ha1 & Ha2 & Ha3); [simpl; lia | simpl; lia |].
  destruct Hg as (Hg1 & Hg2 & Hg3); [simpl; lia | simpl; lia |].
  split; [split; [apply Hw1 | split; [apply Ha1 | apply Hg1]]|].
  split; [apply (proj1 (Hw2 1%nat ltac:(simpl; lia)))|].
  split; [apply (proj1 (proj2 (Ha2 5%nat ltac:(simpl; lia))))|].
  split; [apply (proj1 (Ha3 0 0))|].
  split; [apply (proj1 (proj2 (Hg3 1 0)))|].
  rewrite (proj2 (proj2 (Hw3 0 1))). reflexivity.
Defined.

(* ====================================================================== *)
(** ** Node values: sanitizing, and text against binary *)
(* ====================================================================== *)

Section Nodes.

Lemma check_nan_of_nan (v s : float) :
  PrimFloat.is_nan v = true -> check_nan v s = s.
Proof. intros H. unfold check_nan. rewrite H. reflexivity. Qed.

Lemma check_nan_of_number (v s : float) :
  PrimFloat.is_nan v = false -> check_nan v s = v.
Proof. intros H. unfold check_nan. rewrite H. reflexivity. Qed.

Lemma check_nan_clean (v s : float) :
  PrimFloat.is_nan s = false -> PrimFloat.is_nan (check_nan v s) = false.
Proof.
  intros H. unfold check_nan.
  destruct (PrimFloat.is_nan v) eqn:E; assumption.
Qed.

Variable cfg : Config.
Variable gt_n : Raster.
Variable dov : option (Raster * Raster).

Hypothesis null_is_a_number : PrimFloat.is_nan (null_node_val cfg) = false.

Let clean (v : float) : Prop := PrimFloat.is_nan v = false.

Lemma asc_node_clean (y x : Z) : Forall clean (node_channels (asc_node cfg gt_n dov y x)).
Proof.
  unfold asc_node. destruct dov as [[gt_pm gt_pv]|]; simpl;
    repeat constructor; try apply check_nan_clean; exact null_is_a_number.
Qed.

Lemma asc_nodes_clean : Forall clean (flat_map node_channels (asc_nodes cfg gt_n dov)).
Proof.
  apply Forall_flat_map, Forall_forall. intros nd Hin.
  unfold asc_nodes in Hin. apply in_flat_map in Hin as (y & _ & Hin).
  apply in_map_iff in Hin as (x & <- & _). apply asc_node_clean.
Qed.

Lemma winter_nodes_clean (dec2dms : Q -> DMSAngle.t) :
  Forall clean
         (flat_map (fun nd => [wn_n_val nd; wn_pm_val nd; wn_pv_val nd])
                   (winter_nodes dec2dms cfg gt_n dov)).
Proof.
  apply Forall_flat_map, Forall_forall. intros nd Hin.
  unfold winter_nodes in Hin. apply in_flat_map in Hin as (y & _ & Hin).
  apply in_map_iff in Hin as (x & <- & _).
  unfold winter_node. destruct dov as [[gt_pm gt_pv]|]; simpl;
    repeat constructor; try apply check_nan_clean; exact null_is_a_number.
Qed.

Lemma write_file_clean (dec2dms : Q -> DMSAngle.t) (out : Output) :
  write_file dec2dms cfg gt_n dov = Written out ->
  Forall clean (output_channels out).
Proof.
  unfold write_file. destruct (output_type cfg).
  - intros E. injection E as <-. apply asc_nodes_clean.
  - destruct (_ && _); [|discriminate].
    intros E. injection E as <-. simpl. rewrite gsb_nodes_asc_nodes.
    apply asc_nodes_clean.
  - intros E. injection E as <-. apply winter_nodes_clean.
Qed.

End Nodes.

(** What [run] hands to the writers. *)
Lemma run_written (dec2dms : Q -> DMSAngle.t) (cfg : Config) (fs : Files) (out : Output) :
  run dec2dms cfg fs = Written out ->
  exists dov : option (Raster * Raster),
    write_file dec2dms cfg (tif_nval_file fs) dov = Written out /\
    (forall t, run dec2dms (with_output_type cfg t) fs
               = write_file dec2dms (with_output_type cfg t) (tif_nval_file fs) dov).
Proof.
  unfold run.
  change (print_tif_metadata (with_output_type cfg _)) with (print_tif_metadata cfg).
  destruct (read_dov fs).
  - destruct (tif_dov_pm_file fs) as [gt_pm|]; [|discriminate].
    destruct (tif_dov_pv_file fs) as [gt_pv|]; [|discriminate].
    destruct (grid_mismatch _ _ _); [|discriminate].
    destruct (print_tif_metadata cfg) eqn:Ep; [discriminate|].
    intros E. exists (Some (gt_pm, gt_pv)). split; [exact E|].
    intros t. reflexivity.
  - destruct (print_tif_metadata cfg) eqn:Ep; [discriminate|].
    intros E. exists None. split; [exact E|].
    intros t. reflexivity.
Qed.

(** C8, as stated, fails for a null value that is itself NaN: the text file
    then carries NaN in every channel the null value fills. *)
Lemma nan_null_value_is_written :
  check_nan nan nan = nan /\
  exists out : Output,
    run Sample.dec2dms (Sample.cfg_nan asc) (Sample.files_plain Sample.nval)
    = Written out /\
    Exists (fun v => PrimFloat.is_nan v = true) (output_channels out).
Proof.
  split; [reflexivity|].
  eexists. split; [vm_compute; reflexivity|].
  apply Exists_cons_hd. reflexivity.
Qed.

(** C8, amended: [check_nan] returns the null value for NaN and its input,
    unchanged, for anything else, a value equal to the null value included;
    and whenever the null value is not itself NaN, no channel of any node of
    a written file is NaN. *)
Theorem check_nan_sanitizes :
  (forall v s : float,
      (PrimFloat.is_nan v = true -> check_nan v s = s) /\
      (PrimFloat.is_nan v = false -> check_nan v s = v)) /\
  (forall (dec2dms : Q -> DMSAngle.t) (cfg : Config) (fs : Files) (out : Output),
      PrimFloat.is_nan (null_node_val cfg) = false ->
      run dec2dms cfg fs = Written out ->
      Forall (fun v => PrimFloat.is_nan v = false) (output_channels out)).
Proof.
  split.
  - intros v s. split; [apply check_nan_of_nan | apply check_nan_of_number].
  - intros dec2dms cfg fs out Hnull Hrun.
    destruct (run_written _ _ _ _ Hrun) as (dov & Hw & _).
    exact (write_file_clean cfg (tif_nval_file fs) dov Hnull dec2dms out Hw).
Qed.

Lemma check_nan_sanitizes_witness :
  check_nan nan (-999)%float = (-999)%float /\
  check_nan 0x1.8ae147ae147aep+3%float (-999)%float = 0x1.8ae147ae147aep+3%float /\
  check_nan (-999)%float (-999)%float = (-999)%float /\
  Forall (fun v => PrimFloat.is_nan v = false)
         (output_channels
            (WinterFile
               (winter_title Sample.nval)
               (winter_nodes Sample.dec2dms (Sample.cfg winter) Sample.nval
                             (Some (Sample.pm Sample.gt, Sample.pv Sample.gt))))).
Proof.
  split; [|split; [|split]].
  - apply (proj1 check_nan_sanitizes). reflexivity.
  - apply (proj1 check_nan_sanitizes). reflexivity.
  - apply (proj1 check_nan_sanitizes). reflexivity.
  - apply (proj2 check_nan_sanitizes Sample.dec2dms (Sample.cfg winter)
             (Sample.files_dov Sample.nval (Sample.pm Sample.gt) (Sample.pv Sample.gt))).
    + reflexivity.
    + reflexivity.
Defined.

(** A string field is the same value in the text header and in the binary
    header exactly when it fits eight bytes, but for spaces. *)
Lemma string_field_agrees_r (key s : string) :
  asc_field (asc_r8s key s) = gsb_field (gsb_8s key (Py.slice_to 8 s))
  <-> fits_eight_bytes s.
Proof.
  cbn [asc_field gsb_field]. rewrite pack_field. unfold Py.format_rjust.
  rewrite bytes_utf8_append, bytes_utf8_spaces, trim_spaces_left.
  rewrite <- trim_pack_field.
  split; [intros E; injection E as E; symmetry; exact E | intros E; rewrite E; reflexivity].
Qed.

Lemma string_field_agrees_l (key s : string) :
  asc_field (asc_8s key s) = gsb_field (gsb_8s key (Py.slice_to 8 s))
  <-> fits_eight_bytes s.
Proof.
  cbn [asc_field gsb_field]. rewrite pack_field. unfold Py.format_ljust.
  rewrite bytes_utf8_append, bytes_utf8_spaces, trim_spaces_right.
  rewrite <- trim_pack_field.
  split; [intros E; injection E as E; symmetry; exact E | intros E; rewrite E; reflexivity].
Qed.

(** A field of at most eight bytes fits. *)
Lemma short_field_fits (s : string) :
  (List.length (Py.bytes_utf8 s) <= 8)%nat -> fits_eight_bytes s.
Proof.
  intros H. unfold fits_eight_bytes. rewrite skipn_all2 by exact H. apply Forall_nil.
Qed.

(** C7, as stated, fails: with a nine-character units label both writers
    succeed, and the text header holds SECONDSXX where the binary header
    holds SECONDSX. So it does with a sub-grid name of eight characters whose
    last one takes two bytes: the binary header holds the first eight
    bytes. *)
Lemma long_field_headers_differ :
  (exists ha sa na ea hg sg ng kg vg,
      run Sample.dec2dms (Sample.cfg_long asc) (Sample.files_plain Sample.nval)
      = Written (AscFile ha sa na ea) /\
      run Sample.dec2dms (Sample.cfg_long gsb) (Sample.files_plain Sample.nval)
      = Written (GsbFile hg sg ng kg vg) /\
      nth_error (map asc_field ha) 3
      = Some ("GS_TYPE "%string, StrValue (list_byte_of_string "SECONDSXX")) /\
      nth_error (map gsb_field hg) 3
      = Some ("GS_TYPE "%string, StrValue (list_byte_of_string "SECONDSX")) /\
      map asc_field ha <> map gsb_field hg) /\
  (exists ha sa na ea hg sg ng kg vg,
      String.length (sub_name (Sample2.cfg_eth asc)) = 8%nat /\
      run Sample.dec2dms (Sample2.cfg_eth asc) (Sample.files_plain Sample.nval)
      = Written (AscFile ha sa na ea) /\
      run Sample.dec2dms (Sample2.cfg_eth gsb) (Sample.files_plain Sample.nval)
      = Written (GsbFile hg sg ng kg vg) /\
      nth_error (map asc_field sa) 0
      = Some ("SUB_NAME"%string,
              StrValue [x41; x55; x53; x47; x45; x4f; x49; xc3; x90]) /\
      nth_error (map gsb_field sg) 0
      = Some ("SUB_NAME"%string,
              StrValue [x41; x55; x53; x47; x45; x4f; x49; xc3]) /\
      map asc_field sa <> map gsb_field sg).
Proof.
  split.
  - do 9 eexists.
    split; [vm_compute; reflexivity|].
    split; [vm_compute; reflexivity|].
    split; [reflexivity|]. split; [reflexivity|].
    intros E. apply (f_equal (fun l => nth_error l 3)) in E. discriminate E.
  - do 9 eexists. split; [reflexivity|].
    split; [vm_compute; reflexivity|].
    split; [vm_compute; reflexivity|].
    split; [reflexivity|]. split; [reflexivity|].
    intros E. apply (f_equal (fun l => nth_error l 0)) in E. discriminate E.
Qed.

Ltac in_fields :=
  cbn [In string_fields]; repeat (first [left; reflexivity | right]).

(** C7, amended: for a configuration whose fixed-width string fields each
    fit eight bytes, but for spaces (the UTF-8 encoding of the field holds
    nothing but spaces after its first eight bytes), and any rasters, when the
    text run and the binary run both write their file, the two overview
    headers hold the same keys and values in the same order, so do the two
    sub-grid headers, and the two node lists are equal: the same four values
    per node, in the same order. A string field is the same value in the two
    headers exactly when it fits in this sense; a field of at most eight
    bytes does, so a field of at most eight characters below code point
    128. *)
Theorem asc_gsb_agree :
  (forall (dec2dms : Q -> DMSAngle.t) (cfg : Config) (fs : Files)
          (ha sa : list AscItem) (na : list Node) (ea : string)
          (hg sg : list GsbItem) (ng : list Node) (kg : list byte) (vg : Q),
      (forall key s, In (key, s) (string_fields cfg) -> fits_eight_bytes s) ->
      run dec2dms (with_output_type cfg asc) fs = Written (AscFile ha sa na ea) ->
      run dec2dms (with_output_type cfg gsb) fs = Written (GsbFile hg sg ng kg vg) ->
      map asc_field ha = map gsb_field hg /\
      map asc_field sa = map gsb_field sg /\
      na = ng) /\
  (forall key s : string,
      (asc_field (asc_r8s key s) = gsb_field (gsb_8s key (Py.slice_to 8 s))
       <-> fits_eight_bytes s) /\
      (asc_field (asc_8s key s) = gsb_field (gsb_8s key (Py.slice_to 8 s))
       <-> fits_eight_bytes s) /\
      ((List.length (Py.bytes_utf8 s) <= 8)%nat -> fits_eight_bytes s) /\
      (is_ascii s -> (String.length s <= 8)%nat -> fits_eight_bytes s)).
Proof.
  split.
  - intros dec2dms cfg fs ha sa na ea hg sg ng kg vg Hfit Ha Hg.
    destruct (run_written _ _ _ _ Ha) as (dov & Hwa & _).
    destruct (run_written _ _ _ _ Hg) as (dov' & Hwg & Hall).
    specialize (Hall asc).
    change (with_output_type (with_output_type cfg gsb) asc)
      with (with_output_type cfg asc) in Hall.
    rewrite Ha in Hall. clear Hwa dov.
    unfold write_file in Hall, Hwg. cbn [output_type with_output_type] in Hall, Hwg.
    destruct (_ && _) in Hwg; [|discriminate].
    injection Hall as -> -> -> _. injection Hwg as <- <- <- _ _.
    split; [|split].
    + unfold asc_header, gsb_header. cbn [map].
      change (gs_type (with_output_type cfg ?t)) with (gs_type cfg).
      change (version (with_output_type cfg ?t)) with (version cfg).
      change (system_f (with_output_type cfg ?t)) with (system_f cfg).
      change (system_t (with_output_type cfg ?t)) with (system_t cfg).
      rewrite !(proj2 (string_field_agrees_r _ _)) by (eapply Hfit; in_fields).
      reflexivity.
    + unfold asc_sub_header, gsb_sub_header. cbn [map].
      change (sub_name (with_output_type cfg ?t)) with (sub_name cfg).
      change (parent (with_output_type cfg ?t)) with (parent cfg).
      change (created (with_output_type cfg ?t)) with (created cfg).
      change (updated (with_output_type cfg ?t)) with (updated cfg).
      rewrite !(proj2 (string_field_agrees_l _ _)) by (eapply Hfit; in_fields).
      reflexivity.
    + rewrite gsb_nodes_asc_nodes. reflexivity.
  - intros key s.
    split; [apply string_field_agrees_r|].
    split; [apply string_field_agrees_l|].
    split; [apply short_field_fits|].
    intros Hs Hlen. apply short_field_fits.
    rewrite (length_bytes_utf8_ascii s Hs). exact Hlen.
Qed.

(** C7, amended, on the shipped metadata, and on the sub-grid name AUSGEOI
    followed by the letter eth, which does not fit eight bytes. *)
Lemma asc_gsb_agree_witness :
  let cfg := Sample.cfg gsb in
  let dov := Some (Sample.pm Sample.gt, Sample.pv Sample.gt) in
  (map asc_field (asc_header cfg) = map gsb_field (gsb_header cfg) /\
   map asc_field (asc_sub_header cfg Sample.nval)
   = map gsb_field (gsb_sub_header cfg Sample.nval) /\
   asc_nodes cfg Sample.nval dov = gsb_nodes cfg Sample.nval dov) /\
  fits_eight_bytes "AUSGEOID" /\
  asc_field (asc_8s "SUB_NAME" Sample2.ausgeoi_eth)
  <> gsb_field (gsb_8s "SUB_NAME" (Py.slice_to 8 Sample2.ausgeoi_eth)).
Proof.
  cbv zeta.
  pose proof asc_gsb_agree as [Hruns Hfields].
  split; [|split].
  - apply (Hruns Sample.dec2dms (Sample.cfg gsb)
             (Sample.files_dov Sample.nval (Sample.pm Sample.gt) (Sample.pv Sample.gt))
             _ _ _ asc_end _ _ _ gsb_end_key gsb_end_value).
    + intros key s Hin. simpl in Hin.
      destruct Hin as [E|[E|[E|[E|[E|[E|[E|[E|[]]]]]]]]];
        injection E as <- <-; vm_compute; apply Forall_nil.
    + vm_compute. reflexivity.
    + vm_compute. reflexivity.
  - apply (proj2 (proj2 (proj2 (Hfields "SUB_NAME"%string "AUSGEOID"%string)))).
    + repeat apply Forall_cons; try apply Forall_nil; vm_compute; lia.
    + simpl. lia.
  - intros E.
    apply (proj1 (proj1 (proj2 (Hfields "SUB_NAME"%string Sample2.ausgeoi_eth)))) in E.
    vm_compute in E. inversion E as [|? ? Hc _]. discriminate Hc.
Defined.

(* ====================================================================== *)
(** ** More on the validation of the companion rasters *)
(* ====================================================================== *)

Section Validation.

Local Open Scope Q_scope.

(** [index] of a value that occurs in the tuple: a position of the tuple,
    holding an equal value. *)
Lemma index_found (i : Q) (t : list Q) :
  (exists j, In j t /\ j == i) ->
  (Py.index i t < List.length t)%nat /\ Py.getitem t (Py.index i t) == i.
Proof.
  unfold Py.getitem. induction t as [|a t IH]; intros (j & Hin & Hj).
  - destruct Hin.
  - simpl. destruct (Qeq_bool a i) eqn:E.
    + apply Qeq_bool_iff in E. split; [lia | exact E].
    + destruct Hin as [-> | Hin].
      * apply Qeq_bool_iff in Hj. congruence.
      * destruct IH as [Hlt Hv]; [exists j; split; assumption|].
        split; [lia | exact Hv].
Qed.

Lemma index_of_member (gt_n : Raster) (i : Q) :
  In i (extents (GetGeoTransform gt_n)) ->
  (Py.index i (extents (GetGeoTransform gt_n)) < 6)%nat /\
  Py.getitem (extents (GetGeoTransform gt_n))
             (Py.index i (extents (GetGeoTransform gt_n))) == i.
Proof.
  intros Hin.
  apply (index_found i (extents (GetGeoTransform gt_n))).
  exists i. split; [exact Hin | reflexivity].
Qed.

Lemma gtb_false_le (a b : Q) : a <= b -> Py.gtb a b = false.
Proof.
  intros H. unfold Py.gtb. apply negb_false_iff, Qle_bool_iff, H.
Qed.

Lemma mismatch_of_within (gt_n gt_dov : Raster) (i : Q) :
  within_tolerance gt_n gt_dov ->
  In i (extents (GetGeoTransform gt_n)) ->
  mismatch_of gt_n gt_dov i = [].
Proof.
  intros Htol Hin. unfold mismatch_of.
  destruct (index_of_member gt_n i Hin) as [Hlt Hv].
  rewrite gtb_false_le; [reflexivity|].
  apply binary64_abs_le; [apply is_float_binary64|].
  rewrite <- Hv at 1. apply Htol, Hlt.
Qed.

(** The float difference of two components exceeds the tolerance only if
    the components differ by more than the tolerance. *)
Lemma mismatch_of_truly (gt_n gt_dov : Raster) (i : Q) (m : Mismatch) :
  In i (extents (GetGeoTransform gt_n)) ->
  In m (mismatch_of gt_n gt_dov i) ->
  reports_truly gt_n gt_dov m.
Proof.
  intros Hin Hm. unfold mismatch_of in Hm.
  destruct (index_of_member gt_n i Hin) as [Hlt Hv].
  destruct (Py.gtb _ _) eqn:E; [|destruct Hm].
  destruct Hm as [<- | []]. apply gtb_gt in E.
  set (k := Py.index i (extents (GetGeoTransform gt_n))) in *.
  split; [reflexivity|]. split; [reflexivity|]. split; [exact Hlt|].
  split; [symmetry; exact Hv|]. split; [reflexivity|].
  change (match_precision
          < Qabs (Py.getitem (extents (GetGeoTransform gt_n)) k
                  - Py.getitem (extents (GetGeoTransform gt_dov)) k)).
  rewrite Hv. apply Qnot_le_lt. intros Hle.
  apply (binary64_abs_le _ _ (is_float_binary64 _)) in Hle.
  apply (Qlt_not_le _ _ E). exact Hle.
Qed.

End Validation.

(** X2: when every component of both companions agrees with the geoid
    raster's within [match_precision], the loop reports nothing, whatever
    values repeat in the geotransform, and the run goes on to the metadata
    summary or to the writer. *)
Theorem agreeing_grids_pass (dec2dms : Q -> DMSAngle.t) (cfg : Config)
        (gt_n gt_pm gt_pv : Raster) :
  within_tolerance gt_n gt_pm ->
  within_tolerance gt_n gt_pv ->
  grid_mismatch gt_n gt_pm gt_pv = [] /\
  run dec2dms cfg
      {| tif_nval_file := gt_n;
         tif_dov_pm_file := Some gt_pm; tif_dov_pv_file := Some gt_pv |}
  = if print_tif_metadata cfg then MetadataExit
    else write_file dec2dms cfg gt_n (Some (gt_pm, gt_pv)).
Proof.
  intros Hpm Hpv.
  assert (Hnil : grid_mismatch gt_n gt_pm gt_pv = []).
  { unfold grid_mismatch. rewrite flat_map_concat_map.
    apply concat_nil_Forall, Forall_forall. intros l Hl.
    apply in_map_iff in Hl as (i & <- & Hi).
    rewrite (mismatch_of_within gt_n gt_pm i Hpm Hi).
    rewrite (mismatch_of_within gt_n gt_pv i Hpv Hi). reflexivity. }
  split; [exact Hnil|].
  unfold run, read_dov.
  cbn [tif_nval_file tif_dov_pm_file tif_dov_pv_file is_file andb].
  rewrite Hnil. reflexivity.
Qed.

Lemma agreeing_grids_pass_witness :
  grid_mismatch Sample.nval (Sample.pm Sample2.gt_nudged) (Sample.pv Sample.gt) = [] /\
  run Sample.dec2dms (Sample.cfg asc)
      {| tif_nval_file := Sample.nval;
         tif_dov_pm_file := Some (Sample.pm Sample2.gt_nudged);
         tif_dov_pv_file := Some (Sample.pv Sample.gt) |}
  = if print_tif_metadata (Sample.cfg asc) then MetadataExit
    else write_file Sample.dec2dms (Sample.cfg asc) Sample.nval
                    (Some (Sample.pm Sample2.gt_nudged, Sample.pv Sample.gt)).
Proof.
  apply agreeing_grids_pass.
  - intros k Hk.
    do 6 (destruct k as [|k]; [vm_compute; discriminate|]). lia.
  - intros k Hk.
    do 6 (destruct k as [|k]; [vm_compute; discriminate|]). lia.
Defined.

(** X3: a run that stops on a mismatch reports at least one entry, and every
    entry is true of one of the two companions: it names the geoid file and
    that companion, an index below six, the two components at that index,
    and these differ by more than [match_precision]. *)
Theorem mismatch_report_is_true (dec2dms : Q -> DMSAngle.t) (cfg : Config)
        (fs : Files) (report : list Mismatch) :
  run dec2dms cfg fs = MismatchExit report ->
  report <> [] /\
  exists gt_pm gt_pv : Raster,
    tif_dov_pm_file fs = Some gt_pm /\
    tif_dov_pv_file fs = Some gt_pv /\
    Forall (fun m => reports_truly (tif_nval_file fs) gt_pm m \/
                     reports_truly (tif_nval_file fs) gt_pv m) report.
Proof.
  unfold run. intros Hrun.
  assert (Hw : forall dov, write_file dec2dms cfg (tif_nval_file fs) dov
                           <> MismatchExit report).
  { intros dov. unfold write_file.
    destruct (output_type cfg); try discriminate.
    destruct (_ && _); discriminate. }
  destruct (read_dov fs).
  - destruct (tif_dov_pm_file fs) as [gt_pm|]; [|discriminate].
    destruct (tif_dov_pv_file fs) as [gt_pv|]; [|discriminate].
    destruct (grid_mismatch (tif_nval_file fs) gt_pm gt_pv) as [|m0 l] eqn:Eg.
    + destruct (print_tif_metadata cfg); [discriminate|].
      exfalso. exact (Hw _ Hrun).
    + injection Hrun as <-. split; [discriminate|].
      exists gt_pm, gt_pv. split; [reflexivity|]. split; [reflexivity|].
      rewrite <- Eg. apply Forall_forall. intros m Hm.
      unfold grid_mismatch in Hm.
      apply in_flat_map in Hm as (i & Hi & Hm).
      apply in_app_or in Hm as [Hm | Hm].
      * left. exact (mismatch_of_truly _ _ i m Hi Hm).
      * right. exact (mismatch_of_truly _ _ i m Hi Hm).
  - destruct (print_tif_metadata cfg); [discriminate|].
    exfalso. exact (Hw _ Hrun).
Qed.

Lemma mismatch_report_is_true_witness :
  exists report : list Mismatch,
    run Sample.dec2dms (Sample.cfg gsb)
        (Sample.files_dov Sample.nval (Sample.pm Sample.gt_south) (Sample.pv Sample.gt))
    = MismatchExit report /\
    report <> [] /\
    exists gt_pm gt_pv : Raster,
      Some (Sample.pm Sample.gt_south) = Some gt_pm /\
      Some (Sample.pv Sample.gt) = Some gt_pv /\
      Forall (fun m => reports_truly Sample.nval gt_pm m \/
                       reports_truly Sample.nval gt_pv m) report.
Proof.
  eexists. split; [vm_compute; reflexivity|].
  apply (mismatch_report_is_true Sample.dec2dms (Sample.cfg gsb)
           (Sample.files_dov Sample.nval (Sample.pm Sample.gt_south)
                             (Sample.pv Sample.gt))).
  vm_compute. reflexivity.
Defined.

(** X4: whether the deflection rasters are read depends on the
    prime-vertical file alone (line 58 tests it twice). Without it the run
    is the run on the geoid raster alone, a meridian file being ignored;
    with it and without the meridian file the run stops when the missing
    file is opened. *)
Theorem companions_follow_pv_file (dec2dms : Q -> DMSAngle.t) (cfg : Config)
        (fs : Files) :
  (tif_dov_pv_file fs = None ->
   run dec2dms cfg fs = run dec2dms cfg (without_dov fs)) /\
  (tif_dov_pv_file fs <> None -> tif_dov_pm_file fs = None ->
   run dec2dms cfg fs = OpenError).
Proof.
  split.
  - intros Hpv. unfold run, read_dov. rewrite Hpv. reflexivity.
  - intros Hpv Hpm. unfold run, read_dov. rewrite Hpm.
    destruct (tif_dov_pv_file fs); [reflexivity | contradiction].
Qed.

Lemma companions_follow_pv_file_witness :
  run Sample.dec2dms (Sample.cfg gsb) Sample2.files_pm_only
  = run Sample.dec2dms (Sample.cfg gsb) (without_dov Sample2.files_pm_only) /\
  run Sample.dec2dms (Sample.cfg gsb) Sample2.files_pv_only = OpenError.
Proof.
  split.
  - apply (proj1 (companions_follow_pv_file Sample.dec2dms (Sample.cfg gsb)
                    Sample2.files_pm_only)).
    reflexivity.
  - apply (proj2 (companions_follow_pv_file Sample.dec2dms (Sample.cfg gsb)
                    Sample2.files_pv_only)).
    + discriminate.
    + reflexivity.
Defined.

(* ====================================================================== *)
(** ** More on the writers *)
(* ====================================================================== *)

Section NodeLists.

Lemma length_nested {A B C : Type} (f : A -> B -> C) (ys : list A) (xs : list B) :
  List.length (flat_map (fun y => map (fun x => f y x) xs) ys)
  = (List.length ys * List.length xs)%nat.
Proof.
  induction ys as [|y ys IH]; [reflexivity|].
  simpl. rewrite length_app, length_map, IH. reflexivity.
Qed.

Lemma length_range_ascending (n : Z) : List.length (Py.range 0 n 1) = Z.to_nat n.
Proof. rewrite range_ascending, length_map, length_seq. reflexivity. Qed.

Lemma length_range_descending (n : Z) :
  List.length (Py.range (n - 1) (-1) (-1)) = Z.to_nat n.
Proof. rewrite range_descending, length_map, length_seq. reflexivity. Qed.

Lemma countdown_rev (m : nat) :
  map (fun i => Z.of_nat m - 1 - Z.of_nat i) (seq 0 m)
  = rev (map Z.of_nat (seq 0 m)).
Proof.
  induction m as [|m IH]; [reflexivity|].
  assert (R : rev (map Z.of_nat (seq 0 (S m)))
              = Z.of_nat m :: rev (map Z.of_nat (seq 0 m))).
  { rewrite seq_S, map_app, rev_app_distr. reflexivity. }
  rewrite R, <- IH. cbn [seq map].
  f_equal; [lia|].
  rewrite <- seq_shift, map_map. apply map_ext. intros i. lia.
Qed.

(** The descending range is the ascending one reversed. *)
Lemma range_descending_rev (n : Z) :
  Py.range (n - 1) (-1) (-1) = rev (Py.range 0 n 1).
Proof.
  rewrite range_descending, range_ascending, <- countdown_rev.
  destruct (Z.le_gt_cases n 0) as [Hn | Hn].
  - replace (Z.to_nat n) with 0%nat by lia. reflexivity.
  - rewrite Z2Nat.id by lia. reflexivity.
Qed.

Lemma rev_nested {A B C : Type} (f : A -> B -> C) (ys : list A) (xs : list B) :
  rev (flat_map (fun y => map (fun x => f y x) xs) ys)
  = flat_map (fun y => map (fun x => f y x) (rev xs)) (rev ys).
Proof.
  induction ys as [|y ys IH]; [reflexivity|].
  simpl. rewrite rev_app_distr, IH, flat_map_app. simpl.
  rewrite app_nil_r, map_rev. reflexivity.
Qed.

Variable dec2dms : Q -> DMSAngle.t.
Variable cfg : Config.
Variable gt_n : Raster.
Variable dov : option (Raster * Raster).

Lemma asc_nodes_rev :
  asc_nodes cfg gt_n dov
  = rev (row_major (asc_node cfg gt_n dov) (RasterXSize gt_n) (RasterYSize gt_n)).
Proof.
  unfold asc_nodes, row_major. rewrite rev_nested, !range_descending_rev.
  reflexivity.
Qed.

Lemma length_asc_nodes :
  List.length (asc_nodes cfg gt_n dov)
  = (Z.to_nat (RasterYSize gt_n) * Z.to_nat (RasterXSize gt_n))%nat.
Proof.
  unfold asc_nodes. rewrite length_nested, !length_range_descending. reflexivity.
Qed.

Lemma length_winter_nodes :
  List.length (winter_nodes dec2dms cfg gt_n dov)
  = (Z.to_nat (RasterYSize gt_n) * Z.to_nat (RasterXSize gt_n))%nat.
Proof.
  unfold winter_nodes. rewrite length_nested, !length_range_ascending. reflexivity.
Qed.

End NodeLists.

(** X5: the text and the binary writer emit the raster's cells in exactly
    the reverse of raster order: their node list is the row-major list of the
    cells' nodes, reversed; the WINTER writer's node list is the row-major
    list itself. This holds for every raster size, an empty raster
    included. *)
Theorem asc_gsb_reverse_raster_order (dec2dms : Q -> DMSAngle.t) (cfg : Config)
        (gt_n : Raster) (dov : option (Raster * Raster)) :
  let W := RasterXSize gt_n in
  let H := RasterYSize gt_n in
  asc_nodes cfg gt_n dov = rev (row_major (asc_node cfg gt_n dov) W H) /\
  gsb_nodes cfg gt_n dov = rev (row_major (gsb_node cfg gt_n dov) W H) /\
  winter_nodes dec2dms cfg gt_n dov = row_major (winter_node dec2dms cfg gt_n dov) W H.
Proof.
  cbv zeta. split; [apply asc_nodes_rev|]. split; [|reflexivity].
  unfold gsb_nodes, row_major. rewrite rev_nested, !range_descending_rev.
  reflexivity.
Qed.

(** X6: a written file holds one node record per cell, and the text and the
    binary file announce that number under GS_COUNT: for a raster of width
    [W >= 0] and height [H >= 0] the number of node records is [W * H] and
    equals the GS_COUNT of the sub-grid header. *)
Theorem node_count_matches (dec2dms : Q -> DMSAngle.t) (cfg : Config)
        (fs : Files) (out : Output) :
  0 <= RasterXSize (tif_nval_file fs) ->
  0 <= RasterYSize (tif_nval_file fs) ->
  run dec2dms cfg fs = Written out ->
  Z.of_nat (node_records out) = gs_count (tif_nval_file fs) /\
  (output_type cfg <> winter ->
   announced_count out = Some (IntValue (Z.of_nat (node_records out)))).
Proof.
  intros HW HH Hrun.
  destruct (run_written _ _ _ _ Hrun) as (dov & Hw & _).
  assert (Hn : Z.of_nat (Z.to_nat (RasterYSize (tif_nval_file fs))
                         * Z.to_nat (RasterXSize (tif_nval_file fs)))
               = gs_count (tif_nval_file fs)).
  { unfold gs_count. rewrite Nat2Z.inj_mul, !Z2Nat.id by assumption. lia. }
  unfold write_file in Hw. destruct (output_type cfg).
  - injection Hw as <-. cbn [node_records announced_count].
    rewrite length_asc_nodes, Hn. split; [reflexivity|]. intros _. reflexivity.
  - destruct (_ && _); [|discriminate].
    injection Hw as <-. cbn [node_records announced_count].
    rewrite gsb_nodes_asc_nodes, length_asc_nodes, Hn.
    split; [reflexivity|]. intros _. reflexivity.
  - injection Hw as <-. cbn [node_records].
    rewrite length_winter_nodes, Hn. split; [reflexivity|].
    intros Hne. contradiction.
Qed.

Lemma node_count_matches_witness :
  Z.of_nat (node_records
              (AscFile (asc_header (Sample.cfg asc))
                       (asc_sub_header (Sample.cfg asc) Sample.nval_3x2)
                       (asc_nodes (Sample.cfg asc) Sample.nval_3x2 None)
                       asc_end))
  = gs_count Sample.nval_3x2 /\
  (output_type (Sample.cfg asc) <> winter ->
   announced_count
     (AscFile (asc_header (Sample.cfg asc))
              (asc_sub_header (Sample.cfg asc) Sample.nval_3x2)
              (asc_nodes (Sample.cfg asc) Sample.nval_3x2 None)
              asc_end)
   = Some (IntValue
             (Z.of_nat
                (node_records
                   (AscFile (asc_header (Sample.cfg asc))
                            (asc_sub_header (Sample.cfg asc) Sample.nval_3x2)
                            (asc_nodes (Sample.cfg asc) Sample.nval_3x2 None)
                            asc_end))))).
Proof.
  apply (node_count_matches Sample.dec2dms (Sample.cfg asc)
           (Sample.files_plain Sample.nval_3x2)).
  - simpl. lia.
  - simpl. lia.
  - reflexivity.
Defined.

(** X7: the binary writer cannot announce more than [2^31 - 1] nodes: on a
    raster with [2^31] cells or more a [gsb] run never ends with its file
    written, while the text and the WINTER writer never fail in
    [struct.pack]. *)
Theorem gsb_node_count_limit (dec2dms : Q -> DMSAngle.t) (cfg : Config) (fs : Files) :
  (output_type cfg = gsb ->
   2 ^ 31 <= RasterXSize (tif_nval_file fs) * RasterYSize (tif_nval_file fs) ->
   is_written (run dec2dms cfg fs) = false) /\
  (output_type cfg <> gsb -> run dec2dms cfg fs <> StructError).
Proof.
  split.
  - intros Ht Hbig.
    assert (Hw : forall dov,
               is_written (write_file dec2dms cfg (tif_nval_file fs) dov) = false).
    { intros dov. unfold write_file. rewrite Ht.
      assert (Hsub : forallb gsb_item_ok (gsb_sub_header cfg (tif_nval_file fs)) = false).
      { cbn [gsb_sub_header forallb gsb_item_ok]. unfold pack_i_ok, gs_count.
        replace (_ <? 2 ^ 31) with false by (symmetry; apply Z.ltb_ge; exact Hbig).
        rewrite !andb_false_r. reflexivity. }
      rewrite Hsub, andb_false_r. reflexivity. }
    unfold run. destruct (read_dov fs).
    + destruct (tif_dov_pm_file fs); [|reflexivity].
      destruct (tif_dov_pv_file fs); [|reflexivity].
      destruct (grid_mismatch _ _ _); [|reflexivity].
      destruct (print_tif_metadata cfg); [reflexivity | apply Hw].
    + destruct (print_tif_metadata cfg); [reflexivity | apply Hw].
  - intros Ht.
    assert (Hw : forall dov,
               write_file dec2dms cfg (tif_nval_file fs) dov <> StructError).
    { intros dov. unfold write_file.
      destruct (output_type cfg); [discriminate | contradiction | discriminate]. }
    unfold run. destruct (read_dov fs).
    + destruct (tif_dov_pm_file fs); [|discriminate].
      destruct (tif_dov_pv_file fs); [|discriminate].
      destruct (grid_mismatch _ _ _); [|discriminate].
      destruct (print_tif_metadata cfg); [discriminate | apply Hw].
    + destruct (print_tif_metadata cfg); [discriminate | apply Hw].
Qed.

Lemma gsb_node_count_limit_witness :
  is_written (run Sample.dec2dms (Sample.cfg gsb)
                  (Sample.files_plain Sample2.nval_huge)) = false /\
  run Sample.dec2dms (Sample.cfg asc) (Sample.files_plain Sample.nval) <> StructError.
Proof.
  split.
  - apply (proj1 (gsb_node_count_limit Sample.dec2dms (Sample.cfg gsb)
                    (Sample.files_plain Sample2.nval_huge))).
    + reflexivity.
    + simpl. lia.
  - apply (proj2 (gsb_node_count_limit Sample.dec2dms (Sample.cfg asc)
                    (Sample.files_plain Sample.nval))).
    discriminate.
Defined.

(** X8: the first line of a WINTER file has no fixed width. It holds the
    first 20 characters of the output file's name (the stem followed by
    [_win.dat]), not padded, then 20 blanks and the 21-character
    attribution: its length is [min 20 (len stem + 8) + 41], which is the
    full 61 only from a stem of 12 characters on. *)
Theorem winter_title_length (gt_n : Raster) :
  String.length (winter_title gt_n)
  = (Nat.min 20 (String.length (stem gt_n) + 8) + 41)%nat /\
  ((12 <= String.length (stem gt_n))%nat <->
   String.length (winter_title gt_n) = 61%nat).
Proof.
  assert (Hlen : String.length (winter_title gt_n)
                 = (Nat.min 20 (String.length (stem gt_n) + 8) + 41)%nat).
  { unfold winter_title.
    rewrite !length_append, length_slice_to, length_append,
      length_format_ljust, length_format_rjust.
    simpl String.length. lia. }
  split; [exact Hlen|]. rewrite Hlen. lia.
Qed.

(* ====================================================================== *)
(** ** More on [check_rounding] *)
(* ====================================================================== *)

Section CheckRoundingMore.

Local Open Scope Q_scope.

Lemma pow10_pos (p : Z) : 0 < 10 ^ p.
Proof. apply Qpower_0_lt. reflexivity. Qed.

(** [10 ** -p] is a positive float up to 323 places; from 324 places on it
    is zero. *)
Lemma pow10_neg_pos (p : Z) : (p <= 323)%Z -> 0 < Py.pow10_neg p.
Proof.
  intros Hp. unfold Py.pow10_neg.
  destruct (p <=? 0)%Z; [apply pow10_pos|].
  apply Qlt_le_trans with (2 ^ (-1074)); [reflexivity|].
  apply binary64_ge.
  - exists 1%Z, (-1074)%Z. split; [ring | split; [simpl; lia | lia]].
  - apply Qle_trans with (10 ^ (-323)); [vm_compute; discriminate|].
    apply Qpower_le_compat_l; [lia | discriminate].
Qed.

Lemma pow10_neg_zero : Py.pow10_neg 324 == 0.
Proof. vm_compute. reflexivity. Qed.

(** Seconds that round to 60 are at distance zero from 60. *)
Lemma rounded_60_near (x : Q) (p : Z) :
  Py.round x p == 60 -> Qabs (Py.sub (Py.round x p) 60) == 0.
Proof.
  intros H. rewrite H.
  assert (E : Py.sub 60 60 == 0) by reflexivity.
  rewrite E. reflexivity.
Qed.

(** At three places: the thousandths [k] the seconds round to decide the
    test of line 95. *)
Lemma round_3 (x : Q) :
  Py.round x 3 = Py.binary64 (inject_Z (Py.round_half_even (x * 1000)) / 1000).
Proof.
  unfold Py.round.
  rewrite (round_half_even_comp (x * 10 ^ 3) (x * 1000)) by reflexivity.
  apply binary64_comp. reflexivity.
Qed.

Lemma test_3_below (x : Q) :
  (Py.round_half_even (x * 1000) <= 59998)%Z ->
  ~ Qabs (Py.sub (Py.round x 3) 60) < Py.pow10_neg 3.
Proof.
  intros Hk. rewrite round_3.
  set (k := Py.round_half_even (x * 1000)) in *.
  assert (Hq : inject_Z k / 1000 <= 60 - (3 # 2048)).
  { rewrite Zle_Qle in Hk. change (inject_Z 59998) with 59998 in Hk.
    apply Qle_shift_div_r; [reflexivity|].
    apply Qle_trans with 59998; [exact Hk | discriminate]. }
  assert (Hr : Py.binary64 (inject_Z k / 1000) <= 60 - (3 # 2048)).
  { apply binary64_le; [|exact Hq].
    exists 122877%Z, (-11)%Z. split; [reflexivity | split; [simpl; lia | lia]]. }
  assert (Hs : Py.sub (Py.binary64 (inject_Z k / 1000)) 60 <= - (3 # 2048)).
  { apply binary64_le; [|lra].
    exists (-3)%Z, (-11)%Z. split; [reflexivity | split; [simpl; lia | lia]]. }
  intros Hlt. rewrite Qabs_neg in Hlt by lra.
  assert (Hp : Py.pow10_neg 3 <= 3 # 2048) by (vm_compute; discriminate).
  lra.
Qed.

Lemma test_3_above (x : Q) :
  (60002 <= Py.round_half_even (x * 1000))%Z ->
  ~ Qabs (Py.sub (Py.round x 3) 60) < Py.pow10_neg 3.
Proof.
  intros Hk. rewrite round_3.
  set (k := Py.round_half_even (x * 1000)) in *.
  assert (Hq : 60 + (3 # 2048) <= inject_Z k / 1000).
  { rewrite Zle_Qle in Hk. change (inject_Z 60002) with 60002 in Hk.
    apply Qle_shift_div_l; [reflexivity|].
    apply Qle_trans with 60002; [discriminate | exact Hk]. }
  assert (Hr : 60 + (3 # 2048) <= Py.binary64 (inject_Z k / 1000)).
  { apply binary64_ge; [|exact Hq].
    exists 122883%Z, (-11)%Z. split; [reflexivity | split; [simpl; lia | lia]]. }
  assert (Hs : 3 # 2048 <= Py.sub (Py.binary64 (inject_Z k / 1000)) 60).
  { apply binary64_ge; [|lra].
    exists 3%Z, (-11)%Z. split; [reflexivity | split; [simpl; lia | lia]]. }
  intros Hlt. rewrite Qabs_pos in Hlt by lra.
  assert (Hp : Py.pow10_neg 3 <= 3 # 2048) by (vm_compute; discriminate).
  lra.
Qed.

Lemma test_3_near (x : Q) :
  (59999 <= Py.round_half_even (x * 1000) <= 60001)%Z ->
  Py.ltb (Qabs (Py.sub (Py.round x 3) 60)) (Py.pow10_neg 3) = true.
Proof.
  intros Hk. rewrite round_3.
  set (k := Py.round_half_even (x * 1000)) in *.
  assert (Hc : k = 59999%Z \/ k = 60000%Z \/ k = 60001%Z) by lia.
  destruct Hc as [-> | [-> | ->]]; vm_compute; reflexivity.
Qed.

End CheckRoundingMore.

(** X9: at the precision the script passes, 3, the test of line 95 holds
    exactly when the seconds round to 59.999, 60.000 or 60.001, that is when
    [k], the nearest integer to a thousand times the seconds, is 59999, 60000
    or 60001: then [check_rounding] resets the seconds and carries a minute,
    otherwise it leaves the angle alone. At every precision up to 323 it
    carries when the rounded seconds are 60. *)
Theorem check_rounding_carries_iff (a : DMSAngle.t) :
  let k := Py.round_half_even (DMSAngle.second a * 1000) in
  let carried (p : Z) :=
    DMSAngle.second (check_rounding a p) = 0%Q /\
    60 * DMSAngle.degree (check_rounding a p) + DMSAngle.minute (check_rounding a p)
    = 60 * DMSAngle.degree a + DMSAngle.minute a + 1
      - (if 360 <=? DMSAngle.degree a + 1
         then (if 60 <=? DMSAngle.minute a + 1 then 21600 else 0)
         else 0) in
  (59999 <= k <= 60001 -> carried 3) /\
  (~ 59999 <= k <= 60001 -> check_rounding a 3 = a) /\
  (forall p : Z,
      p <= 323 -> (Py.round (DMSAngle.second a) p == 60)%Q -> carried p).
Proof.
  intros k carried.
  assert (Hc : forall p : Z,
             Py.ltb (Qabs (Py.sub (Py.round (DMSAngle.second a) p) 60))
                    (Py.pow10_neg p) = true -> carried p).
  { intros p E. split; [apply check_rounding_resets_seconds, E|].
    unfold check_rounding. rewrite E. cbv zeta.
    destruct (60 <=? DMSAngle.minute a + 1) eqn:Em;
      [destruct (360 <=? DMSAngle.degree a + 1) eqn:Ed|
       destruct (360 <=? DMSAngle.degree a + 1) eqn:Ed];
      cbn [DMSAngle.degree DMSAngle.minute]; lia. }
  split; [|split].
  - intros Hk. apply Hc, test_3_near, Hk.
  - intros Hk. apply check_rounding_unchanged.
    destruct (Z_le_gt_dec k 59998) as [Hlo | Hlo]; [apply test_3_below, Hlo|].
    apply test_3_above. fold k. lia.
  - intros p Hp H60. apply Hc, ltb_lt.
    rewrite (rounded_60_near _ _ H60). apply pow10_neg_pos, Hp.
Qed.

(** X9 on the seconds 59.9996, 59.9991 and 59.9985 after 12 59, and on
    12 30 15.5: the first two angles become 13 0 0.0, the others stay. *)
Lemma check_rounding_carries_iff_witness :
  (DMSAngle.second (check_rounding Sample2.angle_12_59_59_9996 3) = 0%Q /\
   60 * DMSAngle.degree (check_rounding Sample2.angle_12_59_59_9996 3)
   + DMSAngle.minute (check_rounding Sample2.angle_12_59_59_9996 3)
   = 60 * 12 + 59 + 1 - 0) /\
  (DMSAngle.second (check_rounding Sample2.angle_12_59_59_9991 3) = 0%Q /\
   60 * DMSAngle.degree (check_rounding Sample2.angle_12_59_59_9991 3)
   + DMSAngle.minute (check_rounding Sample2.angle_12_59_59_9991 3)
   = 60 * 12 + 59 + 1 - 0) /\
  check_rounding Sample2.angle_12_59_59_9985 3 = Sample2.angle_12_59_59_9985 /\
  check_rounding Sample2.angle_12_30_15_5 3 = Sample2.angle_12_30_15_5 /\
  (DMSAngle.second (check_rounding Sample2.angle_12_59_59_9996 2) = 0%Q /\
   60 * DMSAngle.degree (check_rounding Sample2.angle_12_59_59_9996 2)
   + DMSAngle.minute (check_rounding Sample2.angle_12_59_59_9996 2)
   = 60 * 12 + 59 + 1 - 0).
Proof.
  split; [|split; [|split; [|split]]].
  - apply (proj1 (check_rounding_carries_iff Sample2.angle_12_59_59_9996)).
    vm_compute. split; discriminate.
  - apply (proj1 (check_rounding_carries_iff Sample2.angle_12_59_59_9991)).
    vm_compute. split; discriminate.
  - apply (proj1 (proj2 (check_rounding_carries_iff Sample2.angle_12_59_59_9985))).
    vm_compute. intros [H _]. apply H. reflexivity.
  - apply (proj1 (proj2 (check_rounding_carries_iff Sample2.angle_12_30_15_5))).
    vm_compute. intros [H _]. apply H. reflexivity.
  - apply (proj2 (proj2 (check_rounding_carries_iff Sample2.angle_12_59_59_9996)) 2).
    + lia.
    + vm_compute. reflexivity.
Defined.

(** X10: whatever the angle, at every precision up to 323 the seconds
    [check_rounding] leaves never round to 60. (From 324 places on
    [10 ** -precision] is the float zero, the test of line 95 never holds and
    seconds of 60 stay.) *)
Theorem check_rounding_never_60 (a : DMSAngle.t) (p : Z) :
  p <= 323 ->
  ~ (Py.round (DMSAngle.second (check_rounding a p)) p == 60)%Q.
Proof.
  intros Hp H60.
  destruct (Py.ltb (Qabs (Py.sub (Py.round (DMSAngle.second a) p) 60))
                   (Py.pow10_neg p)) eqn:E.
  - rewrite (check_rounding_resets_seconds a p E), round_zero in H60.
    discriminate H60.
  - assert (Hu : check_rounding a p = a).
    { unfold check_rounding. rewrite E. reflexivity. }
    rewrite Hu in H60.
    assert (Et : Py.ltb (Qabs (Py.sub (Py.round (DMSAngle.second a) p) 60))
                        (Py.pow10_neg p) = true).
    { apply ltb_lt. rewrite (rounded_60_near _ _ H60).
      apply pow10_neg_pos, Hp. }
    congruence.
Qed.

Lemma check_rounding_never_60_witness :
  ~ (Py.round (DMSAngle.second (check_rounding Sample.angle_359_59_59_9996 3)) 3
     == 60)%Q.
Proof. apply check_rounding_never_60. lia. Defined.

(** X11: [check_rounding] keeps a normalized angle normalized: minutes in
    0..59 and degrees in 0..359 stay so, and the sign is never changed. *)
Theorem check_rounding_keeps_ranges (a : DMSAngle.t) (p : Z) :
  0 <= DMSAngle.minute a < 60 ->
  0 <= DMSAngle.degree a < 360 ->
  0 <= DMSAngle.minute (check_rounding a p) < 60 /\
  0 <= DMSAngle.degree (check_rounding a p) < 360 /\
  DMSAngle.positive (check_rounding a p) = DMSAngle.positive a.
Proof.
  intros Hm Hd. unfold check_rounding.
  destruct (Py.ltb _ _); [|repeat split; (lia || reflexivity)].
  cbv zeta.
  destruct (60 <=? DMSAngle.minute a + 1) eqn:Em;
    [apply Z.leb_le in Em | apply Z.leb_gt in Em].
  - destruct (360 <=? DMSAngle.degree a + 1) eqn:Ed;
      [apply Z.leb_le in Ed | apply Z.leb_gt in Ed];
      cbn [DMSAngle.positive DMSAngle.minute DMSAngle.degree];
      repeat split; (lia || reflexivity).
  - cbn [DMSAngle.positive DMSAngle.minute DMSAngle.degree].
    repeat split; (lia || reflexivity).
Qed.

Lemma check_rounding_keeps_ranges_witness :
  0 <= DMSAngle.minute (check_rounding Sample.angle_359_59_59_9996 3) < 60 /\
  0 <= DMSAngle.degree (check_rounding Sample.angle_359_59_59_9996 3) < 360 /\
  DMSAngle.positive (check_rounding Sample.angle_359_59_59_9996 3)
  = DMSAngle.positive Sample.angle_359_59_59_9996.
Proof.
  apply check_rounding_keeps_ranges; simpl; lia.
Defined.

(* ====================================================================== *)
(** ** More on the grid extents *)
(* ====================================================================== *)

Section ExtentsMore.

Local Open Scope Q_scope.

(** A product below a half in magnitude is a float of at most a half. *)
Lemma mul_small (a b : Q) : Qabs (a * b) < 1 # 2 -> Qabs (Py.mul a b) <= 1 # 2.
Proof.
  intros H. apply binary64_abs_le; [|apply Qlt_le_weak, H].
  exists 1%Z, (-1)%Z. split; [reflexivity | split; [simpl; lia | lia]].
Qed.

(** Nothing is taken off an edge when the increment is zero. *)
Lemma sub_nothing (a n inc : Q) :
  is_float a -> inc == 0 -> Py.sub a (Py.mul n inc) == a.
Proof.
  intros Ha Hz. rewrite Hz, mul_zero_r. apply sub_zero, Ha.
Qed.

End ExtentsMore.

(** X13: pixels finer than half an arc-second are not refused: the
    increment is written as zero and the far edge coincides with the near
    one, south with the origin latitude in arc-seconds and east with west. *)
Theorem fine_pixels_collapse (gt_n : Raster) :
  ((Qabs (y_int (GetGeoTransform gt_n)) * 3600 < 1 # 2)%Q ->
   (lat_inc gt_n == 0)%Q /\
   (s_lat gt_n == Py.mul (y_ul (GetGeoTransform gt_n)) 3600)%Q) /\
  ((Qabs (x_int (GetGeoTransform gt_n) * 3600) < 1 # 2)%Q ->
   (lon_inc gt_n == 0)%Q /\ (e_lon gt_n == w_lon gt_n)%Q).
Proof.
  split.
  - intros Hs.
    assert (Hz : (lat_inc gt_n == 0)%Q).
    { unfold lat_inc. apply round_0_small, mul_small.
      rewrite Qabs_pos; [exact Hs|].
      pose proof (Qabs_nonneg (y_int (GetGeoTransform gt_n))). nra. }
    split; [exact Hz|]. unfold s_lat.
    apply sub_nothing; [apply is_float_binary64 | exact Hz].
  - intros Hs.
    assert (Hz : (lon_inc gt_n == 0)%Q).
    { unfold lon_inc. apply round_0_small, mul_small, Hs. }
    split; [exact Hz|]. unfold e_lon, w_lon.
    apply sub_nothing; [apply is_float_binary64 | exact Hz].
Qed.

Lemma fine_pixels_collapse_witness :
  (lat_inc (with_geotransform Sample.nval Sample2.gt_quarter) == 0)%Q /\
  (s_lat (with_geotransform Sample.nval Sample2.gt_quarter)
   == Py.mul (y_ul Sample2.gt_quarter) 3600)%Q /\
  (lon_inc (with_geotransform Sample.nval Sample2.gt_quarter) == 0)%Q /\
  (e_lon (with_geotransform Sample.nval Sample2.gt_quarter)
   == w_lon (with_geotransform Sample.nval Sample2.gt_quarter))%Q.
Proof.
  destruct (fine_pixels_collapse (with_geotransform Sample.nval Sample2.gt_quarter))
    as [Hlat Hlon].
  destruct Hlat as [H1 H2]; [vm_compute; reflexivity|].
  destruct Hlon as [H3 H4]; [vm_compute; reflexivity|].
  split; [exact H1|]. split; [exact H2|]. split; [exact H3 | exact H4].
Defined.
